(** * Oracle graph ETL: a shallow embedding of the Python sources

    The development follows five source files:
    - [copy_to_freepdb1.py]: [copy_table] and the script around it;
    - [main_app/pest_analysis_classes.py]: class [PestDataAnalyzer] and
      [main];
    - [main_app/pgx_rest_client.py]: class [PGXRestClient] and its example;
    - [pgql_queries.py] and [run_graph_analytics.py]: the query scripts.

    The programs talk to a database, an HTTP server, the file system and the
    clock.  Every such call goes through an abstract environment that decides
    whether the call returns or raises; the embedding records the calls in a
    trace.  All theorems quantify over the environment. *)

From Stdlib Require Import List String Ascii ZArith QArith Bool Lia.
From Stdlib Require Import DecimalString.
Import ListNotations.

Local Open Scope list_scope.
Local Open Scope Z_scope.
Local Open Scope string_scope.

(** ** Python values that flow through the programs *)

(** A cell of a DataFrame or of a database row.  A finite float is given by
    its exact rational value; [CNaN] is the missing value of pandas, [CNone]
    the [None] that the database driver returns for NULL. *)
Inductive Cell : Type :=
| CStr (s : string)
| CInt (z : Z)
| CFloat (q : Q)
| CInf (negative : bool)
| CNaN
| CNone.

(** The element type of a column, as pandas infers it when it reads a file
    or a query and keeps it afterwards.  [Object] is the type of a column
    that holds text.  Columns of booleans and of dates are outside the
    model. *)
Inductive Dtype : Type := Int64 | UInt64 | Float64 | Object.

(** A DataFrame: the column labels, the dtype of each column, and the rows
    in order, each cell in the type of its column.  This is what [df[col]]
    reads; [df.values], [iterrows()] and [iloc[i]] present a row in one
    common type, see [values] below. *)
Record DataFrame : Type := mkDF {
  columns : list string;
  dtypes : list Dtype;
  rows : list (list Cell)
}.

(** Python's [len(df)]. *)
Definition len (df : DataFrame) : nat := List.length (rows df).

(** ** 64-bit numbers *)

Definition int64_min : Z := (- 2 ^ 63)%Z.
Definition int64_max : Z := (2 ^ 63 - 1)%Z.
Definition uint64_max : Z := (2 ^ 64 - 1)%Z.

Definition in_int64 (z : Z) : bool :=
  (int64_min <=? z)%Z && (z <=? int64_max)%Z.
Definition in_uint64 (z : Z) : bool :=
  (0 <=? z)%Z && (z <=? uint64_max)%Z.

(** The float64 nearest to an integer, ties going to the even mantissa: the
    value that the conversion of an integer to float64 has.  Integers of
    magnitude up to 2^53 are kept. *)
Definition round_float64 (z : Z) : Z :=
  (let a := Z.abs z in
   if a <=? 2 ^ 53 then z
   else
     let e := Z.log2 a - 52 in
     let m := a / 2 ^ e in
     let r := a mod 2 ^ e in
     let half := 2 ^ (e - 1) in
     let m' := if (half <? r) || ((r =? half) && Z.odd m) then m + 1 else m in
     Z.sgn z * (m' * 2 ^ e))%Z.

(** The cast of a uint64 to int64: the same 64 bits read as signed. *)
Definition wrap_int64 (z : Z) : Z :=
  ((z - int64_min) mod 2 ^ 64 + int64_min)%Z.

(** Truncation toward zero, as [int(x)] and [astype(int)] do on a float. *)
Definition trunc (q : Q) : Z := Z.quot (Qnum q) (Zpos (Qden q)).

(** The cast of a finite float64 to int64 as numpy does it on x86-64: the
    truncation when that is an int64, the least int64 otherwise. *)
Definition cast_int64 (q : Q) : Z :=
  if in_int64 (trunc q) then trunc q else int64_min.

(** ** Rows in one type *)

Definition is_object (dt : Dtype) : bool :=
  match dt with Object => true | _ => false end.
Definition is_int64 (dt : Dtype) : bool :=
  match dt with Int64 => true | _ => false end.
Definition is_uint64 (dt : Dtype) : bool :=
  match dt with UInt64 => true | _ => false end.

(** The type that holds the values of columns of the given types side by
    side: [Object] as soon as one column is, the integer type that all
    columns share, [Float64] for every other mix of numeric columns. *)
Definition common_dtype (dts : list Dtype) : Dtype :=
  if existsb is_object dts then Object
  else if forallb is_int64 dts then Int64
  else if forallb is_uint64 dts then UInt64
  else Float64.

(** A value of a numeric column as a float64. *)
Definition as_float64 (c : Cell) : Cell :=
  match c with
  | CInt z => CFloat (inject_Z (round_float64 z))
  | other => other
  end.

(** [df.values]: the rows as one array of the common type of the columns.
    Integers become floats when the common type is [Float64]; in an
    [Object] array every value keeps its own type.  [iterrows()] yields
    these rows, and [iloc[i]] is the [i]-th of them. *)
Definition values (df : DataFrame) : list (list Cell) :=
  match common_dtype (dtypes df) with
  | Float64 => map (map as_float64) (rows df)
  | _ => rows df
  end.

(** JSON documents sent to and received from the analytics server. *)
#[warnings="-register-all"]
Inductive Json : Type :=
| JNull
| JBool (b : bool)
| JInt (z : Z)
| JFloat (q : Q)
| JStr (s : string)
| JArr (items : list Json)
| JObj (fields : list (string * Json)).

(** ** Exceptions *)

(** The classes below are all subclasses of Python's [Exception], so both
    [except Exception] and a bare [except:] catch each of them.  Signals that
    derive from [BaseException] only (a keyboard interrupt, interpreter exit)
    are outside the model. *)
Inductive exn_class : Type :=
| DatabaseError
| KeyError
| IndexError
| ValueError
| AttributeError
| HTTPError
| JSONDecodeError
| TypeError
| OverflowError
| OtherException.

Record exn : Type := mkExn {
  exn_cls : exn_class;
  exn_msg : string   (* what [str(e)] gives *)
}.

Definition exn_class_eqb (a b : exn_class) : bool :=
  match a, b with
  | DatabaseError, DatabaseError | KeyError, KeyError
  | IndexError, IndexError | ValueError, ValueError
  | AttributeError, AttributeError | HTTPError, HTTPError
  | JSONDecodeError, JSONDecodeError | TypeError, TypeError
  | OverflowError, OverflowError | OtherException, OtherException => true
  | _, _ => false
  end.

(** ** Handles and external calls *)

(** What [oracledb.makedsn(host, port, service_name=...)] describes. *)
Record Dsn : Type := mkDsn {
  dsn_host : string;
  dsn_port : Z;
  dsn_service : string
}.

(** A connection is an opaque handle handed out by the driver. *)
Definition Conn : Type := nat.

(** A cursor remembers the connection it was opened on. *)
Record Cur : Type := mkCur {
  cur_conn : Conn;
  cur_id : nat
}.

Inductive Verb : Type := GET | POST | DELETE.

Record Response : Type := mkResponse {
  status_code : Z;
  (* what [response.json()] returns; [None] when the body does not decode *)
  json_body : option Json
}.

(** Every interaction with the outside world. *)
Inductive Call : Type :=
| DbConnect (user password : string) (dsn : Dsn)
| DbCursor (c : Conn)
| CurExecute (cur : Cur) (sql : string) (binds : list Cell)
| CurExecuteMany (cur : Cur) (sql : string) (rows : list (list Cell))
| CurFetchAll (cur : Cur)
| CurFetchOne (cur : Cur)
| CurClose (cur : Cur)
| ConnCommit (c : Conn)
| ConnClose (c : Conn)
| ReadSql (sql : string) (c : Conn)
| ReadCsv (path : string)
| WriteCsv (path : string) (df : DataFrame)
| Sleep (seconds : Z)
| OpenLogFile (path : string)
| Http (verb : Verb) (url : string) (body : option Json)
       (headers : list (string * string)) (timeout : option Z)
| PgxGraphDestroy (graph : nat)
| PgxSessionClose (session : nat).

(** The type of what a call returns when it does not raise. *)
Definition reply (c : Call) : Type :=
  match c with
  | DbConnect _ _ _ => Conn
  | DbCursor _ => nat
  | CurFetchAll _ => list (list Cell)
  | CurFetchOne _ => list Cell
  | ReadSql _ _ => DataFrame
  | ReadCsv _ => DataFrame
  | Http _ _ _ _ _ => Response
  | _ => unit
  end.

Inductive Level : Type := DEBUG | INFO | WARNING | ERROR.

(** What an observer of a run sees.  Console output and logging are taken
    not to fail. *)
Inductive Event : Type :=
| Called (c : Call) (raised : option exn)
| Printed (text : string)
| Logged (lvl : Level) (msg : string).

Definition raised_of {A : Type} (o : exn + A) : option exn :=
  match o with inl e => Some e | inr _ => None end.

(** ** Formatting helpers *)

Definition str_nat (n : nat) : string :=
  NilZero.string_of_uint (Nat.to_uint n).

Definition str_Z (z : Z) : string :=
  NilZero.string_of_int (Z.to_int z).

(** Python's [sep.join(parts)]. *)
Definition join (sep : string) (parts : list string) : string :=
  String.concat sep parts.

(** A byte that continues a character in UTF-8. *)
Definition is_continuation (c : ascii) : bool :=
  (128 <=? nat_of_ascii c)%nat && (nat_of_ascii c <? 192)%nat.

(** Python's [s[:n]]: the first [n] characters of a text held in UTF-8, a
    character being a leading byte with the continuation bytes behind it. *)
Fixpoint take_chars (n : nat) (s : string) : string :=
  match s with
  | EmptyString => EmptyString
  | String c rest =>
      if is_continuation c then String c (take_chars n rest)
      else match n with
           | O => EmptyString
           | S m => String c (take_chars m rest)
           end
  end.

Definition take_str (n : nat) (s : string) : string :=
  match n with O => EmptyString | _ => take_chars n s end.

(** ** The effect monad

    A computation runs from the state [S] of the Python object it belongs to
    and a state [W] of the outside world.  It ends with a value or an
    exception, and in both cases with a final object state, a final world and
    the events it produced. *)

(** The outside world: a state [W], and [env], which answers each call from
    the current state with a value or an exception and the next state. *)
Class World : Type := {
  W : Type;
  env : forall c : Call, W -> (exn + reply c) * W
}.

(** A parsed number: an integer, a finite float or an infinity. *)
Inductive Num : Type :=
| NInt (z : Z)
| NFloat (q : Q)
| NInf (negative : bool).

(** Functions of the Python runtime and of pandas that the sources call and
    that are taken as given: [str] of a finite float, [repr] of a decoded JSON
    document, the number parser behind [pd.to_numeric] and the parser behind
    [int(text)]; a parser answers [None] for text it does not accept. *)
Class Runtime : Type := {
  str_float : Q -> string;
  repr_json : Json -> string;
  parse_number : string -> option Num;
  parse_int : string -> option Z
}.

Section Effects.

Context `{World}.

Record Res (S A : Type) : Type := mkRes {
  outcome : exn + A;
  final : S;
  world : W;
  trace : list Event
}.
Arguments mkRes {S A}.
Arguments outcome {S A}.
Arguments final {S A}.
Arguments world {S A}.
Arguments trace {S A}.

Definition M (S A : Type) : Type := S -> W -> Res S A.

Definition ret {S A} (a : A) : M S A :=
  fun s w => mkRes (inr a) s w [].

Definition raise {S A} (e : exn) : M S A :=
  fun s w => mkRes (inl e) s w [].

Definition bind {S A B} (m : M S A) (f : A -> M S B) : M S B :=
  fun s w =>
    match m s w with
    | mkRes (inl e) s1 w1 t1 => mkRes (inl e) s1 w1 t1
    | mkRes (inr a) s1 w1 t1 =>
        match f a s1 w1 with
        | mkRes o s2 w2 t2 => mkRes o s2 w2 (t1 ++ t2)%list
        end
    end.

Definition get {S} : M S S := fun s w => mkRes (inr s) s w [].
Definition modify {S} (f : S -> S) : M S unit :=
  fun s w => mkRes (inr tt) (f s) w [].

Definition emit {S} (e : Event) : M S unit :=
  fun s w => mkRes (inr tt) s w [e].

(** One external call: the environment answers, the trace records it. *)
Definition call {S} (c : Call) : M S (reply c) :=
  fun s w =>
    match env c w with
    | (o, w') => mkRes o s w' [Called c (raised_of o)]
    end.

Definition lift {S A} (o : exn + A) : M S A :=
  match o with inl e => raise e | inr a => ret a end.

(** [try: m  except <classes matched by h>: h e].  The handler answers [None]
    for an exception its clause does not match, which then propagates. *)
Definition try_except {S A} (m : M S A) (h : exn -> option (M S A)) : M S A :=
  fun s w =>
    match m s w with
    | mkRes (inr a) s1 w1 t1 => mkRes (inr a) s1 w1 t1
    | mkRes (inl e) s1 w1 t1 =>
        match h e with
        | None => mkRes (inl e) s1 w1 t1
        | Some k =>
            match k s1 w1 with
            | mkRes o s2 w2 t2 => mkRes o s2 w2 (t1 ++ t2)%list
            end
        end
    end.

(** [try: m  finally: fin].  An exception of [fin] replaces the outcome. *)
Definition try_finally {S A} (m : M S A) (fin : M S unit) : M S A :=
  fun s w =>
    match m s w with
    | mkRes o s1 w1 t1 =>
        match fin s1 w1 with
        | mkRes (inl e) s2 w2 t2 => mkRes (inl e) s2 w2 (t1 ++ t2)%list
        | mkRes (inr _) s2 w2 t2 => mkRes o s2 w2 (t1 ++ t2)%list
        end
    end.

(** [for x in xs: body x], without [break]. *)
Fixpoint for_each {S X} (xs : list X) (body : X -> M S unit) : M S unit :=
  match xs with
  | [] => ret tt
  | x :: rest => bind (body x) (fun _ => for_each rest body)
  end.

Definition print {S} (text : string) : M S unit := emit (Printed text).
Definition log {S} (lvl : Level) (msg : string) : M S unit :=
  emit (Logged lvl msg).

End Effects.

Arguments mkRes {_ S A}.
Arguments outcome {_ S A}.
Arguments final {_ S A}.
Arguments world {_ S A}.
Arguments trace {_ S A}.

Declare Scope py_scope.
Delimit Scope py_scope with py.
Notation "x <- m ;; k" := (bind m (fun x => k))
  (at level 61, m at next level, right associativity) : py_scope.
Notation "m ;; k" := (bind m (fun _ => k))
  (at level 61, right associativity) : py_scope.
Local Open Scope py_scope.

(** Sequencing of pure steps that may raise. *)
Definition and_then {A B} (o : exn + A) (f : A -> exn + B) : exn + B :=
  match o with inl e => inl e | inr a => f a end.

Notation "x <~ o ;; k" := (and_then o (fun x => k))
  (at level 61, o at next level, right associativity) : py_scope.

(** ** Python operations on cells *)

Section Cells.

Context `{Runtime}.

(** [str(x)], also what an f-string inserts for [{x}]. *)
Definition str_cell (c : Cell) : string :=
  match c with
  | CStr s => s
  | CInt z => str_Z z
  | CFloat q => str_float q
  | CInf true => "-inf"
  | CInf false => "inf"
  | CNaN => "nan"
  | CNone => "None"
  end.

(** The truth value of [x] in [if x:]. *)
Definition truthy (c : Cell) : bool :=
  match c with
  | CStr s => negb (s =? "")%string
  | CInt z => negb (z =? 0)%Z
  | CFloat q => negb (Qeq_bool q 0)
  | CInf _ => true
  | CNaN => true
  | CNone => false
  end.

(** [x == 'literal']. *)
Definition eq_str (c : Cell) (s : string) : bool :=
  match c with
  | CStr t => (t =? s)%string
  | _ => false
  end.

(** [x == n] for an integer literal [n]. *)
Definition eq_int (c : Cell) (n : Z) : bool :=
  match c with
  | CInt z => (z =? n)%Z
  | CFloat q => Qeq_bool q (inject_Z n)
  | _ => false
  end.

(** [int(x)]. *)
Definition int_cell (c : Cell) : exn + Z :=
  match c with
  | CInt z => inr z
  | CFloat q => inr (trunc q)
  | CInf _ => inl (mkExn OverflowError "cannot convert float infinity to integer")
  | CNaN => inl (mkExn ValueError "cannot convert float NaN to integer")
  | CNone => inl (mkExn TypeError "int() argument must be a string or a number")
  | CStr s =>
      match parse_int s with
      | Some z => inr z
      | None => inl (mkExn ValueError "invalid literal for int()")
      end
  end.

(** Equality of two cells as pandas' [unique] and [drop_duplicates] see it:
    Python's [==], with the missing value equal to itself. *)
Definition cell_eqb (a b : Cell) : bool :=
  match a, b with
  | CStr x, CStr y => (x =? y)%string
  | CInt x, CInt y => (x =? y)%Z
  | CFloat x, CFloat y => Qeq_bool x y
  | CInt x, CFloat y | CFloat y, CInt x => Qeq_bool (inject_Z x) y
  | CInf x, CInf y => Bool.eqb x y
  | CNaN, CNaN => true
  | CNone, CNone => true
  | _, _ => false
  end.

Fixpoint row_eqb (r1 r2 : list Cell) : bool :=
  match r1, r2 with
  | [], [] => true
  | a :: r1', b :: r2' => cell_eqb a b && row_eqb r1' r2'
  | _, _ => false
  end.

(** ** DataFrame operations *)

Fixpoint col_index (name : string) (cols : list string) : option nat :=
  match cols with
  | [] => None
  | c :: rest =>
      if (c =? name)%string then Some O
      else option_map S (col_index name rest)
  end.

(** [repr] of a label that holds no quote, backslash or control character,
    as the labels of the sources are. *)
Definition repr_str (s : string) : string := "'" ++ s ++ "'".

(** The [KeyError] of a label that is not there; its text is the [repr] of
    the label. *)
Definition key_error {A} (name : string) : exn + A :=
  inl (mkExn KeyError (repr_str name)).

(** [row[name]] for a row of a frame with the given column labels. *)
Definition row_get (cols : list string) (row : list Cell) (name : string)
  : exn + Cell :=
  match col_index name cols with
  | Some i => inr (nth i row CNaN)
  | None => key_error name
  end.

(** [int(row[name])]. *)
Definition get_int (cols : list string) (row : list Cell) (name : string)
  : exn + Z :=
  c <~ row_get cols row name ;; int_cell c.

(** [df[name]]: the values of one column, in the type of the column. *)
Definition column (df : DataFrame) (name : string) : exn + list Cell :=
  match col_index name (columns df) with
  | Some i => inr (map (fun row => nth i row CNaN) (rows df))
  | None => key_error name
  end.

(** [name in df.columns]. *)
Definition has_column (df : DataFrame) (name : string) : bool :=
  match col_index name (columns df) with Some _ => true | None => false end.

Fixpoint set_nth {A} (i : nat) (x : A) (l : list A) : list A :=
  match i, l with
  | _, [] => []
  | O, _ :: rest => x :: rest
  | S j, y :: rest => y :: set_nth j x rest
  end.

(** [df[name] = series] for an existing column and a series of the given
    type. *)
Definition set_column (df : DataFrame) (name : string) (dt : Dtype)
    (new_values : list Cell) : DataFrame :=
  match col_index name (columns df) with
  | Some i =>
      mkDF (columns df)
           (set_nth i dt (dtypes df))
           (map (fun rc => set_nth i (snd rc) (fst rc))
                (combine (rows df) new_values))
  | None => df
  end.

(** [series.unique()]: the distinct values in order of first appearance. *)
Fixpoint unique_from (seen : list Cell) (xs : list Cell) : list Cell :=
  match xs with
  | [] => []
  | x :: rest =>
      if existsb (cell_eqb x) seen then unique_from seen rest
      else x :: unique_from (x :: seen) rest
  end.
Definition unique (xs : list Cell) : list Cell := unique_from [] xs.

(** The positions of the named columns, when all of them are there. *)
Fixpoint select_indices (cols : list string) (names : list string)
  : option (list nat) :=
  match names with
  | [] => Some []
  | n :: rest =>
      match col_index n cols, select_indices cols rest with
      | Some i, Some ixs => Some (i :: ixs)
      | _, _ => None
      end
  end.

Definition dquote : string := String (ascii_of_nat 34) EmptyString.

(** [repr] of a list of labels. *)
Definition repr_labels (names : list string) : string :=
  "[" ++ String.concat ", " (map repr_str names) ++ "]".

(** The [KeyError] of [df[[n1; ...; nk]]] when labels are missing: its text
    names all the labels when none is there and the missing ones otherwise,
    and, being the [repr] of a text with single quotes, stands in double
    quotes. *)
Definition missing_labels {A} (cols names : list string) : exn + A :=
  let missing :=
    filter (fun n => match col_index n cols with Some _ => false | None => true end)
           names in
  let text :=
    if (List.length missing =? List.length names)%nat then
      "None of [Index(" ++ repr_labels names
        ++ ", dtype='object')] are in the [columns]"
    else repr_labels missing ++ " not in index" in
  inl (mkExn KeyError (dquote ++ text ++ dquote)).

(** [df[[n1; ...; nk]]]: the frame restricted to the named columns, each
    with its type. *)
Definition select (df : DataFrame) (names : list string) : exn + DataFrame :=
  match select_indices (columns df) names with
  | None => missing_labels (columns df) names
  | Some ixs =>
      inr (mkDF names
                (map (fun i => nth i (dtypes df) Object) ixs)
                (map (fun row => map (fun i => nth i row CNaN) ixs) (rows df)))
  end.

(** [df.drop_duplicates()]: the first occurrence of every distinct row. *)
Fixpoint drop_dup_from (seen : list (list Cell)) (rows : list (list Cell))
  : list (list Cell) :=
  match rows with
  | [] => []
  | r :: rest =>
      if existsb (row_eqb r) seen then drop_dup_from seen rest
      else r :: drop_dup_from (r :: seen) rest
  end.
Definition drop_duplicates (df : DataFrame) : DataFrame :=
  mkDF (columns df) (dtypes df) (drop_dup_from [] (rows df)).

End Cells.

(** ** copy_to_freepdb1.py *)

Module CopyScript.

Definition ORACLE_HOST : string := "localhost".
Definition ORACLE_PORT : Z := 1521.
Definition ORACLE_USER : string := "graphuser".

Section Script.

Context `{World} `{Runtime}.

(** [os.getenv("GRAPH_PASSWORD", "Welcome1")], read once at import. *)
Variable ORACLE_PASSWORD : string.

Definition connect_to_db (service_name : string) : M unit Conn :=
  let dsn := mkDsn ORACLE_HOST ORACLE_PORT service_name in
  call (DbConnect ORACLE_USER ORACLE_PASSWORD dsn).

(** The catalog query of [copy_table], with the table name spliced in. *)
Definition catalog_sql (table_name : string) : string :=
  "
        SELECT column_name, data_type, data_length, data_precision, nullable
        FROM user_tab_columns
        WHERE table_name = UPPER('" ++ table_name ++ "')
        ORDER BY column_id
    ".

(** One pass of the loop body over a catalog row: the definition of one
    column.  Unpacking a row that has not five fields raises. *)
Definition col_def_of (col : list Cell) : exn + string :=
  match col with
  | [col_name; data_type; data_length; data_precision; nullable] =>
      let col_def :=
        if eq_str data_type "VARCHAR2" then
          str_cell col_name ++ " VARCHAR2(" ++ str_cell data_length ++ ")"
        else if eq_str data_type "NUMBER" then
          if truthy data_precision then
            str_cell col_name ++ " NUMBER(" ++ str_cell data_precision ++ ")"
          else
            str_cell col_name ++ " NUMBER"
        else
          str_cell col_name ++ " " ++ str_cell data_type in
      let col_def :=
        if eq_str nullable "N" then col_def ++ " NOT NULL" else col_def in
      inr col_def
  | _ => inl (mkExn ValueError "wrong number of values to unpack")
  end.

(** [for col in columns: ... col_defs.append(col_def)]. *)
Fixpoint col_defs_loop (columns : list (list Cell)) (col_defs : list string)
  : exn + list string :=
  match columns with
  | [] => inr col_defs
  | col :: rest =>
      match col_def_of col with
      | inl e => inl e
      | inr col_def => col_defs_loop rest (col_defs ++ [col_def])%list
      end
  end.

Definition build_create_sql (table_name : string) (columns : list (list Cell))
  : exn + string :=
  match col_defs_loop columns [] with
  | inl e => inl e
  | inr col_defs =>
      inr ("CREATE TABLE " ++ table_name ++ " (" ++ join ", " col_defs ++ ")")
  end.

(** [', '.join([f":{i+1}" for i in range(n)])]. *)
Definition placeholders (n : nat) : string :=
  join ", " (map (fun i => ":" ++ str_nat (i + 1)) (seq 0 n)).

Definition insert_sql (table_name : string) (df : DataFrame) : string :=
  let cols := join ", " (columns df) in
  "INSERT INTO " ++ table_name ++ " (" ++ cols ++ ") VALUES ("
    ++ placeholders (List.length (columns df)) ++ ")".

Definition nl : string := String (ascii_of_nat 10) "".

Definition copy_table (source_conn dest_conn : Conn) (table_name : string)
  : M unit unit :=
  print ("Copying " ++ table_name ++ "...") ;;
  (* Read from FREE *)
  df <- call (ReadSql ("SELECT * FROM " ++ table_name) source_conn) ;;
  print ("  - Read " ++ str_nat (len df) ++ " rows from FREE") ;;
  (* Drop table if exists in FREEPDB1 *)
  try_except
    (cursor <- call (DbCursor dest_conn) ;;
     call (CurExecute (mkCur dest_conn cursor) ("DROP TABLE " ++ table_name) []) ;;
     print "  - Dropped existing table")
    (fun _ => Some (ret tt)) ;;
  (* Get column definitions from source *)
  cursor <- call (DbCursor source_conn) ;;
  call (CurExecute (mkCur source_conn cursor) (catalog_sql table_name) []) ;;
  columns <- call (CurFetchAll (mkCur source_conn cursor)) ;;
  (* Build CREATE TABLE statement *)
  create_sql <- lift (build_create_sql table_name columns) ;;
  (* Create table in FREEPDB1 *)
  cursor <- call (DbCursor dest_conn) ;;
  call (CurExecute (mkCur dest_conn cursor) create_sql []) ;;
  print "  - Created table structure" ;;
  (* Insert data *)
  (if (0 <? len df)%nat then
     let data := values df in
     call (CurExecuteMany (mkCur dest_conn cursor) (insert_sql table_name df) data) ;;
     call (ConnCommit dest_conn) ;;
     print ("  - Inserted " ++ str_nat (len df) ++ " rows into FREEPDB1")
   else ret tt) ;;
  print ("  [OK] " ++ table_name ++ " copied successfully" ++ nl).

(** The tables of the script, in the order it copies them. *)
Definition tables : list string :=
  [ "entities"; "countries"; "months"; "inspections"; "target_proxies";
    "country_months"; "shipped_in_edges"; "is_from_edges";
    "has_weather_edges"; "has_inspection_result_edges" ].

(** [for table in tables: try: copy_table(...) except Exception as e: print]. *)
Definition copy_loop (free_conn freepdb1_conn : Conn) (tables : list string)
  : M unit unit :=
  for_each tables (fun table =>
    try_except
      (copy_table free_conn freepdb1_conn table)
      (fun e => Some (print ("  [ERROR] Error copying " ++ table ++ ": "
                               ++ exn_msg e ++ nl)))).

(** [f"{s:30s}"] and [f"{n:5d}"]: padding to a minimal width. *)
Definition pad_right (width : nat) (s : string) : string :=
  s ++ String.concat "" (repeat " " (width - String.length s)).
Definition pad_left (width : nat) (s : string) : string :=
  String.concat "" (repeat " " (width - String.length s)) ++ s.

Definition count_line (table : string) (row : list Cell) : exn + string :=
  match row with
  | CInt count :: _ => inr (pad_right 30 table ++ " " ++ pad_left 5 (str_Z count) ++ " rows")
  | [] => inl (mkExn IndexError "tuple index out of range")
  | _ :: _ => inl (mkExn ValueError "Unknown format code 'd'")
  end.

Definition rule : string := String.concat "" (repeat "=" 60).

(** The body of [if __name__ == "__main__":]. *)
Definition main : M unit unit :=
  print rule ;;
  print "Copying Graph Data from FREE to FREEPDB1" ;;
  print rule ;;
  print (nl ++ "Connecting to databases...") ;;
  free_conn <- connect_to_db "FREE" ;;
  freepdb1_conn <- connect_to_db "FREEPDB1" ;;
  print ("[OK] Connected to both databases" ++ nl) ;;
  copy_loop free_conn freepdb1_conn tables ;;
  print rule ;;
  print "Verification" ;;
  print rule ;;
  cursor <- call (DbCursor freepdb1_conn) ;;
  for_each tables (fun table =>
    call (CurExecute (mkCur freepdb1_conn cursor) ("SELECT COUNT(*) FROM " ++ table) []) ;;
    row <- call (CurFetchOne (mkCur freepdb1_conn cursor)) ;;
    line <- lift (count_line table row) ;;
    print line) ;;
  call (ConnClose free_conn) ;;
  call (ConnClose freepdb1_conn) ;;
  print (nl ++ rule) ;;
  print "[OK] Copy Complete!" ;;
  print rule ;;
  print (nl ++ "You can now use Graph Studio UI with FREEPDB1 database").

End Script.

End CopyScript.

(** ** main_app/pest_analysis_classes.py *)

Module Analyzer.

(** The fields of a [PestDataAnalyzer] object.  The logger is not a field of
    the model: its calls appear in the trace. *)
Record PestDataAnalyzer : Type := mkAnalyzer {
  csv_path : string;
  oracle_host : string;
  oracle_port : Z;
  oracle_service : string;
  oracle_user : string;
  oracle_password : string;
  pgx_base_url : string;
  connection : option Conn;
  cursor : option Cur;
  pgx_instance : option nat;
  pgx_session : option nat;
  graph : option nat;
  df : option DataFrame
}.

Definition set_connection (c : option Conn) (s : PestDataAnalyzer) :=
  mkAnalyzer (csv_path s) (oracle_host s) (oracle_port s) (oracle_service s)
    (oracle_user s) (oracle_password s) (pgx_base_url s)
    c (cursor s) (pgx_instance s) (pgx_session s) (graph s) (df s).

Definition set_cursor (c : option Cur) (s : PestDataAnalyzer) :=
  mkAnalyzer (csv_path s) (oracle_host s) (oracle_port s) (oracle_service s)
    (oracle_user s) (oracle_password s) (pgx_base_url s)
    (connection s) c (pgx_instance s) (pgx_session s) (graph s) (df s).

Definition set_df (d : option DataFrame) (s : PestDataAnalyzer) :=
  mkAnalyzer (csv_path s) (oracle_host s) (oracle_port s) (oracle_service s)
    (oracle_user s) (oracle_password s) (pgx_base_url s)
    (connection s) (cursor s) (pgx_instance s) (pgx_session s) (graph s) d.

Definition set_graph (g : option nat) (s : PestDataAnalyzer) :=
  mkAnalyzer (csv_path s) (oracle_host s) (oracle_port s) (oracle_service s)
    (oracle_user s) (oracle_password s) (pgx_base_url s)
    (connection s) (cursor s) (pgx_instance s) (pgx_session s) g (df s).

(** [self.pgx_instance = None; self.pgx_session = None; self.graph = None]. *)
Definition clear_pgx (s : PestDataAnalyzer) :=
  mkAnalyzer (csv_path s) (oracle_host s) (oracle_port s) (oracle_service s)
    (oracle_user s) (oracle_password s) (pgx_base_url s)
    (connection s) (cursor s) None None None (df s).

(** [__init__]: [pgx_base_url or f"http://{oracle_host}:7007"]. *)
Definition init (csv_path oracle_host : string) (oracle_port : Z)
    (oracle_service oracle_user oracle_password : string)
    (pgx_base_url : option string) : PestDataAnalyzer :=
  let url :=
    match pgx_base_url with
    | Some u => if (u =? "")%string then "http://" ++ oracle_host ++ ":7007" else u
    | None => "http://" ++ oracle_host ++ ":7007"
    end in
  mkAnalyzer csv_path oracle_host oracle_port oracle_service oracle_user
    oracle_password url None None None None None None.

Section Methods.

Context `{World} `{Runtime}.

Definition Run (A : Type) : Type := M PestDataAnalyzer A.

(** [self.cursor] and [self.connection] used as objects: a method call on
    [None] raises. *)
Definition the_cursor : Run Cur :=
  self <- get ;;
  match cursor self with
  | Some c => ret c
  | None => raise (mkExn AttributeError "'NoneType' object has no attribute 'execute'")
  end.

Definition the_connection : Run Conn :=
  self <- get ;;
  match connection self with
  | Some c => ret c
  | None => raise (mkExn AttributeError "'NoneType' object has no attribute 'commit'")
  end.

(** [self.df] used as a frame. *)
Definition the_df : Run DataFrame :=
  self <- get ;;
  match df self with
  | Some d => ret d
  | None => raise (mkExn TypeError "'NoneType' object is not subscriptable")
  end.

(** *** connect *)

Definition max_retries : nat := 30.
Definition retry_delay : Z := 5.

(** The body of the [try] of one attempt; it ends in [break]. *)
Definition attempt_body (attempt : nat) (dsn : Dsn) : Run bool :=
  log INFO ("Connection attempt " ++ str_nat attempt ++ "/"
              ++ str_nat max_retries ++ "...") ;;
  self <- get ;;
  c <- call (DbConnect (oracle_user self) (oracle_password self) dsn) ;;
  modify (set_connection (Some c)) ;;
  cur <- call (DbCursor c) ;;
  modify (set_cursor (Some (mkCur c cur))) ;;
  log INFO "Successfully connected to Oracle database" ;;
  ret true.

(** [except oracledb.DatabaseError as e]. *)
Definition attempt_handler (attempt : nat) (e : exn) : option (Run bool) :=
  if exn_class_eqb (exn_cls e) DatabaseError then
    Some (if (attempt <? max_retries)%nat then
            log WARNING ("Connection failed: " ++ take_str 100 (exn_msg e)
                           ++ ". Retrying in " ++ str_Z retry_delay ++ "s...") ;;
            call (Sleep retry_delay) ;;
            ret false
          else
            log ERROR "Failed to connect to Oracle after all retries" ;;
            raise e)
  else None.

(** [for attempt in range(1, max_retries + 1)], the loop being left at the
    first attempt whose body reaches [break]. *)
Fixpoint retry_loop (attempts : list nat) (dsn : Dsn) : Run unit :=
  match attempts with
  | [] => ret tt
  | attempt :: rest =>
      done <- try_except (attempt_body attempt dsn) (attempt_handler attempt) ;;
      if done : bool then ret tt else retry_loop rest dsn
  end.

(** The second half of [connect]: the availability probe of the PGX server. *)
Definition probe_pgx : Run unit :=
  self <- get ;;
  log INFO ("Connecting to PGX server at " ++ pgx_base_url self ++ "...") ;;
  try_except
    (response <- call (Http GET (pgx_base_url self ++ "/version") None [] (Some 5)) ;;
     if (status_code response =? 200)%Z then
       doc <- match json_body response with
              | Some j => ret j
              | None => raise (mkExn JSONDecodeError "Expecting value")
              end ;;
       log INFO ("PGX server available: " ++ repr_json doc) ;;
       modify clear_pgx ;;
       log INFO "PGX REST API ready for use"
     else
       raise (mkExn OtherException
                ("PGX server returned status " ++ str_Z (status_code response))))
    (fun e => Some (
       log WARNING ("PGX server not available: " ++ exn_msg e) ;;
       log INFO "Will use Oracle Database built-in graph capabilities (PGQL)" ;;
       modify clear_pgx)).

Definition connect : Run unit :=
  self <- get ;;
  log INFO ("Connecting to Oracle database at " ++ oracle_host self ++ ":"
              ++ str_Z (oracle_port self) ++ "...") ;;
  let dsn := mkDsn (oracle_host self) (oracle_port self) (oracle_service self) in
  retry_loop (seq 1 max_retries) dsn ;;
  probe_pgx.

(** *** load_data *)

Definition numeric_columns : list string :=
  [ "TARGET_PROXY"; "ENTY_EXAMS_30D"; "ENTY_PESTS_30D"; "ENTY_EXAMS_90D";
    "ENTY_PESTS_90D"; "ENTY_EXAMS_1YR"; "ENTY_PESTS_1YR" ].

(** What [pd.to_numeric(..., errors='coerce')] reads in one value: the
    number that a text spells, the missing value for text that spells none
    and for [None]. *)
Definition to_numeric (c : Cell) : Cell :=
  match c with
  | CStr s =>
      match parse_number s with
      | Some (NInt z) => CInt z
      | Some (NFloat q) => CFloat q
      | Some (NInf b) => CInf b
      | None => CNaN
      end
  | CNone => CNaN
  | other => other
  end.

Definition is_int64_cell (c : Cell) : bool :=
  match c with CInt z => in_int64 z | _ => false end.
Definition is_uint64_cell (c : Cell) : bool :=
  match c with CInt z => in_uint64 z | _ => false end.

(** The type of the series that [pd.to_numeric] returns for the values read:
    [Int64] when all are integers of that range, [UInt64] when all are
    integers from 0 to 2^64 - 1, [Float64] as soon as one value is a float,
    is missing or is an integer that fits neither. *)
Definition numeric_dtype (cs : list Cell) : Dtype :=
  if forallb is_int64_cell cs then Int64
  else if forallb is_uint64_cell cs then UInt64
  else Float64.

(** [pd.to_numeric(series, errors='coerce')]: the values and their type. *)
Definition to_numeric_series (cs : list Cell) : list Cell * Dtype :=
  let read := map to_numeric cs in
  match numeric_dtype read with
  | Float64 => (map as_float64 read, Float64)
  | dt => (read, dt)
  end.

(** [.fillna(0)] on one value. *)
Definition fillna0 (c : Cell) : Cell :=
  match c with CNaN => CFloat 0%Q | other => other end.

Definition is_finite (c : Cell) : bool :=
  match c with CInt _ | CFloat _ => true | _ => false end.

(** [.astype(int)] on one value of a series of the given type. *)
Definition astype_int (dt : Dtype) (c : Cell) : Cell :=
  match dt, c with
  | UInt64, CInt z => CInt (wrap_int64 z)
  | Float64, CFloat q => CInt (cast_int64 q)
  | _, other => other
  end.

(** [.astype(int)] on a series: a float series that holds a missing value
    or an infinity raises, before any value is cast. *)
Definition astype_int_all (dt : Dtype) (cs : list Cell) : exn + list Cell :=
  match dt with
  | Float64 =>
      if forallb is_finite cs then inr (map (astype_int dt) cs)
      else inl (mkExn ValueError
                  "Cannot convert non-finite values (NA or inf) to integer")
  | _ => inr (map (astype_int dt) cs)
  end.

(** [pd.to_numeric(df[col], errors='coerce').fillna(0).astype(int)], put
    back as the column [col]. *)
Definition convert_column (d : DataFrame) (col : string) : exn + DataFrame :=
  match column d col with
  | inl e => inl e
  | inr cs =>
      let (read, dt) := to_numeric_series cs in
      match astype_int_all dt (map fillna0 read) with
      | inl e => inl e
      | inr cs' => inr (set_column d col Int64 cs')
      end
  end.

(** What the loop [for col in numeric_columns: if col in df.columns:
    df[col] = ...] of [load_data] computes when it runs on the frame [d]. *)
Fixpoint convert_columns (cols : list string) (d : DataFrame) : exn + DataFrame :=
  match cols with
  | [] => inr d
  | col :: rest =>
      if has_column d col then
        match convert_column d col with
        | inl e => inl e
        | inr d' => convert_columns rest d'
        end
      else convert_columns rest d
  end.

(** The test of line 105, with the short circuit of [or]. *)
Definition is_header_row (d : DataFrame) : exn + bool :=
  match values d with   (* [self.df.iloc[0]] *)
  | [] => inl (mkExn IndexError "single positional indexer is out-of-bounds")
  | row0 :: _ =>
      match row_get (columns d) row0 "TARGET_PROXY" with
      | inl e => inl e
      | inr tp =>
          if eq_str tp "TP" then inr true
          else
            match row_get (columns d) row0 "ENTY_ID" with
            | inl e => inl e
            | inr eid => inr (str_cell eid =? "ENTY_ID")%string
            end
      end
  end.

(** [df.iloc[1:].reset_index(drop=True)]: positions are the only index of
    the model, so the rows after the first are the whole result. *)
Definition drop_first_row (d : DataFrame) : DataFrame :=
  mkDF (columns d) (dtypes d) (tl (rows d)).

(** [series.nunique()]: distinct values, the missing value not counted. *)
Definition nunique (cs : list Cell) : nat :=
  List.length (unique (filter (fun c => match c with CNaN | CNone => false | _ => true end) cs)).

(** The body of the loop over [numeric_columns]. *)
Definition convert_step (col : string) : Run unit :=
  d <- the_df ;;
  if has_column d col then
    d' <- lift (convert_column d col) ;;
    modify (set_df (Some d'))
  else ret tt.

Definition load_data : Run unit :=
  self <- get ;;
  log INFO ("Loading data from " ++ csv_path self) ;;
  d <- call (ReadCsv (csv_path self)) ;;
  modify (set_df (Some d)) ;;
  log INFO ("Loaded " ++ str_nat (len d) ++ " rows") ;;
  log INFO "Validating and cleaning data..." ;;
  hdr <- lift (is_header_row d) ;;
  (if hdr : bool then
     log WARNING "Detected header row in data, removing it..." ;;
     modify (set_df (Some (drop_first_row d)))
   else ret tt) ;;
  for_each numeric_columns convert_step ;;
  d <- the_df ;;
  log INFO ("After cleaning: " ++ str_nat (len d) ++ " rows") ;;
  ids <- lift (column d "ENTY_ID") ;;
  log INFO ("Number of distinct ENTY_ID: " ++ str_nat (nunique ids)).

(** *** clear_database *)

Definition tables : list string :=
  [ "has_inspection_result_edges"; "has_weather_edges"; "is_from_edges";
    "shipped_in_edges"; "inspections"; "country_months"; "target_proxies";
    "months"; "countries"; "entities" ].

Definition clear_database : Run unit :=
  log WARNING "Clearing all graph data from database..." ;;
  for_each tables (fun table =>
    try_except
      (cur <- the_cursor ;;
       call (CurExecute cur ("DELETE FROM " ++ table) []) ;;
       log DEBUG ("Cleared table: " ++ table))
      (fun e => Some (log DEBUG ("Could not clear " ++ table ++ ": "
                                   ++ take_str 100 (exn_msg e))))) ;;
  c <- the_connection ;;
  call (ConnCommit c) ;;
  log INFO "Database cleared".

(** *** create_nodes *)

(** [self.cursor.execute(sql, params)]. *)
Definition execute (sql : string) (params : list Cell) : Run unit :=
  cur <- the_cursor ;;
  call (CurExecute cur sql params).

(** [set.add] and [in] on the set of country-month ids. *)
Definition in_set (x : string) (xs : list string) : bool :=
  existsb (String.eqb x) xs.

(** [f"{row['CTRY_CODE']}_{row['MONTH']}"], for a row as [iterrows()]
    yields it. *)
Definition cm_id_of (cols : list string) (row : list Cell) : exn + string :=
  match row_get cols row "CTRY_CODE", row_get cols row "MONTH" with
  | inl e, _ => inl e
  | _, inl e => inl e
  | inr c, inr m => inr (str_cell c ++ "_" ++ str_cell m)
  end.

(** The loop over [self.df.iterrows()] that fills [country_months]; [rows]
    are the rows that [iterrows()] yields, see [values]. *)
Fixpoint country_month_loop (cols : list string) (rows : list (list Cell))
    (country_month_set : list string) : Run unit :=
  match rows with
  | [] => ret tt
  | row :: rest =>
      cm_id <- lift (cm_id_of cols row) ;;
      if in_set cm_id country_month_set then
        country_month_loop cols rest country_month_set
      else
        ctry <- lift (row_get cols row "CTRY_CODE") ;;
        month <- lift (row_get cols row "MONTH") ;;
        execute "INSERT INTO country_months (cm_id, country_code, month_name) VALUES (:1, :2, :3)"
                [CStr cm_id; CStr (str_cell ctry); CStr (str_cell month)] ;;
        country_month_loop cols rest (cm_id :: country_month_set)
  end.

(** [enumerate(xs)]. *)
Definition enumerate {A} (xs : list A) : list (nat * A) :=
  combine (seq 0 (List.length xs)) xs.

Definition create_nodes : Run unit :=
  log INFO "Creating graph nodes..." ;;
  (* Create Entity nodes *)
  d <- the_df ;;
  ids <- lift (column d "ENTY_ID") ;;
  let entities := unique ids in
  log DEBUG ("Creating " ++ str_nat (List.length entities) ++ " entity nodes") ;;
  for_each entities (fun entity_id =>
    execute "INSERT INTO entities (entity_id, entity_type) VALUES (:1, :2)"
            [CStr (str_cell entity_id); CStr "inspection_entity"]) ;;
  (* Create Country nodes *)
  d <- the_df ;;
  codes <- lift (column d "CTRY_CODE") ;;
  let countries := unique codes in
  log DEBUG ("Creating " ++ str_nat (List.length countries) ++ " country nodes") ;;
  for_each countries (fun country_code =>
    execute "INSERT INTO countries (country_code, country_name) VALUES (:1, :2)"
            [CStr (str_cell country_code); CStr (str_cell country_code)]) ;;
  (* Create Month nodes *)
  d <- the_df ;;
  ms <- lift (column d "MONTH") ;;
  let months := unique ms in
  log DEBUG ("Creating " ++ str_nat (List.length months) ++ " month nodes") ;;
  for_each (enumerate months) (fun '(idx, month) =>
    execute "INSERT INTO months (month_name, month_number) VALUES (:1, :2)"
            [CStr (str_cell month); CInt (Z.of_nat (idx + 1))]) ;;
  (* Create TargetProxy nodes *)
  d <- the_df ;;
  ts <- lift (column d "TARGET_PROXY") ;;
  let targets := unique ts in
  log DEBUG ("Creating " ++ str_nat (List.length targets) ++ " target proxy nodes") ;;
  for_each targets (fun target =>
    t <- lift (int_cell target) ;;
    let label := if (t =? 0)%Z then "no_pest" else "pest" in
    t' <- lift (int_cell target) ;;
    execute "INSERT INTO target_proxies (target_value, target_label) VALUES (:1, :2)"
            [CInt t'; CStr label]) ;;
  (* Create CountryMonth composite nodes *)
  log DEBUG "Creating country-month composite nodes" ;;
  d <- the_df ;;
  country_month_loop (columns d) (values d) [] ;;
  c <- the_connection ;;
  call (ConnCommit c) ;;
  log INFO "All nodes created successfully".

(** *** create_inspections_and_relationships *)

Definition inspection_sql : string :=
  "
                INSERT INTO inspections (
                    entity_id, country_code, month_name, target_proxy,
                    exams_30d, pests_30d, exams_90d, pests_90d, exams_1yr, pests_1yr, has_pest
                ) VALUES (:1, :2, :3, :4, :5, :6, :7, :8, :9, :10, :11)
            ".

(** The parameter tuple of one inspection row, its fields evaluated from left
    to right; [row] is a row as [iterrows()] yields it. *)
Definition inspection_params (cols : list string) (row : list Cell)
  : exn + list Cell :=
  enty <~ row_get cols row "ENTY_ID" ;;
  ctry <~ row_get cols row "CTRY_CODE" ;;
  month <~ row_get cols row "MONTH" ;;
  target_proxy <~ get_int cols row "TARGET_PROXY" ;;
  exams_30d <~ get_int cols row "ENTY_EXAMS_30D" ;;
  pests_30d <~ get_int cols row "ENTY_PESTS_30D" ;;
  exams_90d <~ get_int cols row "ENTY_EXAMS_90D" ;;
  pests_90d <~ get_int cols row "ENTY_PESTS_90D" ;;
  exams_1yr <~ get_int cols row "ENTY_EXAMS_1YR" ;;
  pests_1yr <~ get_int cols row "ENTY_PESTS_1YR" ;;
  tp <~ row_get cols row "TARGET_PROXY" ;;
  inr [ CStr (str_cell enty); CStr (str_cell ctry); CStr (str_cell month);
        CInt target_proxy; CInt exams_30d; CInt pests_30d;
        CInt exams_90d; CInt pests_90d; CInt exams_1yr; CInt pests_1yr;
        CInt (if eq_int tp 1 then 1 else 0) ].

(** The body of the first loop: one row of [inspections]. *)
Definition insert_inspection (cols : list string) (row : list Cell) : Run unit :=
  cm_id <- lift (cm_id_of cols row) ;;
  cur <- the_cursor ;;
  params <- lift (inspection_params cols row) ;;
  call (CurExecute cur inspection_sql params).

(** [for _, row in self.df[names].drop_duplicates().iterrows(): body]: the
    rows come in the common type of the selected columns. *)
Definition for_distinct (names : list string)
    (body : list string -> list Cell -> Run unit) : Run unit :=
  d <- the_df ;;
  sub <- lift (select d names) ;;
  for_each (values (drop_duplicates sub)) (body names).

Definition create_inspections_and_relationships : Run unit :=
  d <- the_df ;;
  log INFO ("Creating " ++ str_nat (len d) ++ " inspection nodes and relationships...") ;;
  d <- the_df ;;
  for_each (values d) (insert_inspection (columns d)) ;;
  c <- the_connection ;;
  call (ConnCommit c) ;;
  (* Create entity relationship edges *)
  log INFO "Creating entity relationship edges..." ;;
  for_distinct ["ENTY_ID"; "MONTH"] (fun cols row =>
    cur <- the_cursor ;;
    enty <- lift (row_get cols row "ENTY_ID") ;;
    month <- lift (row_get cols row "MONTH") ;;
    call (CurExecute cur
            "INSERT INTO shipped_in_edges (entity_id, month_name) VALUES (:1, :2)"
            [CStr (str_cell enty); CStr (str_cell month)])) ;;
  for_distinct ["ENTY_ID"; "CTRY_CODE"] (fun cols row =>
    cur <- the_cursor ;;
    enty <- lift (row_get cols row "ENTY_ID") ;;
    ctry <- lift (row_get cols row "CTRY_CODE") ;;
    call (CurExecute cur
            "INSERT INTO is_from_edges (entity_id, country_code) VALUES (:1, :2)"
            [CStr (str_cell enty); CStr (str_cell ctry)])) ;;
  for_distinct ["ENTY_ID"; "CTRY_CODE"; "MONTH"] (fun cols row =>
    cm_id <- lift (cm_id_of cols row) ;;
    cur <- the_cursor ;;
    enty <- lift (row_get cols row "ENTY_ID") ;;
    call (CurExecute cur
            "INSERT INTO has_weather_edges (entity_id, cm_id) VALUES (:1, :2)"
            [CStr (str_cell enty); CStr cm_id])) ;;
  for_distinct ["ENTY_ID"; "TARGET_PROXY"] (fun cols row =>
    cur <- the_cursor ;;
    enty <- lift (row_get cols row "ENTY_ID") ;;
    target <- lift (get_int cols row "TARGET_PROXY") ;;
    call (CurExecute cur
            "INSERT INTO has_inspection_result_edges (entity_id, target_value) VALUES (:1, :2)"
            [CStr (str_cell enty); CInt target])) ;;
  c <- the_connection ;;
  call (ConnCommit c) ;;
  log INFO "Inspections and relationships created successfully".

(** *** get_stats *)

(** [self.cursor.execute(sql)] followed by [self.cursor.fetchone()[0]]. *)
Definition count_of (sql : string) : Run Cell :=
  execute sql [] ;;
  cur <- the_cursor ;;
  row <- call (CurFetchOne cur) ;;
  match row with
  | c :: _ => ret c
  | [] => raise (mkExn IndexError "tuple index out of range")
  end.

Definition edge_tables : list string :=
  [ "shipped_in_edges"; "is_from_edges"; "has_weather_edges";
    "has_inspection_result_edges" ].

(** [total_edges += count].  A count is an integer: the driver hands the
    NUMBER of [COUNT( * )] over as an int.  For a value of another type the
    model raises; Python would go on with a float. *)
Definition add_count (total : Z) (count : Cell) : exn + Z :=
  match count with
  | CInt z => inr (total + z)%Z
  | _ => inl (mkExn TypeError "unsupported operand type(s) for +=")
  end.

Fixpoint count_edges (tables : list string) (total_edges : Z) : Run Z :=
  match tables with
  | [] => ret total_edges
  | table :: rest =>
      count <- count_of ("SELECT COUNT(*) FROM " ++ table) ;;
      total <- lift (add_count total_edges count) ;;
      log INFO ("  " ++ table ++ ": " ++ str_cell count) ;;
      count_edges rest total
  end.

Definition get_stats : Run unit :=
  log INFO "Gathering database statistics..." ;;
  entity_count <- count_of "SELECT COUNT(*) FROM entities" ;;
  inspection_count <- count_of "SELECT COUNT(*) FROM inspections" ;;
  total_edges <- count_edges edge_tables 0 ;;
  log INFO ("Database contains " ++ str_cell entity_count ++ " entities, "
              ++ str_cell inspection_count ++ " inspections") ;;
  log INFO ("Total edges: " ++ str_Z total_edges).

(** *** create_projection, cleanup, close *)

Definition create_projection : Run unit :=
  log INFO "Graph data loaded in tables - ready for analysis" ;;
  log INFO "Note: Oracle Database Free Edition may not support CREATE PROPERTY GRAPH DDL" ;;
  log INFO "Will use PGX Server for graph analytics instead" ;;
  modify (set_graph None).

(** *** run_pgql_query *)

(** The statement text of [run_pgql_query], with the query spliced in. *)
Definition pgql_sql (query : string) : string :=
  "
            SELECT *
            FROM GRAPH_TABLE (pest_graph
                MATCH " ++ query ++ "
                COLUMNS (*)
            )
        ".

Definition run_pgql_query (query : string) : Run (list (list Cell)) :=
  cur <- the_cursor ;;
  call (CurExecute cur (pgql_sql query) []) ;;
  cur <- the_cursor ;;
  call (CurFetchAll cur).

Definition cleanup : Run unit :=
  log INFO "Cleaning up resources..." ;;
  self <- get ;;
  match graph self with
  | Some g =>
      try_except
        (call (PgxGraphDestroy g) ;;
         log DEBUG "Graph destroyed successfully")
        (fun e => Some (log DEBUG ("Graph cleanup: " ++ exn_msg e)))
  | None => ret tt
  end ;;
  log INFO "Resource cleanup completed".

Definition close : Run unit :=
  self <- get ;;
  match pgx_session self with
  | Some session =>
      try_except
        (cleanup ;;
         call (PgxSessionClose session) ;;
         log INFO "PGX session closed")
        (fun e => Some (log ERROR ("Error closing PGX session: " ++ exn_msg e)))
  | None => ret tt
  end ;;
  self <- get ;;
  match cursor self with
  | Some cur =>
      try_except
        (call (CurClose cur))
        (fun e => Some (log DEBUG ("Cursor close error: " ++ exn_msg e)))
  | None => ret tt
  end ;;
  self <- get ;;
  match connection self with
  | Some c =>
      try_except
        (call (ConnClose c) ;;
         log INFO "Database connection closed successfully")
        (fun e => Some (log ERROR ("Error closing connection: " ++ exn_msg e)))
  | None => ret tt
  end.

(** *** run_full_analysis *)

(** The statements of the [try] block. *)
Definition pipeline : Run unit :=
  (* Setup *)
  connect ;;
  load_data ;;
  clear_database ;;
  (* Build graph *)
  create_nodes ;;
  create_inspections_and_relationships ;;
  get_stats ;;
  (* Analysis *)
  create_projection ;;
  log INFO "Full analysis pipeline completed successfully" ;;
  log INFO "Graph data ready - use PGX Server for advanced analytics".

Definition run_full_analysis : Run unit :=
  log INFO "Starting full pest data analysis pipeline" ;;
  try_finally
    (try_except pipeline
       (fun e => Some (log ERROR ("Analysis pipeline failed: " ++ exn_msg e) ;;
                       raise e)))
    close.

(** *** main *)

(** [os.getenv(name, default)] on the environment [environ]. *)
Definition getenv (environ : string -> option string) (name default : string)
  : string :=
  match environ name with Some v => v | None => default end.

(** A method called on the local variable [analyzer] of [main]. *)
Definition on_analyzer {A} (m : Run A) : M (option PestDataAnalyzer) A :=
  fun analyzer w =>
    match analyzer with
    | Some self =>
        match m self w with
        | mkRes o self' w' t => mkRes o (Some self') w' t
        end
    | None =>
        mkRes (inl (mkExn AttributeError "'NoneType' object has no attribute"))
              None w []
    end.

(** [main()]; the state is its local variable [analyzer].  The handlers
    handed to [logging.basicConfig] are built first: [logging.FileHandler]
    opens the log file and raises when it cannot. *)
Definition main (environ : string -> option string)
  : M (option PestDataAnalyzer) unit :=
  let CSV_FILE_PATH := getenv environ "CSV_FILE_PATH" "/app/data/pest_data.csv" in
  let ORACLE_HOST := getenv environ "ORACLE_HOST" "oracle-db" in
  ORACLE_PORT <- lift (int_cell (CStr (getenv environ "ORACLE_PORT" "1521"))) ;;
  let ORACLE_SERVICE := getenv environ "ORACLE_SERVICE" "GRAPHDB" in
  let ORACLE_USER := getenv environ "ORACLE_USER" "graphuser" in
  let ORACLE_PASSWORD := getenv environ "ORACLE_PASSWORD" "GraphPassword123" in
  let PGX_BASE_URL := getenv environ "PGX_BASE_URL" "http://oracle-db:7007" in
  call (OpenLogFile "/app/pest_analysis.log") ;;
  log INFO "Starting pest analysis application with Oracle Graph PGX" ;;
  modify (fun _ => None) ;;
  try_finally
    (try_except
       (modify (fun _ =>
          Some (init CSV_FILE_PATH ORACLE_HOST ORACLE_PORT ORACLE_SERVICE
                  ORACLE_USER ORACLE_PASSWORD (Some PGX_BASE_URL))) ;;
        final_df <- on_analyzer run_full_analysis ;;
        log INFO "Analysis completed successfully" ;;
        ret final_df)
       (fun e => Some (log ERROR ("Application failed: " ++ exn_msg e) ;;
                       raise e)))
    (analyzer <- get ;;
     match analyzer with
     | Some _ => on_analyzer close
     | None => ret tt
     end ;;
     log INFO "Application shutdown complete").

End Methods.

End Analyzer.

(** ** main_app/pgx_rest_client.py *)

Module RestClient.

(** The fields of a [PGXRestClient]; [session_auth] is the [auth] attribute
    of its [requests.Session]. *)
Record PGXRestClient : Type := mkClient {
  base_url : string;
  username : option string;
  password : option string;
  session_auth : option (string * string)
}.

(** [s.rstrip('/')]. *)
Fixpoint rstrip_slash (s : string) : string :=
  match s with
  | EmptyString => EmptyString
  | String c rest =>
      match rstrip_slash rest with
      | EmptyString => if Ascii.eqb c "/" then EmptyString else String c EmptyString
      | kept => String c kept
      end
  end.

(** [__init__]; an empty user name or password counts as absent in
    [if username and password]. *)
Definition init (base_url : string) (username password : option string)
  : PGXRestClient :=
  let auth :=
    match username, password with
    | Some u, Some p =>
        if (u =? "")%string || (p =? "")%string then None else Some (u, p)
    | _, _ => None
    end in
  mkClient (rstrip_slash base_url) username password auth.

(** [response.raise_for_status()] of the requests library: an error for the
    status codes 400 to 599, nothing otherwise. *)
Definition is_error_status (status : Z) : bool :=
  (400 <=? status)%Z && (status <? 600)%Z.

Definition raise_for_status (r : Response) : exn + unit :=
  if is_error_status (status_code r) then
    inl (mkExn HTTPError (str_Z (status_code r) ++ " Error"))
  else inr tt.

(** [response.json()]. *)
Definition json (r : Response) : exn + Json :=
  match json_body r with
  | Some j => inr j
  | None => inl (mkExn JSONDecodeError "Expecting value")
  end.

Definition json_headers : list (string * string) :=
  [("Content-Type", "application/json")].

Section Methods.

Context `{World}.

Definition Api (A : Type) : Type := M PGXRestClient A.

(** The two lines that end every method. *)
Definition checked (response : Response) : Api Json :=
  lift (raise_for_status response) ;;
  lift (json response).

Definition get_version : Api Json :=
  self <- get ;;
  response <- call (Http GET (base_url self ++ "/version") None [] None) ;;
  checked response.

Definition load_graph_from_database
    (graph_name jdbc_url username password : string) : Api Json :=
  self <- get ;;
  let config := JObj
    [ ("name", JStr graph_name);
      ("format", JStr "pgql");
      ("jdbc_url", JStr jdbc_url);
      ("username", JStr username);
      ("password", JStr password);
      ("pgql_query", JStr ("SELECT * FROM GRAPH_TABLE (" ++ graph_name
                             ++ " MATCH (v) -[e]-> (w) COLUMNS (v, e, w))")) ] in
  response <- call (Http POST (base_url self ++ "/graphs") (Some config)
                      json_headers None) ;;
  checked response.

(** Default arguments are given as [None]. *)
Definition run_pagerank (graph_name : string) (max_iterations : option Z)
    (tolerance : option Q) : Api Json :=
  self <- get ;;
  let max_iterations := match max_iterations with Some n => n | None => 100%Z end in
  let tolerance := match tolerance with Some t => t | None => (1 # 1000)%Q end in
  let payload := JObj
    [ ("algorithm", JStr "pagerank");
      ("graph", JStr graph_name);
      ("params", JObj [ ("max_iterations", JInt max_iterations);
                        ("tolerance", JFloat tolerance) ]) ] in
  response <- call (Http POST (base_url self ++ "/analytics/algorithms/run")
                      (Some payload) json_headers None) ;;
  checked response.

Definition run_betweenness_centrality (graph_name : string) : Api Json :=
  self <- get ;;
  let payload := JObj
    [ ("algorithm", JStr "betweenness_centrality");
      ("graph", JStr graph_name) ] in
  response <- call (Http POST (base_url self ++ "/analytics/algorithms/run")
                      (Some payload) json_headers None) ;;
  checked response.

Definition run_community_detection (graph_name : string)
    (algorithm : option string) : Api Json :=
  self <- get ;;
  let algorithm := match algorithm with Some a => a | None => "louvain" end in
  let payload := JObj
    [ ("algorithm", JStr algorithm);
      ("graph", JStr graph_name) ] in
  response <- call (Http POST (base_url self ++ "/analytics/algorithms/run")
                      (Some payload) json_headers None) ;;
  checked response.

Definition run_deepwalk (graph_name : string)
    (dimensions walk_length walks_per_node : option Z) : Api Json :=
  self <- get ;;
  let dimensions := match dimensions with Some n => n | None => 64%Z end in
  let walk_length := match walk_length with Some n => n | None => 10%Z end in
  let walks_per_node := match walks_per_node with Some n => n | None => 10%Z end in
  let payload := JObj
    [ ("algorithm", JStr "deepwalk");
      ("graph", JStr graph_name);
      ("params", JObj [ ("dimension", JInt dimensions);
                        ("walk_length", JInt walk_length);
                        ("walks_per_node", JInt walks_per_node) ]) ] in
  response <- call (Http POST (base_url self ++ "/analytics/ml/deepwalk")
                      (Some payload) json_headers None) ;;
  checked response.

Definition execute_pgql (graph_name query : string) : Api Json :=
  self <- get ;;
  let payload := JObj
    [ ("graph", JStr graph_name);
      ("query", JStr query) ] in
  response <- call (Http POST (base_url self ++ "/pgql/query")
                      (Some payload) json_headers None) ;;
  checked response.

Definition list_graphs : Api Json :=
  self <- get ;;
  response <- call (Http GET (base_url self ++ "/graphs") None [] None) ;;
  checked response.

Definition get_graph_info (graph_name : string) : Api Json :=
  self <- get ;;
  response <- call (Http GET (base_url self ++ "/graphs/" ++ graph_name) None [] None) ;;
  checked response.

Definition delete_graph (graph_name : string) : Api Json :=
  self <- get ;;
  response <- call (Http DELETE (base_url self ++ "/graphs/" ++ graph_name) None [] None) ;;
  checked response.

(** A method of the client together with its arguments, to speak about all
    ten methods at once. *)
Inductive Method : Type :=
| GetVersion
| LoadGraphFromDatabase (graph_name jdbc_url username password : string)
| RunPagerank (graph_name : string) (max_iterations : option Z) (tolerance : option Q)
| RunBetweennessCentrality (graph_name : string)
| RunCommunityDetection (graph_name : string) (algorithm : option string)
| RunDeepwalk (graph_name : string) (dimensions walk_length walks_per_node : option Z)
| ExecutePgql (graph_name query : string)
| ListGraphs
| GetGraphInfo (graph_name : string)
| DeleteGraph (graph_name : string).

Definition invoke (m : Method) : Api Json :=
  match m with
  | GetVersion => get_version
  | LoadGraphFromDatabase g j u p => load_graph_from_database g j u p
  | RunPagerank g i t => run_pagerank g i t
  | RunBetweennessCentrality g => run_betweenness_centrality g
  | RunCommunityDetection g a => run_community_detection g a
  | RunDeepwalk g d l n => run_deepwalk g d l n
  | ExecutePgql g q => execute_pgql g q
  | ListGraphs => list_graphs
  | GetGraphInfo g => get_graph_info g
  | DeleteGraph g => delete_graph g
  end.

End Methods.

(** The HTTP verb and the path below [base_url] that each method addresses,
    read off the method bodies. *)
Definition endpoint (m : Method) : Verb * string :=
  match m with
  | GetVersion => (GET, "/version")
  | LoadGraphFromDatabase _ _ _ _ => (POST, "/graphs")
  | RunPagerank _ _ _ => (POST, "/analytics/algorithms/run")
  | RunBetweennessCentrality _ => (POST, "/analytics/algorithms/run")
  | RunCommunityDetection _ _ => (POST, "/analytics/algorithms/run")
  | RunDeepwalk _ _ _ _ => (POST, "/analytics/ml/deepwalk")
  | ExecutePgql _ _ => (POST, "/pgql/query")
  | ListGraphs => (GET, "/graphs")
  | GetGraphInfo g => (GET, "/graphs/" ++ g)
  | DeleteGraph g => (DELETE, "/graphs/" ++ g)
  end.

Section Example.

Context `{World} `{Runtime}.

(** ["=" * 50]. *)
Definition rule : string := String.concat "" (repeat "=" 50).

Definition nl : string := String (ascii_of_nat 10) "".

(** [example_pgx_analysis(pgx_client, graph_name="pest_graph")], the client
    being the object that the computation runs on. *)
Definition example_pgx_analysis (graph_name : option string) : Api unit :=
  let graph_name := match graph_name with Some g => g | None => "pest_graph" end in
  print rule ;;
  print "PGX Graph Analytics Example" ;;
  print rule ;;
  (* 1. Check server version *)
  version <- get_version ;;
  print ("PGX Server Version: " ++ repr_json version) ;;
  (* 2. List loaded graphs *)
  graphs <- list_graphs ;;
  print ("Loaded graphs: " ++ repr_json graphs) ;;
  (* 3. Run PageRank *)
  print (nl ++ "Running PageRank...") ;;
  pagerank_result <- run_pagerank graph_name None None ;;
  print ("PageRank result: " ++ repr_json pagerank_result) ;;
  (* 4. Run Community Detection *)
  print (nl ++ "Running Community Detection...") ;;
  community_result <- run_community_detection graph_name None ;;
  print ("Community Detection result: " ++ repr_json community_result) ;;
  (* 5. Execute PGQL query *)
  print (nl ++ "Executing PGQL query...") ;;
  pgql_result <- execute_pgql graph_name
                   "SELECT v.entity_id, v.entity_type FROM MATCH (v) LIMIT 10" ;;
  print ("PGQL query result: " ++ repr_json pgql_result) ;;
  print rule.

End Example.

End RestClient.

(** ** The query scripts

    [pgql_queries.py] and [run_graph_analytics.py] read the tables that the
    analyzer filled.  Both print frames with [df.to_string(index=False)],
    which is taken as given and not to fail. *)

Class Pandas : Type := {
  to_string : DataFrame -> string
}.

(** ["=" * 60] and ["-" * 60]. *)
Definition rule60 : string := String.concat "" (repeat "=" 60).
Definition dashes60 : string := String.concat "" (repeat "-" 60).

Definition newline : string := String (ascii_of_nat 10) "".

(** *** pgql_queries.py *)

Module PgqlQueries.

Definition ORACLE_HOST : string := "localhost".
Definition ORACLE_PORT : Z := 1521.
Definition ORACLE_SERVICE : string := "FREE".

Section Script.

Context `{World} `{Pandas}.

(** [os.getenv("ORACLE_USER", "graphuser")] and
    [os.getenv("GRAPH_PASSWORD", "Welcome1")], read once at import. *)
Variables ORACLE_USER ORACLE_PASSWORD : string.

Definition connect_db : M unit Conn :=
  let dsn := mkDsn ORACLE_HOST ORACLE_PORT ORACLE_SERVICE in
  connection <- call (DbConnect ORACLE_USER ORACLE_PASSWORD dsn) ;;
  print "[OK] Connected to Oracle Database" ;;
  ret connection.

(** [run_query]: the frame, or [None] after an exception. *)
Definition run_query (connection : Conn) (query description : string)
  : M unit (option DataFrame) :=
  print (newline ++ description) ;;
  print dashes60 ;;
  try_except
    (df <- call (ReadSql query connection) ;;
     print (to_string df) ;;
     ret (Some df))
    (fun e => Some (print ("[ERROR] " ++ exn_msg e) ;; ret None)).

Definition vertices_query : string :=
  "
    SELECT 'ENTITIES' as table_name, COUNT(*) as count FROM entities
    UNION ALL
    SELECT 'COUNTRIES', COUNT(*) FROM countries
    UNION ALL
    SELECT 'MONTHS', COUNT(*) FROM months
    UNION ALL
    SELECT 'INSPECTIONS', COUNT(*) FROM inspections
    ".

Definition edges_query : string :=
  "
    SELECT 'SHIPPED_IN' as edge_type, COUNT(*) as count FROM shipped_in_edges
    UNION ALL
    SELECT 'IS_FROM', COUNT(*) FROM is_from_edges
    UNION ALL
    SELECT 'HAS_WEATHER', COUNT(*) FROM has_weather_edges
    UNION ALL
    SELECT 'HAS_INSPECTION', COUNT(*) FROM has_inspection_result_edges
    ".

Definition analyze_graph_structure (connection : Conn) : M unit unit :=
  print (newline ++ rule60) ;;
  print "GRAPH STRUCTURE ANALYSIS" ;;
  print rule60 ;;
  run_query connection vertices_query "Vertex Counts:" ;;
  run_query connection edges_query "Edge Counts:" ;;
  ret tt.

Definition node_degrees_query : string :=
  "
    SELECT
        e.entity_id,
        e.entity_type,
        (SELECT COUNT(*) FROM shipped_in_edges WHERE entity_id = e.entity_id) AS shipped_count,
        (SELECT COUNT(*) FROM is_from_edges WHERE entity_id = e.entity_id) AS country_count,
        (SELECT COUNT(*) FROM has_weather_edges WHERE entity_id = e.entity_id) AS weather_count,
        (SELECT COUNT(*) FROM has_inspection_result_edges WHERE entity_id = e.entity_id) AS inspection_count
    FROM entities e
    ORDER BY shipped_count DESC
    FETCH FIRST 10 ROWS ONLY
    ".

Definition analyze_node_degrees (connection : Conn) : M unit unit :=
  print (newline ++ rule60) ;;
  print "NODE DEGREE ANALYSIS" ;;
  print rule60 ;;
  run_query connection node_degrees_query "Top 10 Entities by Connections:" ;;
  ret tt.

Definition country_distribution_query : string :=
  "
    SELECT
        country_code,
        COUNT(DISTINCT entity_id) AS entity_count
    FROM inspections
    GROUP BY country_code
    ORDER BY entity_count DESC
    ".

Definition analyze_country_distribution (connection : Conn) : M unit unit :=
  print (newline ++ rule60) ;;
  print "COUNTRY DISTRIBUTION ANALYSIS" ;;
  print rule60 ;;
  run_query connection country_distribution_query "Entities per Country:" ;;
  ret tt.

Definition temporal_patterns_query : string :=
  "
    SELECT
        month_name,
        COUNT(DISTINCT entity_id) AS entity_count,
        COUNT(*) AS shipment_count
    FROM shipped_in_edges
    GROUP BY month_name
    ORDER BY shipment_count DESC
    ".

Definition analyze_temporal_patterns (connection : Conn) : M unit unit :=
  print (newline ++ rule60) ;;
  print "TEMPORAL PATTERN ANALYSIS" ;;
  print rule60 ;;
  run_query connection temporal_patterns_query "Shipments by Month:" ;;
  ret tt.

Definition inspection_results_query : string :=
  "
    SELECT
        CASE WHEN has_pest = 1 THEN 'HAS_PEST' ELSE 'NO_PEST' END AS result,
        COUNT(*) AS count,
        ROUND(COUNT(*) * 100.0 / SUM(COUNT(*)) OVER (), 2) AS percentage
    FROM inspections
    GROUP BY has_pest
    ORDER BY count DESC
    ".

Definition analyze_inspection_results (connection : Conn) : M unit unit :=
  print (newline ++ rule60) ;;
  print "INSPECTION RESULTS ANALYSIS" ;;
  print rule60 ;;
  run_query connection inspection_results_query
            "Inspection Results Distribution:" ;;
  ret tt.

Definition high_risk_query : string :=
  "
    SELECT
        i.entity_id,
        e.entity_type,
        COUNT(*) AS inspection_count,
        SUM(i.has_pest) AS pest_count,
        ROUND(SUM(i.has_pest) * 100.0 / COUNT(*), 2) AS pest_percentage,
        ROUND(AVG(i.pests_30d), 2) AS avg_pests_30d,
        ROUND(AVG(i.pests_90d), 2) AS avg_pests_90d,
        ROUND(AVG(i.pests_1yr), 2) AS avg_pests_1yr
    FROM inspections i
    JOIN entities e ON i.entity_id = e.entity_id
    GROUP BY i.entity_id, e.entity_type
    HAVING COUNT(*) >= 1
    ORDER BY avg_pests_1yr DESC, avg_pests_90d DESC
    FETCH FIRST 10 ROWS ONLY
    ".

Definition find_high_risk_entities (connection : Conn) : M unit unit :=
  print (newline ++ rule60) ;;
  print "HIGH RISK ENTITIES" ;;
  print rule60 ;;
  run_query connection high_risk_query
            "Top 10 Entities by Pest Detection Rate:" ;;
  ret tt.

(** The statements of the [try] block of the script. *)
Definition analyses (connection : Conn) : M unit unit :=
  analyze_graph_structure connection ;;
  analyze_node_degrees connection ;;
  analyze_country_distribution connection ;;
  analyze_temporal_patterns connection ;;
  analyze_inspection_results connection ;;
  find_high_risk_entities connection ;;
  print (newline ++ rule60) ;;
  print "ANALYSIS COMPLETE" ;;
  print rule60.

(** The body of [if __name__ == "__main__":]. *)
Definition main : M unit unit :=
  print rule60 ;;
  print "ORACLE GRAPH ANALYTICS - PGQL QUERIES" ;;
  print rule60 ;;
  connection <- connect_db ;;
  try_finally
    (analyses connection)
    (call (ConnClose connection) ;;
     print (newline ++ "[OK] Database connection closed")).

End Script.

(** The queries of the script in the order it runs them. *)
Definition queries : list string :=
  [ vertices_query; edges_query; node_degrees_query;
    country_distribution_query; temporal_patterns_query;
    inspection_results_query; high_risk_query ].

End PgqlQueries.

(** *** run_graph_analytics.py *)

Module GraphAnalytics.

Section Script.

Context `{World} `{Runtime} `{Pandas}.

(** The configuration that the module reads from the process environment at
    import. *)
Variables ORACLE_HOST : string.
Variable ORACLE_PORT : Z.
Variables ORACLE_SERVICE ORACLE_USER ORACLE_PASSWORD : string.

Definition connect_to_db : M unit Conn :=
  let dsn := mkDsn ORACLE_HOST ORACLE_PORT ORACLE_SERVICE in
  connection <- call (DbConnect ORACLE_USER ORACLE_PASSWORD dsn) ;;
  ret connection.

Definition node_degrees_query : string :=
  "
        SELECT
            e.entity_id,
            (SELECT COUNT(*) FROM shipped_in_edges WHERE entity_id = e.entity_id) as shipped_in_count,
            (SELECT COUNT(*) FROM is_from_edges WHERE entity_id = e.entity_id) as is_from_count,
            (SELECT COUNT(*) FROM has_weather_edges WHERE entity_id = e.entity_id) as has_weather_count,
            (SELECT COUNT(*) FROM has_inspection_result_edges WHERE entity_id = e.entity_id) as has_result_count,
            (SELECT COUNT(*) FROM shipped_in_edges WHERE entity_id = e.entity_id) +
            (SELECT COUNT(*) FROM is_from_edges WHERE entity_id = e.entity_id) +
            (SELECT COUNT(*) FROM has_weather_edges WHERE entity_id = e.entity_id) +
            (SELECT COUNT(*) FROM has_inspection_result_edges WHERE entity_id = e.entity_id) as total_degree
        FROM entities e
        ORDER BY total_degree DESC
        FETCH FIRST 20 ROWS ONLY
    ".

Definition analyze_node_degrees (connection : Conn) : M unit DataFrame :=
  print (newline ++ rule60) ;;
  print "Node Degree Analysis (Entity Connectivity)" ;;
  print rule60 ;;
  df <- call (ReadSql node_degrees_query connection) ;;
  print (newline ++ "Top 20 Entities by Degree (Connectivity):" ++ newline) ;;
  print (to_string df) ;;
  ret df.

Definition pest_by_country_query : string :=
  "
        SELECT
            c.country_code,
            COUNT(DISTINCT e.entity_id) as total_entities,
            SUM(CASE WHEN tp.target_value = 1 THEN 1 ELSE 0 END) as pest_entities,
            ROUND(SUM(CASE WHEN tp.target_value = 1 THEN 1 ELSE 0 END) * 100.0 / COUNT(*), 2) as pest_percentage
        FROM entities e
        JOIN is_from_edges ife ON e.entity_id = ife.entity_id
        JOIN countries c ON ife.country_code = c.country_code
        LEFT JOIN has_inspection_result_edges hire ON e.entity_id = hire.entity_id
        LEFT JOIN target_proxies tp ON hire.target_value = tp.target_value
        GROUP BY c.country_code
        HAVING COUNT(DISTINCT e.entity_id) > 5
        ORDER BY pest_percentage DESC
    ".

Definition analyze_pest_by_country (connection : Conn) : M unit DataFrame :=
  print (newline ++ rule60) ;;
  print "Pest Distribution by Country" ;;
  print rule60 ;;
  df <- call (ReadSql pest_by_country_query connection) ;;
  print (newline ++ "Pest Distribution by Country:" ++ newline) ;;
  print (to_string df) ;;
  ret df.

Definition temporal_patterns_query : string :=
  "
        SELECT
            m.month_name,
            COUNT(DISTINCT e.entity_id) as total_entities,
            SUM(CASE WHEN tp.target_value = 1 THEN 1 ELSE 0 END) as pest_count,
            ROUND(SUM(CASE WHEN tp.target_value = 1 THEN 1 ELSE 0 END) * 100.0 / COUNT(*), 2) as pest_percentage
        FROM entities e
        JOIN shipped_in_edges sie ON e.entity_id = sie.entity_id
        JOIN months m ON sie.month_name = m.month_name
        LEFT JOIN has_inspection_result_edges hire ON e.entity_id = hire.entity_id
        LEFT JOIN target_proxies tp ON hire.target_value = tp.target_value
        GROUP BY m.month_name, m.month_number
        ORDER BY m.month_number
    ".

Definition analyze_temporal_patterns (connection : Conn) : M unit DataFrame :=
  print (newline ++ rule60) ;;
  print "Temporal Patterns (Pest by Month)" ;;
  print rule60 ;;
  df <- call (ReadSql temporal_patterns_query connection) ;;
  print (newline ++ "Pest Patterns by Month:" ++ newline) ;;
  print (to_string df) ;;
  ret df.

(** The query of [find_entity_paths], with the entity id spliced in. *)
Definition entity_paths_query (entity_id : string) : string :=
  "
        SELECT DISTINCT
            e.entity_id as source_entity,
            c.country_code,
            m.month_name,
            tp.target_label
        FROM entities e
        LEFT JOIN is_from_edges ife ON e.entity_id = ife.entity_id
        LEFT JOIN countries c ON ife.country_code = c.country_code
        LEFT JOIN shipped_in_edges sie ON e.entity_id = sie.entity_id
        LEFT JOIN months m ON sie.month_name = m.month_name
        LEFT JOIN has_inspection_result_edges hire ON e.entity_id = hire.entity_id
        LEFT JOIN target_proxies tp ON hire.target_value = tp.target_value
        WHERE e.entity_id = '" ++ entity_id ++ "'
    ".

(** [max_depth] is not used by the function. *)
Definition find_entity_paths (connection : Conn) (entity_id : Cell)
    (max_depth : option Z) : M unit DataFrame :=
  print (newline ++ rule60) ;;
  print ("Paths from Entity: " ++ str_cell entity_id) ;;
  print rule60 ;;
  df <- call (ReadSql (entity_paths_query (str_cell entity_id)) connection) ;;
  print (newline ++ "Connections for Entity " ++ str_cell entity_id ++ ":"
           ++ newline) ;;
  print (to_string df) ;;
  ret df.

Definition edges_query : string :=
  "
        SELECT
            'shipped_in' as edge_type,
            entity_id as source,
            month_name as target
        FROM shipped_in_edges
        UNION ALL
        SELECT
            'is_from' as edge_type,
            entity_id as source,
            country_code as target
        FROM is_from_edges
        UNION ALL
        SELECT
            'has_weather' as edge_type,
            entity_id as source,
            cm_id as target
        FROM has_weather_edges
        UNION ALL
        SELECT
            'has_result' as edge_type,
            entity_id as source,
            CAST(target_value AS VARCHAR2(10)) as target
        FROM has_inspection_result_edges
    ".

Definition export_graph_to_csv (connection : Conn)
  : M unit (DataFrame * DataFrame) :=
  print (newline ++ rule60) ;;
  print "Exporting Graph Data to CSV" ;;
  print rule60 ;;
  (* Export nodes *)
  entities_df <- call (ReadSql "SELECT * FROM entities" connection) ;;
  call (WriteCsv "data/entities_export.csv" entities_df) ;;
  print ("✓ Exported " ++ str_nat (len entities_df)
           ++ " entities to data/entities_export.csv") ;;
  (* Export edges *)
  edges_df <- call (ReadSql edges_query connection) ;;
  call (WriteCsv "data/edges_export.csv" edges_df) ;;
  print ("✓ Exported " ++ str_nat (len edges_df)
           ++ " edges to data/edges_export.csv") ;;
  print (newline ++ "Graph exported! You can now:") ;;
  print "  - Import into NetworkX for advanced analytics" ;;
  print "  - Import into Gephi for visualization" ;;
  print "  - Import into PyTorch Geometric for GNN training" ;;
  ret (entities_df, edges_df).

(** [df.iloc[0][name]]. *)
Definition iloc0 (df : DataFrame) (name : string) : exn + Cell :=
  match values df with
  | [] => inl (mkExn IndexError "single positional indexer is out-of-bounds")
  | row0 :: _ => row_get (columns df) row0 name
  end.

(** The statements of the [try] block of [main]. *)
Definition analysis (connection : Conn) : M unit unit :=
  (* Run analytics *)
  degree_df <- analyze_node_degrees connection ;;
  country_df <- analyze_pest_by_country connection ;;
  temporal_df <- analyze_temporal_patterns connection ;;
  (* Get sample entity for path analysis *)
  (if (0 <? len degree_df)%nat then
     sample_entity <- lift (iloc0 degree_df "entity_id") ;;
     path_df <- find_entity_paths connection sample_entity None ;;
     ret tt
   else ret tt) ;;
  (* Export for external tools *)
  exported <- export_graph_to_csv connection ;;
  print (newline ++ rule60) ;;
  print "Analysis Complete!" ;;
  print rule60 ;;
  print (newline ++ "Next Steps:") ;;
  print "  1. View Graph Studio UI: http://localhost:7007/ui/" ;;
  print "     (Login with graphuser / GraphPassword123)" ;;
  print "  2. Import exported CSVs into NetworkX/Gephi" ;;
  print "  3. Use PGX algorithms via Graph Studio UI".

Definition main : M unit unit :=
  print rule60 ;;
  print "Oracle Graph Analytics - SQL-Based Analysis" ;;
  print rule60 ;;
  (* Connect to database *)
  print (newline ++ "Connecting to Oracle Database...") ;;
  connection <- connect_to_db ;;
  print "✓ Connected successfully" ;;
  try_finally
    (analysis connection)
    (call (ConnClose connection) ;;
     print (newline ++ "✓ Database connection closed")).

End Script.

End GraphAnalytics.

(** ** Observations on traces *)

Definition is_space (c : ascii) : bool :=
  match nat_of_ascii c with
  | 32%nat | 9%nat | 10%nat | 13%nat => true
  | _ => false
  end.

(** A statement text without its leading white space. *)
Fixpoint lstrip (s : string) : string :=
  match s with
  | EmptyString => EmptyString
  | String c rest => if is_space c then lstrip rest else s
  end.

Definition is_insert_sql (sql : string) : bool := prefix "INSERT" (lstrip sql).
Definition is_delete_sql (sql : string) : bool := prefix "DELETE" (lstrip sql).

(** The statement text that an event hands to the database, if any. *)
Definition sql_of (e : Event) : option string :=
  match e with
  | Called (CurExecute _ sql _) _ => Some sql
  | Called (CurExecuteMany _ sql _) _ => Some sql
  | _ => None
  end.

(** The event executes an INSERT, for one row or for a batch. *)
Definition inserts (e : Event) : bool :=
  match sql_of e with
  | Some sql => is_insert_sql sql
  | None => false
  end.

(** The statement texts of a trace, in order. *)
Definition executed_sql (tr : list Event) : list string :=
  flat_map (fun e => match sql_of e with Some s => [s] | None => [] end) tr.

(** The queries that [pd.read_sql] was asked to run, in order. *)
Definition read_attempts (tr : list Event) : list string :=
  flat_map (fun e => match e with
                     | Called (ReadSql sql _) _ => [sql]
                     | _ => []
                     end) tr.

Definition is_db_connect (e : Event) : bool :=
  match e with Called (DbConnect _ _ _) _ => true | _ => false end.

Definition is_sleep (e : Event) : bool :=
  match e with Called (Sleep _) _ => true | _ => false end.

Definition is_sleep_of (seconds : Z) (e : Event) : bool :=
  match e with Called (Sleep z) _ => (z =? seconds)%Z | _ => false end.

(** The connection attempts of a trace, and its sleeps. *)
Definition attempts (tr : list Event) : list Event := filter is_db_connect tr.
Definition sleeps (tr : list Event) : list Event := filter is_sleep tr.

(** Attempts and sleeps together, in the order they happened. *)
Definition retry_view (tr : list Event) : list Event :=
  filter (fun e => is_db_connect e || is_sleep e) tr.

(** An attempt, then a sleep of the given length, then an attempt, and so
    on: no two attempts without a sleep between them, no two sleeps without
    an attempt between them. *)
Fixpoint alternating (seconds : Z) (view : list Event) : bool :=
  match view with
  | [] => true
  | c :: rest =>
      is_db_connect c &&
      match rest with
      | [] => true
      | s :: rest' => is_sleep_of seconds s && alternating seconds rest'
      end
  end.

Definition is_db_cursor (e : Event) : bool :=
  match e with Called (DbCursor _) _ => true | _ => false end.

(** The event [e] is a connection that was opened, and the next event is the
    cursor that was opened on it: the attempt succeeded. *)
Definition succeeded_here (e : Event) (rest : list Event) : bool :=
  match e, rest with
  | Called (DbConnect _ _ _) None, Called (DbCursor _) None :: _ => true
  | _, _ => false
  end.

Definition no_retry (e : Event) : bool :=
  negb (is_db_connect e || is_sleep e).

(** After the first successful attempt there is no attempt and no sleep. *)
Fixpoint stops_at_success (tr : list Event) : bool :=
  match tr with
  | [] => true
  | e :: rest =>
      if succeeded_here e rest then forallb no_retry rest
      else stops_at_success rest
  end.

(** Neither a connection attempt, nor a sleep, nor the opening of a cursor. *)
Definition off_database (e : Event) : bool :=
  negb (is_db_connect e || is_sleep e || is_db_cursor e).

(** The analyzer holds an open connection and a cursor on it. *)
Definition connected (s : Analyzer.PestDataAnalyzer) : Prop :=
  exists conn cur,
    Analyzer.connection s = Some conn /\
    Analyzer.cursor s = Some (mkCur conn cur).

(** ** Invariants of computations

    [respects I P m]: started in an object state that satisfies [I], the
    computation [m] ends, with a value or an exception, in an object state
    that satisfies [I], and every event it produces satisfies [P]. *)
Definition respects `{World} {S A : Type} (I : S -> Prop) (P : Event -> Prop)
    (m : M S A) : Prop :=
  forall s w, I s -> I (final (m s w)) /\ Forall P (trace (m s w)).

(** The event, if it inserts a row into [inspections], binds integers for
    [target_proxy] (the fourth value) and [has_pest] (the eleventh), and
    [has_pest] is 1 exactly when [target_proxy] is 1. *)
Definition pest_consistent (e : Event) : Prop :=
  match e with
  | Called (CurExecute _ sql binds) _ =>
      sql = Analyzer.inspection_sql ->
      exists tp hp,
        nth_error binds 3 = Some (CInt tp) /\
        nth_error binds 10 = Some (CInt hp) /\
        (hp = 1%Z <-> tp = 1%Z)
  | _ => True
  end.

(** Every TARGET_PROXY value that a loop over the rows of the frame reads is
    an integer, as such or as a float, or lies outside its row. *)
Definition tp_clean_frame (d : DataFrame) : Prop :=
  forall r c,
    In r (values d) ->
    row_get (columns d) r "TARGET_PROXY" = inr c ->
    (exists z, c = CInt z) \/ (exists z, c = CFloat (inject_Z z)) \/ c = CNaN.

Definition tp_clean (s : Analyzer.PestDataAnalyzer) : Prop :=
  forall d, Analyzer.df s = Some d -> tp_clean_frame d.

(** ** Stages of a run, as its calls show them *)

Inductive Stage : Type :=
| Connect     (* opening the connection and the cursor, sleeping between attempts *)
| Probe       (* a request to the analytics server *)
| ReadInput   (* reading the CSV *)
| Truncate    (* DELETE statements *)
| Insert      (* INSERT statements *)
| Stats       (* the counting queries and their fetches *)
| Close       (* closing cursor, connection and session *)
| Export      (* writing a CSV *)
| Other.      (* calls that only the other scripts make *)

Definition rank (st : Stage) : nat :=
  match st with
  | Connect => 0 | Probe => 1 | ReadInput => 2 | Truncate => 3 | Insert => 4
  | Stats => 5 | Close => 6 | Export => 7 | Other => 8
  end.

(** The stage that a call belongs to; commits and log lines belong to the
    stage around them. *)
Definition stage_of (e : Event) : option Stage :=
  match e with
  | Called c _ =>
      match c with
      | DbConnect _ _ _ | DbCursor _ | Sleep _ => Some Connect
      | Http _ _ _ _ _ => Some Probe
      | ReadCsv _ => Some ReadInput
      | CurExecute _ sql _ =>
          if is_delete_sql sql then Some Truncate
          else if is_insert_sql sql then Some Insert
          else Some Stats
      | CurFetchOne _ => Some Stats
      | ConnCommit _ => None
      | CurClose _ | ConnClose _ | PgxGraphDestroy _ | PgxSessionClose _ =>
          Some Close
      | WriteCsv _ _ => Some Export
      | CurExecuteMany _ _ _ | CurFetchAll _ | ReadSql _ _
      | OpenLogFile _ => Some Other
      end
  | _ => None
  end.

(** The event belongs to no stage or to a stage whose rank lies between
    [lo] and [hi]. *)
Definition staged (lo hi : nat) (e : Event) : Prop :=
  match stage_of e with
  | Some st => (lo <= rank st <= hi)%nat
  | None => True
  end.

(** The stages of the trace never go back: from rank [lo] on, every call
    belongs to the stage of the call before it or to a later one. *)
Fixpoint ordered_from (lo : nat) (tr : list Event) : Prop :=
  match tr with
  | [] => True
  | e :: rest =>
      match stage_of e with
      | Some st => (lo <= rank st)%nat /\ ordered_from (rank st) rest
      | None => ordered_from lo rest
      end
  end.

(** The stages of a trace in order, each named once per visit. *)
Definition stage_eqb (a b : Stage) : bool := (rank a =? rank b)%nat.

Fixpoint stages_from (current : option Stage) (tr : list Event) : list Stage :=
  match tr with
  | [] => []
  | e :: rest =>
      match stage_of e, current with
      | Some st, Some cur =>
          if stage_eqb st cur then stages_from current rest
          else st :: stages_from (Some st) rest
      | Some st, None => st :: stages_from (Some st) rest
      | None, _ => stages_from current rest
      end
  end.

Definition stages (tr : list Event) : list Stage := stages_from None tr.

(** The calls of [m] go through the stages of rank [lo] to [hi] without
    ever going back. *)
Definition in_order `{World} {S A : Type} (lo hi : nat) (m : M S A) : Prop :=
  forall s w,
    ordered_from lo (trace (m s w)) /\ Forall (staged lo hi) (trace (m s w)).

(** The events of [m] all satisfy [P]. *)
Definition emits `{World} {S A : Type} (P : Event -> Prop) (m : M S A) : Prop :=
  respects (fun _ => True) P m.

(** The analyzer holds the connection [c] and the cursor [cur]. *)
Definition holds (c : Conn) (cur : Cur) (s : Analyzer.PestDataAnalyzer) : Prop :=
  Analyzer.connection s = Some c /\ Analyzer.cursor s = Some cur.

(** ** Views of a trace *)

(** The calls of a trace, in order. *)
Definition calls_of (tr : list Event) : list Call :=
  flat_map (fun e => match e with Called c _ => [c] | _ => [] end) tr.

(** The calls that returned. *)
Definition returned_calls (tr : list Event) : list Call :=
  flat_map (fun e => match e with Called c None => [c] | _ => [] end) tr.

Definition is_pgx_call (e : Event) : bool :=
  match e with
  | Called (PgxGraphDestroy _) _ | Called (PgxSessionClose _) _ => true
  | _ => false
  end.

(** The connections that the trace tried to close. *)
Definition conn_closes (tr : list Event) : list Conn :=
  flat_map (fun e => match e with
                     | Called (ConnClose c) _ => [c]
                     | _ => []
                     end) tr.

(** The messages handed to the logger and the lines printed. *)
Definition logged (tr : list Event) : list string :=
  flat_map (fun e => match e with Logged _ msg => [msg] | _ => [] end) tr.

Definition printed (tr : list Event) : list string :=
  flat_map (fun e => match e with Printed text => [text] | _ => [] end) tr.

(** The HTTP requests of a trace: verb, URL and JSON body. *)
Definition requests (tr : list Event) : list (Verb * string * option Json) :=
  flat_map (fun e => match e with
                     | Called (Http v url body _ _) _ => [(v, url, body)]
                     | _ => []
                     end) tr.

(** The single statements handed to a cursor, with their bind values. *)
Definition statements (tr : list Event) : list (string * list Cell) :=
  flat_map (fun e => match e with
                     | Called (CurExecute _ sql binds) _ => [(sql, binds)]
                     | _ => []
                     end) tr.

(** The bind values of the executions of one statement text. *)
Definition binds_of (sql : string) (tr : list Event) : list (list Cell) :=
  flat_map (fun sb => if (fst sb =? sql)%string then [snd sb] else [])
           (statements tr).

(** The files written. *)
Definition writes (tr : list Event) : list string :=
  flat_map (fun e => match e with
                     | Called (WriteCsv path _) _ => [path]
                     | _ => []
                     end) tr.

(** [xs] is an initial segment of [ys]. *)
Definition initial_segment {A : Type} (xs ys : list A) : Prop :=
  exists rest, ys = (xs ++ rest)%list.

(** A string that ends with the character [c]. *)
Fixpoint ends_with (c : ascii) (s : string) : bool :=
  match s with
  | EmptyString => false
  | String a EmptyString => Ascii.eqb a c
  | String _ rest => ends_with c rest
  end.

(** A string made of the character [c] only. *)
Fixpoint all_chars (c : ascii) (s : string) : bool :=
  match s with
  | EmptyString => true
  | String a rest => Ascii.eqb a c && all_chars c rest
  end.

(** The counting queries among the statements of a trace. *)
Definition is_count_sql (sql : string) : bool :=
  prefix "SELECT COUNT(*) FROM " sql.

Definition count_statements (tr : list Event) : list string :=
  flat_map (fun e => match e with
                     | Called (CurExecute _ sql _) _ =>
                         if is_count_sql sql then [sql] else []
                     | _ => []
                     end) tr.

(** The event neither closes a connection nor runs a counting query. *)
Definition before_verification (e : Event) : Prop :=
  conn_closes [e] = [] /\ count_statements [e] = [].

(** The queries that [pd.read_sql] answered. *)
Definition returned_reads (tr : list Event) : list string :=
  flat_map (fun e => match e with
                     | Called (ReadSql sql _) None => [sql]
                     | _ => []
                     end) tr.

(** The event is no call. *)
Definition silent (e : Event) : Prop :=
  match e with Called _ _ => False | _ => True end.

(** ** What the catalog reports about a column

    A row of [user_tab_columns] as a typed record: the database reports a
    length for every column, a precision (1 to 38) and a scale for NUMBER
    columns that were declared with them, and the flag ['Y'] or ['N']. *)
Record CatalogColumn : Type := mkColumn {
  column_name : string;
  data_type : string;
  data_length : Z;
  data_precision : option positive;
  data_scale : option Z;
  nullable : string
}.

(** The tuple that [cursor.fetchall()] gives for a catalog row: the five
    columns of the select list of the catalog query, the scale not being
    among them. *)
Definition catalog_row (c : CatalogColumn) : list Cell :=
  [ CStr (column_name c);
    CStr (data_type c);
    CInt (data_length c);
    match data_precision c with Some p => CInt (Zpos p) | None => CNone end;
    CStr (nullable c) ].

(** The type of a column as the statement has to spell it: the reported type,
    with the length for VARCHAR2 and the precision for NUMBER. *)
Definition type_text (c : CatalogColumn) : string :=
  if (data_type c =? "VARCHAR2")%string then
    "VARCHAR2(" ++ str_Z (data_length c) ++ ")"
  else if (data_type c =? "NUMBER")%string then
    match data_precision c with
    | Some p => "NUMBER(" ++ str_Z (Zpos p) ++ ")"
    | None => "NUMBER"
    end
  else data_type c.

(** The definition of one column: name, type, and NOT NULL for the flag
    ['N']. *)
Definition column_ddl (c : CatalogColumn) : string :=
  (column_name c ++ " " ++ type_text c)
    ++ (if (nullable c =? "N")%string then " NOT NULL" else "").

Definition create_table_text (table_name : string) (cs : list CatalogColumn)
  : string :=
  "CREATE TABLE " ++ table_name ++ " (" ++ join ", " (map column_ddl cs) ++ ")".

Definition is_create_sql (sql : string) : bool := prefix "CREATE" (lstrip sql).

(** "Reproduces each source column exactly as reported by the catalog, so
    the destination schema columns match the vendor-reported types of the
    source", for the table [table_name]: the statement tells what the
    catalog reported.  The destination is created from the statement alone,
    so when two tables of which the catalog reports different columns get
    the same statement, the destination matches one of them at most. *)
Definition reproduces_catalog `{Runtime} (table_name : string) : Prop :=
  forall (cs1 cs2 : list CatalogColumn) (sql : string),
    CopyScript.build_create_sql table_name (map catalog_row cs1) = inr sql ->
    CopyScript.build_create_sql table_name (map catalog_row cs2) = inr sql ->
    cs1 = cs2.

(** ** The REST client as the specification words it *)

(** A success status: 2xx. *)
Definition is_success_status (status : Z) : bool :=
  (200 <=? status)%Z && (status <? 300)%Z.

(** "Returns the parsed JSON body if and only if the response status is a
    success", for one call of a method: whenever the single request of the
    call is answered by a response, the method returns the decoded body of
    that response exactly when the status is a success. *)
Definition returns_json_iff_success `{World}
    (m : RestClient.Method) (client : RestClient.PGXRestClient) (w : W) : Prop :=
  forall verb url body headers timeout (resp : Response) w1,
    trace (RestClient.invoke m client w)
      = [Called (Http verb url body headers timeout) None] ->
    env (Http verb url body headers timeout) w = (inr resp, w1) ->
    ((exists j, outcome (RestClient.invoke m client w) = inr j)
     <-> is_success_status (status_code resp) = true).

(** ** The retry loop of [connect], one attempt at a time *)

Section RetrySteps.

Context `{World} `{Runtime}.

Definition prepend {S A} (pre : list Event) (r : Res S A) : Res S A :=
  mkRes (outcome r) (final r) (world r) (pre ++ trace r)%list.

(** What follows an attempt that raised [e], [pre] being the events of the
    attempt. *)
Definition after_failure (attempt : nat) (rest : list nat) (dsn : Dsn)
    (e : exn) (pre : list Event) (s : Analyzer.PestDataAnalyzer) (w : W)
  : Res Analyzer.PestDataAnalyzer unit :=
  if exn_class_eqb (exn_cls e) DatabaseError then
    if (attempt <? Analyzer.max_retries)%nat then
      let warning :=
        Logged WARNING ("Connection failed: " ++ take_str 100 (exn_msg e)
                          ++ ". Retrying in " ++ str_Z Analyzer.retry_delay ++ "s...") in
      match env (Sleep Analyzer.retry_delay) w with
      | (inl e', w') =>
          mkRes (inl e') s w'
                (pre ++ [warning; Called (Sleep Analyzer.retry_delay) (Some e')])%list
      | (inr _, w') =>
          prepend (pre ++ [warning; Called (Sleep Analyzer.retry_delay) None])%list
                  (Analyzer.retry_loop rest dsn s w')
      end
    else
      mkRes (inl e) s w
            (pre ++ [Logged ERROR "Failed to connect to Oracle after all retries"])%list
  else mkRes (inl e) s w pre.

Definition attempt_line (attempt : nat) : Event :=
  Logged INFO ("Connection attempt " ++ str_nat attempt ++ "/"
                 ++ str_nat Analyzer.max_retries ++ "...").

End RetrySteps.

(** ** Statement texts of the analyzer *)

(** The INSERT statements of [create_nodes], as they stand in the source. *)
Definition node_statements : list string :=
  [ "INSERT INTO entities (entity_id, entity_type) VALUES (:1, :2)";
    "INSERT INTO countries (country_code, country_name) VALUES (:1, :2)";
    "INSERT INTO months (month_name, month_number) VALUES (:1, :2)";
    "INSERT INTO target_proxies (target_value, target_label) VALUES (:1, :2)";
    "INSERT INTO country_months (cm_id, country_code, month_name) VALUES (:1, :2, :3)" ].

(** The INSERT statements of [create_inspections_and_relationships]. *)
Definition relationship_statements : list string :=
  [ Analyzer.inspection_sql;
    "INSERT INTO shipped_in_edges (entity_id, month_name) VALUES (:1, :2)";
    "INSERT INTO is_from_edges (entity_id, country_code) VALUES (:1, :2)";
    "INSERT INTO has_weather_edges (entity_id, cm_id) VALUES (:1, :2)";
    "INSERT INTO has_inspection_result_edges (entity_id, target_value) VALUES (:1, :2)" ].

(** The DELETE statements of [clear_database]. *)
Definition delete_statements : list string :=
  map (fun table => "DELETE FROM " ++ table) Analyzer.tables.

(** The number of bind placeholders [:n] of a statement text. *)
Fixpoint placeholder_count (sql : string) : nat :=
  match sql with
  | EmptyString => 0
  | String c rest =>
      (if Ascii.eqb c ":" then 1 else 0) + placeholder_count rest
  end.

(** The event, if it executes a statement, executes one of the [allowed]
    texts and binds as many values as the text has placeholders. *)
Definition parameterized (allowed : list string) (e : Event) : Prop :=
  match e with
  | Called (CurExecute _ sql binds) _ =>
      In sql allowed /\ List.length binds = placeholder_count sql
  | Called (CurExecuteMany _ _ _) _ => False
  | _ => True
  end.

(** [":1, :2, ..., :n"]. *)
Definition numbered_placeholders (n : nat) : string :=
  join ", " (map (fun i => ":" ++ str_nat i) (seq 1 n)).

(** The event, if it is a batch insert, inserts the rows of one frame into
    [table_name] on the connection [dest], by the statement built from the
    column labels of that frame. *)
Definition batch_insert_of `{Runtime} (table_name : string) (dest : Conn)
    (e : Event) : Prop :=
  match e with
  | Called (CurExecuteMany cur sql rows) _ =>
      cur_conn cur = dest /\
      exists df, sql = CopyScript.insert_sql table_name df /\ rows = values df
  | _ => True
  end.

(** ** Cleaning of the numeric columns, as the specification words it *)

Section Cleaning.

Context `{Runtime}.

(** The value that the conversion of a series of type [dt] makes of one of
    its values. *)
Definition convert_cell (dt : Dtype) (c : Cell) : Cell :=
  Analyzer.astype_int dt
    (Analyzer.fillna0 (match dt with
                       | Float64 => as_float64 (Analyzer.to_numeric c)
                       | _ => Analyzer.to_numeric c
                       end)).

(** The integer [z] is what cleaning makes of the value [c]: an int64 in
    every case; 0 for what is missing or cannot be parsed as a number; the
    integer itself when its magnitude is at most 2^53; the truncation of a
    float, read from text or not, when that is an int64.  An infinity is
    never cleaned: the conversion raises. *)
Definition cleaned (c : Cell) (z : Z) : Prop :=
  in_int64 z = true /\
  match c with
  | CInt z0 => (Z.abs z0 <= 2 ^ 53)%Z -> z = z0
  | CFloat q => in_int64 (trunc q) = true -> z = trunc q
  | CStr s =>
      match parse_number s with
      | Some (NInt z0) => (Z.abs z0 <= 2 ^ 53)%Z -> z = z0
      | Some (NFloat q) => in_int64 (trunc q) = true -> z = trunc q
      | Some (NInf _) => False
      | None => z = 0%Z
      end
  | CNaN | CNone => z = 0%Z
  | CInf _ => False
  end.

(** The row [r'] is the row [r] after cleaning of the columns [cols] of a
    frame with the labels [names]: same width, every value that [r] has in
    one of these columns turned into its cleaned integer, every value of
    another column left alone. *)
Definition cleaned_row (names cols : list string) (r r' : list Cell) : Prop :=
  List.length r' = List.length r /\
  forall name j,
    col_index name names = Some j -> (j < List.length r)%nat ->
    (In name cols -> exists z, nth j r' CNaN = CInt z /\ cleaned (nth j r CNaN) z) /\
    (~ In name cols -> nth j r' CNaN = nth j r CNaN).

End Cleaning.

(** ** The pipeline as the specification words it

    "read CSV, clean, truncate tables, bulk insert vertices/edges, call
    external analytics client, write CSV": the five stages among them that
    show in calls (cleaning is computation inside the program), in the order
    the sentence gives. *)
Definition claimed_stages : list Stage :=
  [ReadInput; Truncate; Insert; Probe; Export].

(** The run went through the claimed stages, each once, in the claimed
    order: its stage sequence, restricted to the stages the sentence names,
    is the claimed one. *)
Definition follows_claimed_order (tr : list Event) : Prop :=
  filter (fun st => existsb (stage_eqb st) claimed_stages) (stages tr)
  = claimed_stages.

(** ** A completed truncation *)

(** One turn of the loop of [clear_database]: the DELETE on the cursor, with
    the outcome [o], and the log line that tells it. *)
Definition delete_step (cur : Cur) (step : string * option exn) : list Event :=
  let (table, o) := step in
  [ Called (CurExecute cur ("DELETE FROM " ++ table) []) o;
    Logged DEBUG
      match o with
      | None => "Cleared table: " ++ table
      | Some e => "Could not clear " ++ table ++ ": " ++ take_str 100 (exn_msg e)
      end ].

(** The DELETEs on the given tables in order, with the outcomes [os]. *)
Definition delete_steps (cur : Cur) (tables : list string)
    (os : list (option exn)) : list Event :=
  flat_map (delete_step cur) (combine tables os).

(** A truncation that went through: the DELETE on each of the ten tables in
    the order of [clear_database], each with its own outcome, and then the
    commit, which returned. *)
Definition clear_run (cur : Cur) (c : Conn) (os : list (option exn))
  : list Event :=
  (Logged WARNING "Clearing all graph data from database..."
     :: delete_steps cur Analyzer.tables os
     ++ [Called (ConnCommit c) None; Logged INFO "Database cleared"])%list.

(** "Deletes all rows from each of the ten graph tables, so each run loads
    into tables that start empty": whenever a row is inserted, each of the
    ten tables has had a DELETE that returned. *)
Definition deleted_from (table : string) (e : Event) : bool :=
  match e with
  | Called (CurExecute _ sql []) None => (sql =? "DELETE FROM " ++ table)%string
  | _ => false
  end.

Definition loads_into_empty_tables (tr : list Event) : Prop :=
  forall tr1 e tr2,
    tr = (tr1 ++ e :: tr2)%list -> inserts e = true ->
    forall table, In table Analyzer.tables ->
                  existsb (deleted_from table) tr1 = true.

(** ** What the methods outside the pipeline are expected to do *)

(** The close calls that [close] owes to the handles of an analyzer: the
    graph and the session if there is a session, then the cursor, then the
    connection. *)
Definition closing_plan (s : Analyzer.PestDataAnalyzer) : list Call :=
  (match Analyzer.pgx_session s with
   | Some session =>
       match Analyzer.graph s with
       | Some g => [PgxGraphDestroy g]
       | None => []
       end ++ [PgxSessionClose session]
   | None => []
   end
   ++ match Analyzer.cursor s with Some cur => [CurClose cur] | None => [] end
   ++ match Analyzer.connection s with Some c => [ConnClose c] | None => [] end)%list.

(** The counting queries of [get_stats], in order. *)
Definition count_queries : list string :=
  [ "SELECT COUNT(*) FROM entities";
    "SELECT COUNT(*) FROM inspections";
    "SELECT COUNT(*) FROM shipped_in_edges";
    "SELECT COUNT(*) FROM is_from_edges";
    "SELECT COUNT(*) FROM has_weather_edges";
    "SELECT COUNT(*) FROM has_inspection_result_edges" ].

(** The analyzer has no PGX session. *)
Definition no_session (s : Analyzer.PestDataAnalyzer) : Prop :=
  Analyzer.pgx_session s = None.

(** The counting queries of the verification of the copy script. *)
Definition verification_queries : list string :=
  map (fun table => "SELECT COUNT(*) FROM " ++ table) CopyScript.tables.

(** The requests of [example_pgx_analysis] on a client with base URL [base]
    for the graph [graph], in order, with the default parameters of the
    methods. *)
Definition example_requests (base graph : string)
  : list (Verb * string * option Json) :=
  [ (GET, base ++ "/version", None);
    (GET, base ++ "/graphs", None);
    (POST, base ++ "/analytics/algorithms/run",
     Some (JObj [ ("algorithm", JStr "pagerank");
                  ("graph", JStr graph);
                  ("params", JObj [ ("max_iterations", JInt 100);
                                    ("tolerance", JFloat (1 # 1000)) ]) ]));
    (POST, base ++ "/analytics/algorithms/run",
     Some (JObj [ ("algorithm", JStr "louvain");
                  ("graph", JStr graph) ]));
    (POST, base ++ "/pgql/query",
     Some (JObj [ ("graph", JStr graph);
                  ("query",
                   JStr "SELECT v.entity_id, v.entity_type FROM MATCH (v) LIMIT 10") ])) ].

(** ** The rows that the analyzer inserts *)

Definition entities_sql : string :=
  "INSERT INTO entities (entity_id, entity_type) VALUES (:1, :2)".
Definition countries_sql : string :=
  "INSERT INTO countries (country_code, country_name) VALUES (:1, :2)".
Definition months_sql : string :=
  "INSERT INTO months (month_name, month_number) VALUES (:1, :2)".
Definition target_proxies_sql : string :=
  "INSERT INTO target_proxies (target_value, target_label) VALUES (:1, :2)".
Definition country_months_sql : string :=
  "INSERT INTO country_months (cm_id, country_code, month_name) VALUES (:1, :2, :3)".
Definition shipped_in_sql : string :=
  "INSERT INTO shipped_in_edges (entity_id, month_name) VALUES (:1, :2)".
Definition is_from_sql : string :=
  "INSERT INTO is_from_edges (entity_id, country_code) VALUES (:1, :2)".
Definition has_weather_sql : string :=
  "INSERT INTO has_weather_edges (entity_id, cm_id) VALUES (:1, :2)".
Definition has_result_sql : string :=
  "INSERT INTO has_inspection_result_edges (entity_id, target_value) VALUES (:1, :2)".

(** The rows of a frame with columns of these types are floats throughout:
    a loop over them reads an integer of the frame as a float. *)
Definition upcasts (dts : list Dtype) : bool :=
  match common_dtype dts with Float64 => true | _ => false end.

(** The type of the column [name] of a frame. *)
Definition column_dtype (d : DataFrame) (name : string) : option Dtype :=
  match col_index name (columns d) with
  | Some i => nth_error (dtypes d) i
  | None => None
  end.

(** The selections of columns that the edge loops of
    [create_inspections_and_relationships] run over. *)
Definition edge_selections : list (list string) :=
  [ ["ENTY_ID"; "MONTH"];
    ["ENTY_ID"; "CTRY_CODE"];
    ["ENTY_ID"; "CTRY_CODE"; "MONTH"];
    ["ENTY_ID"; "TARGET_PROXY"] ].

(** No loop over the rows of the frame or of one of these selections reads
    rows of floats: every loop reads a value in the type of its column. *)
Definition read_as_stored (d : DataFrame) : Prop :=
  upcasts (dtypes d) = false /\
  forall names sub,
    In names edge_selections -> select d names = inr sub ->
    upcasts (dtypes sub) = false.

(** The bind values of one statement text among statements. *)
Definition pick (sql : string) (sbs : list (string * list Cell))
  : list (list Cell) :=
  flat_map (fun sb => if (fst sb =? sql)%string then [snd sb] else []) sbs.

(** The [n]-th bind value of each row. *)
Definition bind_column (n : nat) (rows : list (list Cell)) : list Cell :=
  map (fun b => nth n b CNone) rows.

Section VertexRows.

Context `{Runtime}.

(** The row of [target_proxies] for one distinct TARGET_PROXY value. *)
Definition target_row (t : Cell) : list (string * list Cell) :=
  match int_cell t with
  | inr z =>
      [(target_proxies_sql,
        [CInt z; CStr (if (z =? 0)%Z then "no_pest" else "pest")])]
  | inl _ => []
  end.

(** The rows of [country_months] for the rows of a frame, the ids in [seen]
    being there already. *)
Fixpoint country_month_rows (cols : list string) (rows : list (list Cell))
    (seen : list string) : exn + list (list Cell) :=
  match rows with
  | [] => inr []
  | row :: rest =>
      match Analyzer.cm_id_of cols row with
      | inl e => inl e
      | inr cm_id =>
          if Analyzer.in_set cm_id seen then country_month_rows cols rest seen
          else
            match row_get cols row "CTRY_CODE", row_get cols row "MONTH" with
            | inl e, _ => inl e
            | _, inl e => inl e
            | inr c, inr m =>
                match country_month_rows cols rest (cm_id :: seen) with
                | inl e => inl e
                | inr more =>
                    inr ([CStr cm_id; CStr (str_cell c); CStr (str_cell m)]
                           :: more)
                end
            end
      end
  end.

End VertexRows.

Section EdgeRows.

Context `{Runtime}.

(** The event, if it inserts a row of [has_weather_edges], binds as [cm_id]
    the country-month id of a row that a loop over the frame [d] reads. *)
Definition weather_refers_to (d : DataFrame) (e : Event) : Prop :=
  match e with
  | Called (CurExecute _ sql binds) _ =>
      sql = has_weather_sql ->
      exists row id,
        In row (values d) /\
        Analyzer.cm_id_of (columns d) row = inr id /\
        nth 1 binds CNone = CStr id
  | _ => True
  end.

(** The event, if it executes a statement, binds as its first value the
    text of the ENTY_ID of a row that a loop over the frame [d] reads. *)
Definition entity_refers_to (d : DataFrame) (e : Event) : Prop :=
  match e with
  | Called (CurExecute _ sql binds) _ =>
      exists row c,
        In row (values d) /\
        row_get (columns d) row "ENTY_ID" = inr c /\
        nth 0 binds CNone = CStr (str_cell c)
  | _ => True
  end.

(** Values that compare equal print alike. *)
Definition prints_alike (cs : list Cell) : Prop :=
  forall a b, In a cs -> In b cs -> cell_eqb a b = true ->
              str_cell a = str_cell b.

End EdgeRows.

Section RelationshipRows.

Context `{Runtime}.

(** The statement of one turn of each loop of
    [create_inspections_and_relationships], when the values it needs are
    there. *)
Definition inspection_row (cols : list string) (row : list Cell)
  : list (string * list Cell) :=
  match Analyzer.inspection_params cols row with
  | inr ps => [(Analyzer.inspection_sql, ps)]
  | inl _ => []
  end.

Definition shipped_in_row (cols : list string) (row : list Cell)
  : list (string * list Cell) :=
  match row_get cols row "ENTY_ID", row_get cols row "MONTH" with
  | inr e, inr m => [(shipped_in_sql, [CStr (str_cell e); CStr (str_cell m)])]
  | _, _ => []
  end.

Definition is_from_row (cols : list string) (row : list Cell)
  : list (string * list Cell) :=
  match row_get cols row "ENTY_ID", row_get cols row "CTRY_CODE" with
  | inr e, inr c => [(is_from_sql, [CStr (str_cell e); CStr (str_cell c)])]
  | _, _ => []
  end.

Definition has_weather_row (cols : list string) (row : list Cell)
  : list (string * list Cell) :=
  match Analyzer.cm_id_of cols row, row_get cols row "ENTY_ID" with
  | inr cm_id, inr e => [(has_weather_sql, [CStr (str_cell e); CStr cm_id])]
  | _, _ => []
  end.

Definition has_result_row (cols : list string) (row : list Cell)
  : list (string * list Cell) :=
  match row_get cols row "ENTY_ID", get_int cols row "TARGET_PROXY" with
  | inr e, inr t => [(has_result_sql, [CStr (str_cell e); CInt t])]
  | _, _ => []
  end.

End RelationshipRows.

(** ** Concrete environments

    Scripted worlds on which the models run by computation: the state of the
    world is the number of calls made so far, every call returns a fixed
    answer unless the script makes it raise. *)

Record Script : Type := mkScript {
  answers : forall c : Call, reply c;
  failing : Call -> nat -> option exn
}.

Definition scripted (sc : Script) : World :=
  {| W := nat;
     env := fun c n =>
       (match failing sc c n with
        | Some e => inl e
        | None => inr (answers sc c)
        end, S n) |}.

(** Decimal integers only; enough to run the examples. *)
Definition parse_Z (s : string) : option Z :=
  option_map Z.of_int (NilZero.int_of_string s).

(** A float with an integral value prints as Python prints it, [840.0];
    the other floats print as a fraction. *)
Definition demo_str_float (q : Q) : string :=
  if (Zpos (Qden q) =? 1)%Z then str_Z (Qnum q) ++ ".0"
  else str_Z (Qnum q) ++ "/" ++ str_Z (Zpos (Qden q)).

Definition demo_runtime : Runtime :=
  {| str_float := demo_str_float;
     repr_json := fun _ => "{...}";
     parse_number := fun s => option_map NInt (parse_Z s);
     parse_int := parse_Z |}.

Definition never_fails : Call -> nat -> option exn := fun _ _ => None.

(** A source table of two rows and its catalog description. *)
Definition months_frame : DataFrame :=
  mkDF ["MONTH_NAME"; "MONTH_NUMBER"] [Object; Int64]
       [ [CStr "JAN"; CInt 1]; [CStr "FEB"; CInt 2] ].

Definition months_catalog : list (list Cell) :=
  [ [CStr "MONTH_NAME"; CStr "VARCHAR2"; CInt 20; CNone; CStr "N"];
    [CStr "MONTH_NUMBER"; CStr "NUMBER"; CInt 22; CInt 2; CStr "Y"] ].

Definition copy_answers (c : Call) : reply c :=
  match c return reply c with
  | DbConnect _ _ d => if (dsn_service d =? "FREE")%string then 1%nat else 2%nat
  | DbCursor _ => 0%nat
  | CurFetchAll _ => months_catalog
  | CurFetchOne _ => [CInt 2]
  | ReadSql _ _ => months_frame
  | ReadCsv _ => mkDF [] [] []
  | Http _ _ _ _ _ => mkResponse 200 (Some JNull)
  | _ => tt
  end.

Definition copy_world : World := scripted (mkScript copy_answers never_fails).

(** A destination without tables, so that every DROP TABLE raises, and a
    source on which reading [countries] raises. *)
Definition flaky_failing (c : Call) (n : nat) : option exn :=
  match c with
  | CurExecute _ sql _ =>
      if prefix "DROP" sql
      then Some (mkExn DatabaseError "ORA-00942: table or view does not exist")
      else None
  | ReadSql sql _ =>
      if (sql =? "SELECT * FROM countries")%string
      then Some (mkExn DatabaseError "ORA-03113: end-of-file on communication channel")
      else None
  | _ => None
  end.

Definition flaky_world : World := scripted (mkScript copy_answers flaky_failing).

(** The catalog description of [months_frame] as typed records. *)
Definition months_columns : list CatalogColumn :=
  [ mkColumn "MONTH_NAME" "VARCHAR2" 20 None None "N";
    mkColumn "MONTH_NUMBER" "NUMBER" 22 (Some 2%positive) (Some 0%Z) "Y" ].

(** A server that answers every request with [204 No Content]: a success
    status and a body that is not JSON. *)
Definition no_content_answers (c : Call) : reply c :=
  match c return reply c with
  | DbConnect _ _ _ => 1%nat
  | DbCursor _ => 0%nat
  | CurFetchAll _ => []
  | CurFetchOne _ => []
  | ReadSql _ _ => mkDF [] [] []
  | ReadCsv _ => mkDF [] [] []
  | Http _ _ _ _ _ => mkResponse 204 None
  | _ => tt
  end.

Definition no_content_world : World :=
  scripted (mkScript no_content_answers never_fails).

Definition demo_client : RestClient.PGXRestClient :=
  RestClient.init "http://oracle-db:7007/" None None.

(** The analyzer that [main] builds from the default configuration. *)
Definition demo_analyzer : Analyzer.PestDataAnalyzer :=
  Analyzer.init "/app/data/pest_data.csv" "oracle-db" 1521 "GRAPHDB"
    "graphuser" "GraphPassword123" (Some "http://oracle-db:7007").

(** A database that refuses every connection. *)
Definition listener_down : exn :=
  mkExn DatabaseError "ORA-12541: TNS:no listener".

Definition down_failing (c : Call) (n : nat) : option exn :=
  match c with
  | DbConnect _ _ _ => Some listener_down
  | _ => None
  end.

Definition down_world : World := scripted (mkScript copy_answers down_failing).

(** A CSV file whose first data row repeats the header, read by pandas as
    text throughout, with one value that is no number and one that is
    missing. *)
Definition pest_csv : DataFrame :=
  mkDF [ "ENTY_ID"; "CTRY_CODE"; "MONTH"; "TARGET_PROXY";
         "ENTY_EXAMS_30D"; "ENTY_PESTS_30D"; "ENTY_EXAMS_90D";
         "ENTY_PESTS_90D"; "ENTY_EXAMS_1YR"; "ENTY_PESTS_1YR" ]
       (repeat Object 10)
       [ [ CStr "ENTY_ID"; CStr "CTRY_CODE"; CStr "MONTH"; CStr "TP";
           CStr "E30"; CStr "P30"; CStr "E90"; CStr "P90"; CStr "E1Y"; CStr "P1Y" ];
         [ CStr "E1"; CStr "MX"; CStr "JAN"; CStr "1";
           CStr "3"; CStr "n/a"; CStr "7"; CStr "1"; CStr "20"; CStr "2" ];
         [ CStr "E2"; CStr "CA"; CStr "FEB"; CStr "0";
           CStr "4"; CStr "0"; CNaN; CStr "0"; CStr "15"; CStr "0" ];
         [ CStr "E1"; CStr "MX"; CStr "FEB"; CStr "0";
           CStr "5"; CStr "0"; CStr "9"; CStr "0"; CStr "21"; CStr "2" ] ].

Definition pipeline_answers (c : Call) : reply c :=
  match c return reply c with
  | DbConnect _ _ _ => 1%nat
  | DbCursor _ => 0%nat
  | CurFetchAll _ => []
  | CurFetchOne _ => [CInt 2]
  | ReadSql _ _ => mkDF [] [] []
  | ReadCsv _ => pest_csv
  | Http _ _ _ _ _ => mkResponse 200 (Some (JObj [("version", JStr "23.4")]))
  | _ => tt
  end.

(** A world in which every call of the pipeline succeeds. *)
Definition pipeline_world : World :=
  scripted (mkScript pipeline_answers never_fails).

(** A database in which the table [months] cannot be cleared. *)
Definition locked_failing (c : Call) (n : nat) : option exn :=
  match c with
  | CurExecute _ sql _ =>
      if (sql =? "DELETE FROM months")%string
      then Some (mkExn DatabaseError "ORA-00054: resource busy")
      else None
  | _ => None
  end.

Definition locked_world : World :=
  scripted (mkScript pipeline_answers locked_failing).

(** ** More concrete environments *)

Definition demo_pandas : Pandas :=
  {| to_string := fun df => join " " (columns df) |}.

(** The degree frame as the Oracle driver labels it: in upper case. *)
Definition degree_frame : DataFrame :=
  mkDF ["ENTITY_ID"; "TOTAL_DEGREE"] [Object; Int64] [ [CStr "E1"; CInt 4] ].

Definition oracle_answers (c : Call) : reply c :=
  match c return reply c with
  | DbConnect _ _ _ => 1%nat
  | DbCursor _ => 0%nat
  | CurFetchAll _ => []
  | CurFetchOne _ => [CInt 2]
  | ReadSql _ _ => degree_frame
  | ReadCsv _ => pest_csv
  | Http _ _ _ _ _ => mkResponse 200 (Some JNull)
  | _ => tt
  end.

Definition oracle_world : World := scripted (mkScript oracle_answers never_fails).

(** A frame as [load_data] leaves it, with text for the entity, the country
    and the month and integers in the numeric columns, and an analyzer that
    holds it together with a connection and a cursor. *)
Definition clean_frame : DataFrame :=
  mkDF [ "ENTY_ID"; "CTRY_CODE"; "MONTH"; "TARGET_PROXY";
         "ENTY_EXAMS_30D"; "ENTY_PESTS_30D"; "ENTY_EXAMS_90D";
         "ENTY_PESTS_90D"; "ENTY_EXAMS_1YR"; "ENTY_PESTS_1YR" ]
       ([Object; Object; Object] ++ repeat Int64 7)
       [ [ CStr "E1"; CStr "MX"; CStr "JAN"; CInt 1;
           CInt 3; CInt 0; CInt 7; CInt 1; CInt 20; CInt 2 ];
         [ CStr "E2"; CStr "CA"; CStr "FEB"; CInt 0;
           CInt 4; CInt 0; CInt 0; CInt 0; CInt 15; CInt 0 ];
         [ CStr "E1"; CStr "MX"; CStr "FEB"; CInt 0;
           CInt 5; CInt 0; CInt 9; CInt 0; CInt 21; CInt 2 ];
         [ CStr "E2"; CStr "CA"; CStr "FEB"; CInt 1;
           CInt 6; CInt 1; CInt 9; CInt 1; CInt 22; CInt 3 ] ].

Definition loaded_analyzer : Analyzer.PestDataAnalyzer :=
  Analyzer.set_df (Some clean_frame)
    (Analyzer.set_cursor (Some (mkCur 1%nat 0%nat))
       (Analyzer.set_connection (Some 1%nat) demo_analyzer)).

(** An analyzer that holds a connection and a cursor, as [connect] leaves
    it. *)
Definition connected_analyzer : Analyzer.PestDataAnalyzer :=
  Analyzer.set_cursor (Some (mkCur 1%nat 0%nat))
    (Analyzer.set_connection (Some 1%nat) demo_analyzer).

(** A frame without text: numeric entity ids, country codes and months, and
    a temperature that makes the rows of the frame floats. *)
Definition numeric_frame : DataFrame :=
  mkDF [ "ENTY_ID"; "CTRY_CODE"; "MONTH"; "TARGET_PROXY";
         "ENTY_EXAMS_30D"; "ENTY_PESTS_30D"; "ENTY_EXAMS_90D";
         "ENTY_PESTS_90D"; "ENTY_EXAMS_1YR"; "ENTY_PESTS_1YR"; "TEMP" ]
       (repeat Int64 10 ++ [Float64])
       [ [ CInt 101; CInt 840; CInt 1; CInt 1;
           CInt 3; CInt 0; CInt 7; CInt 1; CInt 20; CInt 2; CFloat (43 # 2) ];
         [ CInt 102; CInt 124; CInt 2; CInt 0;
           CInt 4; CInt 0; CInt 0; CInt 0; CInt 15; CInt 0; CFloat (18 # 1) ];
         [ CInt 101; CInt 840; CInt 1; CInt 0;
           CInt 5; CInt 0; CInt 9; CInt 0; CInt 21; CInt 2; CFloat (39 # 2) ] ].

Definition numeric_analyzer : Analyzer.PestDataAnalyzer :=
  Analyzer.set_df (Some numeric_frame) connected_analyzer.

(** * Properties *)

(** ** Running computations symbolically *)

Ltac unfold_monad :=
  cbv beta iota delta
    [bind call ret raise lift emit print log try_except try_finally get modify].

Ltac simpl_res :=
  cbn [outcome final world trace fst snd raised_of app].

(** Ask the environment for its answer to the next pending call. *)
Ltac ask_env :=
  match goal with
  | |- context [env ?c ?w] =>
      let E := fresh "E" in
      destruct (env c w) as [[?e | ?a] ?w] eqn:E
  end.


(** The events of [m ;; f], from those of [m] and those of [f]. *)
Lemma Forall_bind_trace `{World} {S A B} (P : Event -> Prop)
    (m : M S A) (f : A -> M S B) (s : S) (w : W) :
  Forall P (trace (m s w)) ->
  (forall a, outcome (m s w) = inr a ->
             Forall P (trace (f a (final (m s w)) (world (m s w))))) ->
  Forall P (trace (bind m f s w)).
Proof.
  unfold bind. destruct (m s w) as [[e | a] s1 w1 t1]; cbn; intros H1 H2;
    [exact H1|].
  specialize (H2 a eq_refl).
  destruct (f a s1 w1) as [o s2 w2 t2]; cbn in *.
  apply Forall_app. now split.
Qed.

(** A sequence that returns: both parts returned, one after the other. *)
Lemma bind_inr `{World} {S A B} (m : M S A) (f : A -> M S B) (s : S) (w : W)
    (b : B) :
  outcome (bind m f s w) = inr b ->
  exists a,
    outcome (m s w) = inr a /\
    outcome (f a (final (m s w)) (world (m s w))) = inr b /\
    trace (bind m f s w)
    = (trace (m s w) ++ trace (f a (final (m s w)) (world (m s w))))%list.
Proof.
  unfold bind. destruct (m s w) as [[e | a] s1 w1 t1]; cbn; [discriminate|].
  destruct (f a s1 w1) as [o s2 w2 t2] eqn:Ef; cbn. intros ->.
  exists a. rewrite Ef. cbn. repeat split.
Qed.

(** The events of a sequence: those of its first part, then, if that
    returned, those of its second part. *)
Lemma bind_trace `{World} {S A B} (m : M S A) (f : A -> M S B) (s : S) (w : W) :
  trace (bind m f s w)
  = (trace (m s w)
       ++ match outcome (m s w) with
          | inl _ => []
          | inr a => trace (f a (final (m s w)) (world (m s w)))
          end)%list.
Proof.
  unfold bind. destruct (m s w) as [[e | a] s1 w1 t1]; cbn.
  - now rewrite app_nil_r.
  - destruct (f a s1 w1) as [o s2 w2 t2]; reflexivity.
Qed.

(** ** Rules for [respects] *)

Section Respects.

Context `{World} {S : Type} (I : S -> Prop) (P : Event -> Prop).

Lemma respects_ret {A} (a : A) : respects I P (ret a).
Proof. intros s w Hs. split; [exact Hs | constructor]. Qed.

Lemma respects_raise {A} (e : exn) : respects I P (raise (A := A) e).
Proof. intros s w Hs. split; [exact Hs | constructor]. Qed.

Lemma respects_lift {A} (o : exn + A) : respects I P (lift o).
Proof. destruct o; [apply respects_raise | apply respects_ret]. Qed.

Lemma respects_get : respects I P get.
Proof. intros s w Hs. split; [exact Hs | constructor]. Qed.

Lemma respects_modify (f : S -> S) :
  (forall s, I s -> I (f s)) -> respects I P (modify f).
Proof. intros Hf s w Hs. split; [now apply Hf | constructor]. Qed.

Lemma respects_emit (e : Event) : P e -> respects I P (emit e).
Proof. intros He s w Hs. split; [exact Hs | repeat constructor; exact He]. Qed.

Lemma respects_log (lvl : Level) (msg : string) :
  P (Logged lvl msg) -> respects I P (log lvl msg).
Proof. apply respects_emit. Qed.

Lemma respects_print (text : string) :
  P (Printed text) -> respects I P (print text).
Proof. apply respects_emit. Qed.

Lemma respects_call (c : Call) :
  (forall o, P (Called c o)) -> respects I P (call c).
Proof.
  intros Hc s w Hs. unfold call. destruct (env c w) as [o w'].
  split; [exact Hs | repeat constructor; apply Hc].
Qed.

Lemma respects_bind {A B} (m : M S A) (f : A -> M S B) :
  respects I P m -> (forall a, respects I P (f a)) -> respects I P (bind m f).
Proof.
  intros Hm Hf s w Hs. unfold bind.
  destruct (Hm s w Hs) as [H1 H2].
  destruct (m s w) as [[e | a] s1 w1 t1]; cbn in *; [now split|].
  destruct (Hf a s1 w1 H1) as [H3 H4].
  destruct (f a s1 w1) as [o s2 w2 t2]; cbn in *.
  split; [exact H3 | apply Forall_app; now split].
Qed.

Lemma respects_bind_lift {A B} (o : exn + A) (f : A -> M S B) :
  (forall a, o = inr a -> respects I P (f a)) -> respects I P (bind (lift o) f).
Proof.
  intros Hf. destruct o as [e | a].
  - intros s w Hs. cbn. split; [exact Hs | constructor].
  - intros s w Hs. unfold bind, lift, ret.
    destruct (Hf a eq_refl s w Hs) as [H1 H2].
    destruct (f a s w) as [o s2 w2 t2]; cbn in *. now split.
Qed.

Lemma respects_bind_get {B} (f : S -> M S B) :
  (forall s0, I s0 -> respects I P (f s0)) -> respects I P (bind get f).
Proof.
  intros Hf s w Hs. unfold bind, get.
  destruct (Hf s Hs s w Hs) as [H1 H2].
  destruct (f s s w) as [o s2 w2 t2]; cbn in *. now split.
Qed.

Lemma respects_try_except {A} (m : M S A) (h : exn -> option (M S A)) :
  respects I P m ->
  (forall e k, h e = Some k -> respects I P k) ->
  respects I P (try_except m h).
Proof.
  intros Hm Hh s w Hs. unfold try_except.
  destruct (Hm s w Hs) as [H1 H2].
  destruct (m s w) as [[e | a] s1 w1 t1]; cbn in *; [|now split].
  destruct (h e) as [k|] eqn:Ek; [|now split].
  destruct (Hh e k Ek s1 w1 H1) as [H3 H4].
  destruct (k s1 w1) as [o s2 w2 t2]; cbn in *.
  split; [exact H3 | apply Forall_app; now split].
Qed.

Lemma respects_try_finally {A} (m : M S A) (fin : M S unit) :
  respects I P m -> respects I P fin -> respects I P (try_finally m fin).
Proof.
  intros Hm Hf s w Hs. unfold try_finally.
  destruct (Hm s w Hs) as [H1 H2].
  destruct (m s w) as [o s1 w1 t1]; cbn in *.
  destruct (Hf s1 w1 H1) as [H3 H4].
  destruct (fin s1 w1) as [[e | []] s2 w2 t2]; cbn in *;
    (split; [exact H3 | apply Forall_app; now split]).
Qed.

Lemma respects_for_each {X} (xs : list X) (body : X -> M S unit) :
  (forall x, respects I P (body x)) -> respects I P (for_each xs body).
Proof.
  intros Hb. induction xs as [|x xs IH]; cbn [for_each].
  - apply respects_ret.
  - apply respects_bind; [apply Hb | intros _; exact IH].
Qed.

Lemma respects_for_each_in {X} (xs : list X) (body : X -> M S unit) :
  (forall x, In x xs -> respects I P (body x)) ->
  respects I P (for_each xs body).
Proof.
  induction xs as [|x xs IH]; intros Hb; cbn [for_each].
  - apply respects_ret.
  - apply respects_bind; [apply Hb; now left|].
    intros _. apply IH. intros y Hy. apply Hb. now right.
Qed.

End Respects.

Lemma respects_weaken `{World} {S A} (I : S -> Prop) (P Q : Event -> Prop)
    (m : M S A) :
  (forall e, P e -> Q e) -> respects I P m -> respects I Q m.
Proof.
  intros HPQ Hm s w Hs. destruct (Hm s w Hs) as [H1 H2].
  split; [exact H1 | eapply Forall_impl; eauto].
Qed.

(** Break a computation down along its syntax, leaving the conditions on
    single events and on single state updates. *)
Ltac respects_step :=
  lazymatch goal with
  | |- respects _ _ (bind (lift _) _) => apply respects_bind_lift; intros ? ?
  | |- respects _ _ (bind get _) => apply respects_bind_get; intros ? ?
  | |- respects _ _ (bind _ _) => apply respects_bind; [|intros ?]
  | |- respects _ _ (ret _) => apply respects_ret
  | |- respects _ _ (raise _) => apply respects_raise
  | |- respects _ _ (lift _) => apply respects_lift
  | |- respects _ _ get => apply respects_get
  | |- respects _ _ (modify _) => apply respects_modify
  | |- respects _ _ (log _ _) => apply respects_log
  | |- respects _ _ (print _) => apply respects_print
  | |- respects _ _ (emit _) => apply respects_emit
  | |- respects ?I ?P (call ?c) => apply (respects_call I P c); intros ?
  | |- respects _ _ (for_each _ _) => apply respects_for_each_in; intros ? ?
  | |- respects _ _ (try_finally _ _) => apply respects_try_finally
  | |- respects _ _ (try_except _ _) =>
      apply respects_try_except;
      [| let e := fresh "e" in let k := fresh "k" in let E := fresh "E" in
         intros e k E; cbv beta in E;
         repeat match type of E with
                | context [if ?b then _ else _] => destruct b eqn:?
                end;
         first [ injection E as <- | discriminate E | idtac ] ]
  | |- respects _ _ (let _ := _ in _) => cbv zeta
  | |- respects _ _ (match ?x with _ => _ end) => destruct x eqn:?
  | |- respects _ _ (let '(_, _) := ?x in _) => destruct x eqn:?
  | |- respects _ _ _ => progress (cbv beta)
  end.

Ltac respects_all := repeat respects_step.

(** ** Rows of a frame in one type *)

Lemma values_length (df : DataFrame) : List.length (values df) = len df.
Proof.
  unfold values, len. destruct (common_dtype (dtypes df));
    rewrite ?length_map; reflexivity.
Qed.

Lemma values_rows (df : DataFrame) :
  upcasts (dtypes df) = false -> values df = rows df.
Proof.
  unfold upcasts, values. destruct (common_dtype (dtypes df));
    [reflexivity | reflexivity | discriminate | reflexivity].
Qed.

Lemma values_float (df : DataFrame) :
  upcasts (dtypes df) = true -> values df = map (map as_float64) (rows df).
Proof.
  unfold upcasts, values. destruct (common_dtype (dtypes df));
    [discriminate | discriminate | reflexivity | discriminate].
Qed.

(** A row that a loop reads is a row of the frame, as it stands or with its
    integers as floats. *)
Lemma In_values (df : DataFrame) (r : list Cell) :
  In r (values df) ->
  exists r0, In r0 (rows df) /\ (r = r0 \/ r = map as_float64 r0).
Proof.
  unfold values. destruct (common_dtype (dtypes df)); intros Hin;
    try (exists r; split; [exact Hin | now left]).
  apply in_map_iff in Hin as (r0 & <- & Hr0). exists r0. split; [exact Hr0|].
  now right.
Qed.

Lemma nth_as_float64 (j : nat) (r : list Cell) :
  nth j (map as_float64 r) CNaN = as_float64 (nth j r CNaN).
Proof. exact (map_nth as_float64 r CNaN j). Qed.

Lemma round_float64_small (z : Z) :
  (Z.abs z <= 2 ^ 53)%Z -> round_float64 z = z.
Proof.
  intros Hz. unfold round_float64.
  destruct (Z.leb_spec (Z.abs z) (2 ^ 53)) as [_ | Hgt]; [reflexivity | lia].
Qed.

Lemma trunc_inject_Z (z : Z) : trunc (inject_Z z) = z.
Proof. unfold trunc, inject_Z. cbn. apply Z.quot_1_r. Qed.

Lemma Qeq_bool_inject (a b : Z) :
  Qeq_bool (inject_Z a) (inject_Z b) = (a =? b)%Z.
Proof.
  unfold Qeq_bool, inject_Z. cbn [Qnum Qden]. rewrite !Z.mul_1_r. reflexivity.
Qed.

(** ** C1: rows read and rows inserted by [copy_table] *)

Section CopyTableRows.

Context `{World} `{Runtime}.

Lemma is_insert_insert_sql t df :
  is_insert_sql (CopyScript.insert_sql t df) = true.
Proof. reflexivity. Qed.

Lemma catalog_not_insert t : is_insert_sql (CopyScript.catalog_sql t) = false.
Proof. reflexivity. Qed.

Lemma drop_not_insert t : is_insert_sql ("DROP TABLE " ++ t) = false.
Proof. reflexivity. Qed.

Lemma create_not_insert t cols sql :
  CopyScript.build_create_sql t cols = inr sql -> is_insert_sql sql = false.
Proof.
  unfold CopyScript.build_create_sql.
  destruct (CopyScript.col_defs_loop cols []); [discriminate|].
  intros E. injection E as <-. reflexivity.
Qed.

(** C1: when [copy_table] returns, the frame read from the source and the
    batch handed to [executemany] on the destination have the same rows, and
    a frame without rows leads to no INSERT at all. *)
Theorem copy_table_row_count (src dst : Conn) (t : string) (w : W) :
  outcome (CopyScript.copy_table src dst t tt w) = inr tt ->
  exists df w1,
    env (ReadSql ("SELECT * FROM " ++ t) src) w = (inr df, w1) /\
    let tr := trace (CopyScript.copy_table src dst t tt w) in
    ((len df = 0)%nat /\ filter inserts tr = []) \/
    (exists cur,
        (0 < len df)%nat /\ cur_conn cur = dst /\
        List.length (values df) = len df /\
        filter inserts tr
        = [Called (CurExecuteMany cur (CopyScript.insert_sql t df) (values df)) None]).
Proof.
  unfold CopyScript.copy_table. unfold_monad.
  ask_env; simpl_res; [discriminate|].
  intros Hok. exists a, w0. split; [reflexivity|]. revert Hok.
  repeat (first
    [ ask_env
    | match goal with
      | |- context [CopyScript.build_create_sql ?x ?c] =>
          destruct (CopyScript.build_create_sql x c) eqn:?
      | |- context [(0 <? ?n)%nat] => destruct (Nat.ltb_spec 0 n)
      end ];
    simpl_res; try discriminate).
  all: intros _; unfold inserts; cbn [filter sql_of];
    rewrite ?catalog_not_insert, ?drop_not_insert, ?is_insert_insert_sql;
    match goal with
    | E : CopyScript.build_create_sql _ _ = inr _ |- _ =>
        rewrite (create_not_insert _ _ _ E)
    end.
  all: first
    [ left; split; [lia | reflexivity]
    | right; eexists; repeat split;
        first [assumption | apply values_length | reflexivity] ].
Qed.

End CopyTableRows.

Lemma copy_table_row_count_witness :
  exists df w1,
    @env copy_world (ReadSql ("SELECT * FROM " ++ "months") 1%nat) 0%nat
      = (inr df, w1) /\
    let tr := trace (CopyScript.copy_table (H := copy_world) (H0 := demo_runtime)
                       1%nat 2%nat "months" tt 0%nat) in
    ((len df = 0)%nat /\ filter inserts tr = []) \/
    (exists cur,
        (0 < len df)%nat /\ cur_conn cur = 2%nat /\
        List.length (values df) = len df /\
        filter inserts tr
        = [Called (CurExecuteMany cur (CopyScript.insert_sql "months" df) (values df)) None]).
Proof.
  apply (copy_table_row_count (H := copy_world) (H0 := demo_runtime)
           1%nat 2%nat "months" 0%nat).
  vm_compute. reflexivity.
Defined.

(** ** C5: the copy loop logs a failure and goes on *)

Section CopyLoop.

Context `{World} `{Runtime}.

(** Each run of [copy_table], whatever its end, reads its table once. *)
Lemma copy_table_reads_once (src dst : Conn) (t : string) (w : W) :
  read_attempts (trace (CopyScript.copy_table src dst t tt w))
  = ["SELECT * FROM " ++ t].
Proof.
  unfold CopyScript.copy_table. unfold_monad.
  repeat (first
    [ ask_env
    | match goal with
      | |- context [CopyScript.build_create_sql ?x ?c] =>
          destruct (CopyScript.build_create_sql x c) eqn:?
      | |- context [(0 <? ?n)%nat] => destruct (Nat.ltb_spec 0 n)
      end ];
    simpl_res; try reflexivity).
Qed.

(** One turn of the loop: the copy, the error line if it raised, the rest. *)
Lemma copy_loop_cons (src dst : Conn) (t : string) (rest : list string) (w : W) :
  let r := CopyScript.copy_table src dst t tt w in
  let r' := CopyScript.copy_loop src dst rest tt (world r) in
  CopyScript.copy_loop src dst (t :: rest) tt w
  = mkRes (outcome r') (final r') (world r')
      (trace r
         ++ match outcome r with
            | inl e => [Printed ("  [ERROR] Error copying " ++ t ++ ": "
                                   ++ exn_msg e ++ CopyScript.nl)]
            | inr _ => []
            end
         ++ trace r')%list.
Proof.
  cbv zeta. unfold CopyScript.copy_loop. cbn [for_each].
  unfold bind at 1. unfold try_except at 1.
  destruct (CopyScript.copy_table src dst t tt w) as [[e | []] [] w1 t1];
    simpl_res.
  - unfold print, emit.
    destruct (for_each rest _ tt w1) as [o2 s2 w2 t2]; simpl_res.
    rewrite <- app_assoc. reflexivity.
  - destruct (for_each rest _ tt w1) as [o2 s2 w2 t2]; simpl_res.
    reflexivity.
Qed.

Lemma read_attempts_app (a b : list Event) :
  read_attempts (a ++ b) = (read_attempts a ++ read_attempts b)%list.
Proof. apply flat_map_app. Qed.

(** C5: the loop over the tables never raises, it attempts every table in
    order whatever happened to the tables before, the exception of a failed
    copy is printed before the next table is tried, and a DROP TABLE that
    raises leaves no mark: [copy_table] goes on with the catalog query. *)
Theorem copy_loop_log_and_continue (src dst : Conn) (ts : list string) (w : W) :
  outcome (CopyScript.copy_loop src dst ts tt w) = inr tt /\
  read_attempts (trace (CopyScript.copy_loop src dst ts tt w))
    = map (fun t => "SELECT * FROM " ++ t) ts /\
  (forall t rest, ts = t :: rest ->
     let r := CopyScript.copy_table src dst t tt w in
     trace (CopyScript.copy_loop src dst ts tt w)
     = (trace r
          ++ match outcome r with
             | inl e => [Printed ("  [ERROR] Error copying " ++ t ++ ": "
                                    ++ exn_msg e ++ CopyScript.nl)]
             | inr _ => []
             end
          ++ trace (CopyScript.copy_loop src dst rest tt (world r)))%list) /\
  (forall t df w1 cur w2 e w3,
     env (ReadSql ("SELECT * FROM " ++ t) src) w = (inr df, w1) ->
     env (DbCursor dst) w1 = (inr cur, w2) ->
     env (CurExecute (mkCur dst cur) ("DROP TABLE " ++ t) []) w2 = (inl e, w3) ->
     exists o post,
       trace (CopyScript.copy_table src dst t tt w)
       = ([ Printed ("Copying " ++ t ++ "...");
            Called (ReadSql ("SELECT * FROM " ++ t) src) None;
            Printed ("  - Read " ++ str_nat (len df) ++ " rows from FREE");
            Called (DbCursor dst) None;
            Called (CurExecute (mkCur dst cur) ("DROP TABLE " ++ t) []) (Some e);
            Called (DbCursor src) o ] ++ post)%list).
Proof.
  split; [|split; [|split]].
  - revert w. induction ts as [|t rest IH]; intros w; [reflexivity|].
    rewrite copy_loop_cons. simpl_res. apply IH.
  - revert w. induction ts as [|t rest IH]; intros w; [reflexivity|].
    rewrite copy_loop_cons. simpl_res.
    rewrite !read_attempts_app, copy_table_reads_once, IH.
    destruct (outcome (CopyScript.copy_table src dst t tt w)); reflexivity.
  - intros t rest -> r. rewrite copy_loop_cons. reflexivity.
  - intros t df w1 cur w2 e w3 E1 E2 E3.
    unfold CopyScript.copy_table. unfold_monad.
    rewrite E1; simpl_res. rewrite E2; simpl_res. rewrite E3; simpl_res.
    ask_env; simpl_res.
    + eexists _, _. reflexivity.
    + repeat (first
        [ ask_env
        | match goal with
          | |- context [CopyScript.build_create_sql ?x ?c] =>
              destruct (CopyScript.build_create_sql x c) eqn:?
          | |- context [(0 <? ?n)%nat] => destruct (Nat.ltb_spec 0 n)
          end ];
        simpl_res; try (eexists _, _; reflexivity)).
Qed.

End CopyLoop.

Lemma copy_loop_log_and_continue_witness :
  let copy_loop := CopyScript.copy_loop (H := flaky_world) (H0 := demo_runtime) in
  let copy_table := CopyScript.copy_table (H := flaky_world) (H0 := demo_runtime) in
  outcome (copy_loop 1%nat 2%nat ["months"; "countries"; "entities"] tt 0%nat)
    = inr tt /\
  read_attempts (trace (copy_loop 1%nat 2%nat ["months"; "countries"; "entities"] tt 0%nat))
    = ["SELECT * FROM months"; "SELECT * FROM countries"; "SELECT * FROM entities"] /\
  (let r := copy_table 1%nat 2%nat "months" tt 0%nat in
   trace (copy_loop 1%nat 2%nat ["months"; "countries"; "entities"] tt 0%nat)
   = (trace r
        ++ match outcome r with
           | inl e => [Printed ("  [ERROR] Error copying " ++ "months" ++ ": "
                                  ++ exn_msg e ++ CopyScript.nl)]
           | inr _ => []
           end
        ++ trace (copy_loop 1%nat 2%nat ["countries"; "entities"] tt (world r)))%list) /\
  (exists o post,
     trace (copy_table 1%nat 2%nat "months" tt 0%nat)
     = ([ Printed ("Copying " ++ "months" ++ "...");
          Called (ReadSql ("SELECT * FROM " ++ "months") 1%nat) None;
          Printed ("  - Read " ++ str_nat (len months_frame) ++ " rows from FREE");
          Called (DbCursor 2%nat) None;
          Called (CurExecute (mkCur 2%nat 0%nat) ("DROP TABLE " ++ "months") [])
                 (Some (mkExn DatabaseError "ORA-00942: table or view does not exist"));
          Called (DbCursor 1%nat) o ] ++ post)%list).
Proof.
  cbv zeta.
  destruct (copy_loop_log_and_continue (H := flaky_world) (H0 := demo_runtime)
              1%nat 2%nat ["months"; "countries"; "entities"] 0%nat)
    as (H1 & H2 & H3 & H4).
  split; [exact H1|]. split; [exact H2|]. split.
  - exact (H3 "months" ["countries"; "entities"] eq_refl).
  - exact (H4 "months" months_frame 1%nat 0%nat 2%nat
              (mkExn DatabaseError "ORA-00942: table or view does not exist")
              3%nat eq_refl eq_refl eq_refl).
Defined.

(** ** C8: the CREATE TABLE statement follows the catalog *)

Lemma string_length_append (a b : string) :
  String.length (a ++ b) = (String.length a + String.length b)%nat.
Proof. induction a as [|c a IH]; cbn; [reflexivity | now rewrite IH]. Qed.

Lemma string_append_assoc (a b c : string) : (a ++ b) ++ c = a ++ (b ++ c).
Proof. induction a as [|x a IH]; cbn; [reflexivity | now rewrite IH]. Qed.

Lemma string_append_nil_r (a : string) : a ++ "" = a.
Proof. induction a as [|x a IH]; cbn; [reflexivity | now rewrite IH]. Qed.

Section CreateTable.

Context `{World} `{Runtime}.

(** The loop body on a catalog row is the column definition of the spec. *)
Lemma col_def_of_catalog_row (c : CatalogColumn) :
  CopyScript.col_def_of (catalog_row c) = inr (column_ddl c).
Proof.
  unfold CopyScript.col_def_of, catalog_row, column_ddl, type_text, eq_str.
  destruct (data_type c =? "VARCHAR2")%string.
  - cbn [str_cell]. destruct (nullable c =? "N")%string;
      rewrite ?string_append_nil_r; reflexivity.
  - destruct (data_type c =? "NUMBER")%string.
    + destruct (data_precision c) as [p|]; cbn [truthy str_cell negb Z.eqb];
        destruct (nullable c =? "N")%string;
        rewrite ?string_append_nil_r; reflexivity.
    + cbn [str_cell]. destruct (nullable c =? "N")%string;
        rewrite ?string_append_nil_r; reflexivity.
Qed.

Lemma col_defs_loop_catalog (cs : list CatalogColumn) (acc : list string) :
  CopyScript.col_defs_loop (map catalog_row cs) acc
  = inr (acc ++ map column_ddl cs)%list.
Proof.
  revert acc. induction cs as [|c cs IH]; intros acc; cbn [map CopyScript.col_defs_loop].
  - now rewrite app_nil_r.
  - rewrite col_def_of_catalog_row, IH, <- app_assoc. reflexivity.
Qed.

Lemma build_create_sql_catalog (t : string) (cs : list CatalogColumn) :
  CopyScript.build_create_sql t (map catalog_row cs) = inr (create_table_text t cs).
Proof.
  unfold CopyScript.build_create_sql. rewrite col_defs_loop_catalog. reflexivity.
Qed.

Lemma not_null_exactly (c : CatalogColumn) :
  column_ddl c = (column_name c ++ " " ++ type_text c) ++ " NOT NULL"
  <-> nullable c = "N".
Proof.
  unfold column_ddl. destruct (String.eqb_spec (nullable c) "N") as [E|E].
  - tauto.
  - split; [|contradiction]. intros Heq.
    apply (f_equal String.length) in Heq.
    rewrite !string_length_append in Heq. cbn in Heq. lia.
Qed.

Lemma create_is_create (t : string) (rows : list (list Cell)) (sql : string) :
  CopyScript.build_create_sql t rows = inr sql -> is_create_sql sql = true.
Proof.
  unfold CopyScript.build_create_sql.
  destruct (CopyScript.col_defs_loop rows []); [discriminate|].
  intros E. injection E as <-. reflexivity.
Qed.

Ltac run_copy_table :=
  repeat (first
    [ ask_env
    | match goal with
      | |- context [CopyScript.build_create_sql ?x ?c] =>
          destruct (CopyScript.build_create_sql x c) eqn:?
      | |- context [(0 <? ?n)%nat] => destruct (Nat.ltb_spec 0 n)
      end ];
    simpl_res).

(** The four calls that end in the CREATE TABLE, found in a trace that is
    given event by event. *)
Ltac find_create k :=
  lazymatch goal with
  | |- exists pre post : list Event, _ =>
      match goal with
      | |- context [?l = (_ ++ _)%list] =>
          let p := eval cbn [firstn] in (firstn k l) in
          let q := eval cbn [skipn Nat.add] in (skipn (k + 4) l) in
          exists p, q; do 5 eexists;
          split; [reflexivity|];
          repeat match goal with
                 | E : env (CurExecute _ _ _) _ = (inr ?u, _) |- _ =>
                     is_var u; destruct u
                 end;
          repeat (split; [first [reflexivity | eassumption]|]);
          intros ->;
          match goal with
          | E : CopyScript.build_create_sql _ (map catalog_row _) = inr _ |- _ =>
              rewrite build_create_sql_catalog in E; now injection E as <-
          end
      end
  end.

(** C8, amended: the catalog query asks [user_tab_columns] for the name,
    type, length, precision and nullable flag of the columns of the table,
    in [column_id] order.  From the rows that this query returned on the
    source, and from nothing else, [copy_table] builds the CREATE TABLE
    statement that it executes on the destination: for catalog rows [cs],
    one column definition per row in the order of the rows, made of the
    reported name, the reported type name with the length of a VARCHAR2 and
    the precision of a NUMBER that has one, and NOT NULL exactly for the
    flag ['N']. *)
Theorem create_table_matches_catalog (t : string) (cs : list CatalogColumn) :
  CopyScript.catalog_sql t
  = "
        SELECT column_name, data_type, data_length, data_precision, nullable
        FROM user_tab_columns
        WHERE table_name = UPPER('" ++ t ++ "')
        ORDER BY column_id
    " /\
  CopyScript.build_create_sql t (map catalog_row cs)
    = inr ("CREATE TABLE " ++ t ++ " (" ++ join ", " (map column_ddl cs) ++ ")") /\
  List.length (map column_ddl cs) = List.length cs /\
  (forall i c, nth_error cs i = Some c ->
     nth_error (map column_ddl cs) i = Some (column_ddl c) /\
     (column_ddl c = (column_name c ++ " " ++ type_text c) ++ " NOT NULL"
        <-> nullable c = "N") /\
     (column_ddl c = column_name c ++ " " ++ type_text c
        <-> nullable c <> "N") /\
     (data_type c = "VARCHAR2" ->
        type_text c = "VARCHAR2(" ++ str_Z (data_length c) ++ ")") /\
     (forall p, data_type c = "NUMBER" -> data_precision c = Some p ->
        type_text c = "NUMBER(" ++ str_Z (Zpos p) ++ ")") /\
     (data_type c = "NUMBER" -> data_precision c = None ->
        type_text c = "NUMBER") /\
     (data_type c <> "VARCHAR2" -> data_type c <> "NUMBER" ->
        type_text c = data_type c)) /\
  (forall src dst w,
     (forall cur sql binds o,
        In (Called (CurExecute cur sql binds) o)
           (trace (CopyScript.copy_table src dst t tt w)) ->
        is_create_sql sql = true ->
        exists (pre post : list Event) scur rows wq w0 w1,
          trace (CopyScript.copy_table src dst t tt w)
          = (pre
               ++ [ Called (CurExecute scur (CopyScript.catalog_sql t) []) None;
                    Called (CurFetchAll scur) None;
                    Called (DbCursor dst) None;
                    Called (CurExecute cur sql binds) o ]
               ++ post)%list /\
          cur_conn scur = src /\
          cur_conn cur = dst /\
          binds = [] /\
          env (CurExecute scur (CopyScript.catalog_sql t) []) wq = (inr tt, w0) /\
          env (CurFetchAll scur) w0 = (inr rows, w1) /\
          CopyScript.build_create_sql t rows = inr sql /\
          (rows = map catalog_row cs -> sql = create_table_text t cs)) /\
     (outcome (CopyScript.copy_table src dst t tt w) = inr tt ->
      exists cur sql,
        is_create_sql sql = true /\
        In (Called (CurExecute cur sql []) None)
           (trace (CopyScript.copy_table src dst t tt w)))).
Proof.
  split; [reflexivity|].
  split; [apply build_create_sql_catalog|].
  split; [apply length_map|].
  split.
  - intros i c Hc. split; [now apply map_nth_error|].
    split; [apply not_null_exactly|].
    split.
    { unfold column_ddl. destruct (String.eqb_spec (nullable c) "N") as [E|E].
      - split; [|contradiction]. intros Heq.
        apply (f_equal String.length) in Heq.
        rewrite !string_length_append in Heq. cbn in Heq. lia.
      - rewrite string_append_nil_r. tauto. }
    unfold type_text. repeat split.
    + intros ->. reflexivity.
    + intros p -> ->. reflexivity.
    + intros -> ->. reflexivity.
    + intros N1 N2.
      destruct (String.eqb_spec (data_type c) "VARCHAR2"); [contradiction|].
      destruct (String.eqb_spec (data_type c) "NUMBER"); [contradiction|].
      reflexivity.
  - intros src dst w. split.
    + intros cur sql binds o.
      unfold CopyScript.copy_table. unfold_monad. run_copy_table.
      all: cbn [In]; intros Hin Hcreate.
      all: repeat match goal with
             | Hin : _ \/ _ |- _ => destruct Hin as [Hin | Hin]
             | Hin : False |- _ => contradiction
             | Hin : Printed _ = Called _ _ |- _ => discriminate Hin
             | Hin : Called ?c _ = Called (CurExecute _ _ _) _ |- _ =>
                 first [ discriminate Hin
                       | injection Hin as <- <- <- <- ]
             end.
      all: try (cbv in Hcreate; discriminate Hcreate).
      all: first [ find_create 3%nat | find_create 4%nat | find_create 5%nat
                 | find_create 6%nat | find_create 7%nat | find_create 8%nat ].
    + unfold CopyScript.copy_table. unfold_monad. run_copy_table.
      all: try discriminate.
      all: intros _.
      all: match goal with
           | E : CopyScript.build_create_sql _ _ = inr ?sql |- _ =>
               exists (mkCur dst ltac:(assumption)), sql;
               split; [exact (create_is_create _ _ _ E)|]
           end.
      all: cbn [In]; repeat (first [left; reflexivity | right]).
Qed.

End CreateTable.

Lemma create_table_matches_catalog_witness :
  let c := mkColumn "MONTH_NAME" "VARCHAR2" 20 None None "N" in
  let run := trace (CopyScript.copy_table (H := copy_world) (H0 := demo_runtime)
                      1%nat 2%nat "months" tt 0%nat) in
  type_text c = "VARCHAR2(" ++ str_Z 20 ++ ")" /\
  column_ddl c = (column_name c ++ " " ++ type_text c) ++ " NOT NULL" /\
  exists (pre post : list Event) scur rows wq w0 w1,
    run
    = (pre
         ++ [ Called (CurExecute scur (CopyScript.catalog_sql "months") []) None;
              Called (CurFetchAll scur) None;
              Called (DbCursor 2%nat) None;
              Called (CurExecute (mkCur 2%nat 0%nat)
                        "CREATE TABLE months (MONTH_NAME VARCHAR2(20) NOT NULL, MONTH_NUMBER NUMBER(2))"
                        []) None ]
         ++ post)%list /\
    cur_conn scur = 1%nat /\
    cur_conn (mkCur 2%nat 0%nat) = 2%nat /\
    @nil Cell = [] /\
    @env copy_world (CurExecute scur (CopyScript.catalog_sql "months") []) wq
      = (inr tt, w0) /\
    @env copy_world (CurFetchAll scur) w0 = (inr rows, w1) /\
    CopyScript.build_create_sql (H0 := demo_runtime) "months" rows
      = inr "CREATE TABLE months (MONTH_NAME VARCHAR2(20) NOT NULL, MONTH_NUMBER NUMBER(2))" /\
    (rows = map catalog_row months_columns ->
     "CREATE TABLE months (MONTH_NAME VARCHAR2(20) NOT NULL, MONTH_NUMBER NUMBER(2))"
     = create_table_text "months" months_columns).
Proof.
  cbv zeta.
  destruct (create_table_matches_catalog (H := copy_world) (H0 := demo_runtime)
              "months" months_columns) as (_ & _ & _ & Hcol & Hrun).
  destruct (Hcol 0%nat (mkColumn "MONTH_NAME" "VARCHAR2" 20 None None "N") eq_refl)
    as (_ & Hnn & _ & Hvar & _).
  split; [exact (Hvar eq_refl)|].
  split; [exact (proj2 Hnn eq_refl)|].
  destruct (Hrun 1%nat 2%nat 0%nat) as (Hcreate & _).
  apply (Hcreate (mkCur 2%nat 0%nat) _ [] None).
  - vm_compute. repeat (first [left; reflexivity | right]).
  - reflexivity.
Defined.

(** The claim as worded fails: a NUMBER(10,2) and a CHAR(3) column get the
    statement of a NUMBER(10) and a CHAR column, so the scale of the one and
    the length of the other are not reproduced. *)
Lemma create_table_drops_scale_and_length :
  ~ reproduces_catalog (H := demo_runtime) "payments".
Proof.
  intros Hclaim.
  specialize (Hclaim
    [ mkColumn "AMOUNT" "NUMBER" 22 (Some 10%positive) (Some 2%Z) "Y";
      mkColumn "CODE" "CHAR" 3 None None "N" ]
    [ mkColumn "AMOUNT" "NUMBER" 22 (Some 10%positive) (Some 0%Z) "Y";
      mkColumn "CODE" "CHAR" 1 None None "N" ]
    "CREATE TABLE payments (AMOUNT NUMBER(10), CODE CHAR NOT NULL)"
    eq_refl eq_refl).
  discriminate Hclaim.
Qed.

(** ** C6: one request per method of the REST client *)

Section RestMethods.

Context `{World}.

(** C6, amended: every method issues exactly one request, to the verb and
    path of its endpoint below [base_url], and leaves the client as it was.
    If the request itself raises, the exception propagates.  If a response
    arrives, the method raises [HTTPError] for a status from 400 to 599;
    otherwise it returns the decoded body when the body decodes and raises
    the decoder's error when it does not. *)
Theorem rest_method_single_request
    (m : RestClient.Method) (client : RestClient.PGXRestClient) (w : W) :
  exists body headers,
    let c := Http (fst (RestClient.endpoint m))
                  (RestClient.base_url client ++ snd (RestClient.endpoint m))
                  body headers None in
    let r := RestClient.invoke m client w in
    trace r = [Called c (raised_of (fst (env c w)))] /\
    final r = client /\
    world r = snd (env c w) /\
    match fst (env c w) with
    | inl e => outcome r = inl e
    | inr resp =>
        if RestClient.is_error_status (status_code resp) then
          exists e, outcome r = inl e /\ exn_cls e = HTTPError
        else
          match json_body resp with
          | Some j => outcome r = inr j
          | None => exists e, outcome r = inl e /\ exn_cls e = JSONDecodeError
          end
    end.
Proof.
  destruct m; cbn [RestClient.invoke RestClient.endpoint fst snd];
    unfold RestClient.get_version, RestClient.load_graph_from_database,
      RestClient.run_pagerank, RestClient.run_betweenness_centrality,
      RestClient.run_community_detection, RestClient.run_deepwalk,
      RestClient.execute_pgql, RestClient.list_graphs,
      RestClient.get_graph_info, RestClient.delete_graph, RestClient.checked;
    unfold_monad; cbv zeta.
  all: match goal with
       | |- context [env (Http _ _ ?b ?h None) _] => exists b, h
       end.
  all: match goal with
       | |- context [env ?c ?w] => destruct (env c w) as [[e | resp] w1]
       end; simpl_res.
  all: try (repeat split; reflexivity).
  all: unfold RestClient.raise_for_status, RestClient.json;
    destruct (RestClient.is_error_status (status_code resp));
    [ | destruct (json_body resp) ];
    simpl_res; repeat split; eauto.
Qed.

End RestMethods.

(** The claim as worded fails: a success status whose body is not JSON makes
    the method raise. *)
Lemma rest_success_without_json :
  ~ returns_json_iff_success (H := no_content_world)
      (RestClient.DeleteGraph "pest_graph") demo_client 0%nat.
Proof.
  intros Hclaim.
  specialize (Hclaim DELETE "http://oracle-db:7007/graphs/pest_graph" None []
                None (mkResponse 204 None) 1%nat eq_refl eq_refl).
  destruct (proj2 Hclaim eq_refl) as [j Hj].
  vm_compute in Hj. discriminate Hj.
Qed.

(** ** C2: the retry loop of [connect] *)

Section Retry.

Context `{World} `{Runtime}.

Import Analyzer.

(** The loop on a non-empty range, unfolded by one attempt. *)
Lemma retry_loop_cons (attempt : nat) (rest : list nat) (dsn : Dsn)
    (s : PestDataAnalyzer) (w : W) :
  retry_loop (attempt :: rest) dsn s w
  = let c := DbConnect (oracle_user s) (oracle_password s) dsn in
    match env c w with
    | (inl e, w1) =>
        after_failure attempt rest dsn e
          [attempt_line attempt; Called c (Some e)] s w1
    | (inr conn, w1) =>
        match env (DbCursor conn) w1 with
        | (inl e, w2) =>
            after_failure attempt rest dsn e
              [attempt_line attempt; Called c None; Called (DbCursor conn) (Some e)]
              (set_connection (Some conn) s) w2
        | (inr cur, w2) =>
            mkRes (inr tt)
              (set_cursor (Some (mkCur conn cur)) (set_connection (Some conn) s))
              w2
              [attempt_line attempt; Called c None; Called (DbCursor conn) None;
               Logged INFO "Successfully connected to Oracle database"]
        end
    end.
Proof.
  cbv zeta. cbn [retry_loop].
  unfold attempt_body, attempt_handler, after_failure, prepend, attempt_line.
  unfold_monad.
  destruct (env (DbConnect _ _ dsn) w) as [[e | conn] w1]; simpl_res.
  - destruct (exn_class_eqb (exn_cls e) DatabaseError); [|reflexivity].
    destruct (attempt <? max_retries)%nat; [|reflexivity].
    destruct (env (Sleep retry_delay) w1) as [[e' | []] w2]; simpl_res;
      [reflexivity|].
    destruct (retry_loop rest dsn s w2); reflexivity.
  - destruct (env (DbCursor conn) w1) as [[e | cur] w2]; simpl_res;
      [|reflexivity].
    destruct (exn_class_eqb (exn_cls e) DatabaseError); [|reflexivity].
    destruct (attempt <? max_retries)%nat; [|reflexivity].
    destruct (env (Sleep retry_delay) w2) as [[e' | []] w3]; simpl_res;
      [reflexivity|].
    destruct (retry_loop rest dsn _ w3); reflexivity.
Qed.

(** The probe of the PGX server makes no database call and does not sleep. *)
Lemma probe_off_database (s : PestDataAnalyzer) (w : W) :
  forallb off_database (trace (probe_pgx s w)) = true.
Proof.
  unfold probe_pgx. unfold_monad.
  ask_env; simpl_res; [reflexivity|].
  destruct (status_code a =? 200)%Z; simpl_res; [|reflexivity].
  destruct (json_body a); simpl_res; reflexivity.
Qed.

Lemma attempts_app (a b : list Event) :
  attempts (a ++ b) = (attempts a ++ attempts b)%list.
Proof. apply filter_app. Qed.

Lemma sleeps_app (a b : list Event) :
  sleeps (a ++ b) = (sleeps a ++ sleeps b)%list.
Proof. apply filter_app. Qed.

Lemma retry_view_app (a b : list Event) :
  retry_view (a ++ b) = (retry_view a ++ retry_view b)%list.
Proof. apply filter_app. Qed.

Lemma off_database_attempts (tr : list Event) :
  forallb off_database tr = true ->
  attempts tr = [] /\ sleeps tr = [] /\ retry_view tr = [].
Proof.
  induction tr as [|e tr IH]; [easy|].
  cbn [forallb]. intros Hb. apply andb_prop in Hb as [He Htr].
  destruct (IH Htr) as (A & B & C).
  unfold attempts, sleeps, retry_view, off_database in *. cbn [filter].
  destruct (is_db_connect e), (is_sleep e); cbn in He; try discriminate.
  cbn. auto.
Qed.

Lemma stops_at_success_app (a b : list Event) :
  stops_at_success a = true ->
  forallb off_database b = true ->
  stops_at_success (a ++ b) = true.
Proof.
  intros Ha Hb. induction a as [|e a IH]; cbn [app stops_at_success] in *.
  - clear Ha. induction b as [|x b IHb]; [reflexivity|].
    cbn [forallb] in Hb. apply andb_prop in Hb as [Hx Hb].
    cbn [stops_at_success].
    replace (succeeded_here x b) with false; [auto|].
    unfold off_database in Hx. destruct x as [[] []| |]; try reflexivity;
      cbn in Hx; discriminate.
  - assert (Hs : succeeded_here e (a ++ b) = succeeded_here e a).
    { destruct a as [|x a]; [|reflexivity]. cbn [app].
      destruct b as [|x b]; [reflexivity|].
      cbn [forallb] in Hb. apply andb_prop in Hb as [Hx _].
      unfold off_database in Hx.
      destruct e as [[] []| |]; try reflexivity;
        destruct x as [[] []| |]; try reflexivity; cbn in Hx; discriminate. }
    rewrite Hs. destruct (succeeded_here e a).
    + rewrite forallb_app, Ha. cbn [andb].
      rewrite forallb_forall in Hb |- *. intros x Hx.
      specialize (Hb x Hx). unfold off_database, no_retry in *.
      destruct (is_db_connect x), (is_sleep x); cbn in *; congruence.
    + auto.
Qed.

Ltac retry_cases :=
  rewrite retry_loop_cons; cbv zeta;
  unfold after_failure, prepend, attempt_line;
  repeat match goal with
    | |- context [env ?c ?w] => destruct (env c w) as [[?e | ?a] ?w]
    | |- context [exn_class_eqb ?a ?b] => destruct (exn_class_eqb a b)
    | |- context [(?a <? max_retries)%nat] =>
        destruct (Nat.ltb_spec a max_retries)
    end;
  simpl_res.

Lemma retry_loop_attempts (l : list nat) (dsn : Dsn) (s : PestDataAnalyzer) (w : W) :
  (List.length (attempts (trace (retry_loop l dsn s w))) <= List.length l)%nat.
Proof.
  revert s w. induction l as [|attempt rest IH]; intros s w.
  - cbn. lia.
  - retry_cases; rewrite ?attempts_app; cbn [attempts filter is_db_connect
      app List.length]; try lia.
    all: match goal with
         | |- context [retry_loop _ _ ?s ?w] => specialize (IH s w)
         end; unfold attempts in *; lia.
Qed.

Lemma retry_loop_alternating (l : list nat) (dsn : Dsn)
    (s : PestDataAnalyzer) (w : W) :
  alternating retry_delay (retry_view (trace (retry_loop l dsn s w))) = true.
Proof.
  revert s w. induction l as [|attempt rest IH]; intros s w; [reflexivity|].
  retry_cases; try reflexivity.
  all: unfold retry_view in *;
    cbn [filter is_db_connect is_sleep orb app alternating is_sleep_of andb];
    unfold retry_delay in *; cbn [Z.eqb Pos.eqb andb]; apply IH.
Qed.

Lemma retry_loop_stops (l : list nat) (dsn : Dsn) (s : PestDataAnalyzer) (w : W) :
  stops_at_success (trace (retry_loop l dsn s w)) = true.
Proof.
  revert s w. induction l as [|attempt rest IH]; intros s w; [reflexivity|].
  retry_cases; try reflexivity.
  all: match goal with
       | |- context [retry_loop _ _ ?s ?w] =>
           generalize (IH s w);
           generalize (trace (retry_loop rest dsn s w))
       end; intros tr Htr; cbn; exact Htr.
Qed.

(** On the range of [connect], a loop that ends without an exception has
    opened a connection and a cursor. *)
Lemma retry_loop_connected (n a : nat) (dsn : Dsn) (s : PestDataAnalyzer) (w : W) :
  (a + n = S max_retries)%nat -> (1 <= n)%nat ->
  outcome (retry_loop (seq a n) dsn s w) = inr tt ->
  connected (final (retry_loop (seq a n) dsn s w)).
Proof.
  revert a s w. induction n as [|n IH]; intros a s w Han Hn; [lia|].
  cbn [seq]. retry_cases; try discriminate.
  all: try (intros _; eexists _, _; split; reflexivity).
  all: try (unfold max_retries in *;
            assert (n = 0%nat) by lia; subst n; cbn; discriminate).
  all: apply IH; unfold max_retries in *; lia.
Qed.

(** When every attempt raises a [DatabaseError] and every sleep returns, the
    loop makes all its attempts, sleeps between them and raises the error of
    the last one. *)
Lemma retry_loop_exhausted (n a : nat) (dsn : Dsn) (s : PestDataAnalyzer) (w : W) :
  (forall u p d w0, exists e w1,
      env (DbConnect u p d) w0 = (inl e, w1) /\ exn_cls e = DatabaseError) ->
  (forall z w0, exists w1, env (Sleep z) w0 = (inr tt, w1)) ->
  (a + n = S max_retries)%nat -> (1 <= n)%nat ->
  let r := retry_loop (seq a n) dsn s w in
  exists e u p d,
    outcome r = inl e /\ exn_cls e = DatabaseError /\
    List.length (attempts (trace r)) = n /\
    List.length (sleeps (trace r)) = (n - 1)%nat /\
    last (attempts (trace r)) (Printed "") = Called (DbConnect u p d) (Some e).
Proof.
  intros Hfail Hsleep. revert a s w.
  induction n as [|n IH]; intros a s w Han Hn; [lia|].
  cbv zeta. cbn [seq]. rewrite retry_loop_cons. cbv zeta.
  destruct (Hfail (oracle_user s) (oracle_password s) dsn w) as (e & w1 & E & Hcls).
  rewrite E. unfold after_failure, prepend, attempt_line.
  rewrite Hcls. cbn [exn_class_eqb].
  destruct (Nat.ltb_spec a max_retries) as [Hlt | Hge].
  - destruct (Hsleep retry_delay w1) as (w2 & E2). rewrite E2. simpl_res.
    assert (Hn' : (1 <= n)%nat) by (unfold max_retries in *; lia).
    destruct (IH (S a) s w2 ltac:(lia) Hn') as (e' & u & p & d & Ho & Hc & Ha & Hs & Hl).
    exists e', u, p, d. unfold attempts, sleeps in *.
    cbn [filter is_db_connect is_sleep app List.length].
    rewrite Ha, Hs. repeat split; try assumption; try lia.
    destruct (filter is_db_connect (trace (retry_loop (seq (S a) n) dsn s w2)))
      eqn:Eat.
    + cbn in Ha. lia.
    + exact Hl.
  - assert (n = 0%nat) by (unfold max_retries in *; lia). subst n.
    simpl_res. exists e, (oracle_user s), (oracle_password s), dsn.
    repeat split; try assumption; reflexivity.
Qed.

(** [connect] as the loop followed by the probe. *)
Lemma connect_run (s : PestDataAnalyzer) (w : W) :
  connect s w
  = let line := Logged INFO ("Connecting to Oracle database at " ++ oracle_host s
                               ++ ":" ++ str_Z (oracle_port s) ++ "...") in
    let dsn := mkDsn (oracle_host s) (oracle_port s) (oracle_service s) in
    let r := retry_loop (seq 1 max_retries) dsn s w in
    match outcome r with
    | inl e => mkRes (inl e) (final r) (world r) (line :: trace r)
    | inr _ =>
        let p := probe_pgx (final r) (world r) in
        mkRes (outcome p) (final p) (world p) (line :: trace r ++ trace p)%list
    end.
Proof.
  cbv zeta. unfold connect, bind, get, log, emit.
  destruct (retry_loop _ _ s w) as [[e | []] s1 w1 t1]; simpl_res; [reflexivity|].
  destruct (probe_pgx s1 w1) as [o2 s2 w2 t2]; reflexivity.
Qed.

(** C2: [connect] makes at most 30 connection attempts; attempts and sleeps
    alternate and every sleep lasts 5 seconds; after the first attempt that
    opened a connection and a cursor there is no further attempt and no
    sleep; and when every attempt raises a [DatabaseError] (the sleeps
    returning), there are 30 attempts and 29 sleeps and [connect] raises the
    error of the last attempt. *)
Theorem connect_retries (s : PestDataAnalyzer) (w : W) :
  let tr := trace (connect s w) in
  (List.length (attempts tr) <= 30)%nat /\
  alternating 5 (retry_view tr) = true /\
  stops_at_success tr = true /\
  ((forall u p d w0, exists e w1,
       env (DbConnect u p d) w0 = (inl e, w1) /\ exn_cls e = DatabaseError) ->
   (forall z w0, exists w1, env (Sleep z) w0 = (inr tt, w1)) ->
   exists e u p d,
     outcome (connect s w) = inl e /\ exn_cls e = DatabaseError /\
     List.length (attempts tr) = 30%nat /\
     List.length (sleeps tr) = 29%nat /\
     last (attempts tr) (Printed "") = Called (DbConnect u p d) (Some e)).
Proof.
  cbv zeta. rewrite connect_run. cbv zeta.
  generalize (mkDsn (oracle_host s) (oracle_port s) (oracle_service s)).
  intros dsn.
  pose proof (retry_loop_attempts (seq 1 max_retries) dsn s w) as Hatt.
  pose proof (retry_loop_alternating (seq 1 max_retries) dsn s w) as Halt.
  pose proof (retry_loop_stops (seq 1 max_retries) dsn s w) as Hstop.
  pose proof (fun Hf Hs => retry_loop_exhausted max_retries 1 dsn s w Hf Hs
                             eq_refl ltac:(unfold max_retries; lia)) as Hex.
  cbv zeta in Hex. rewrite length_seq in Hatt.
  destruct (retry_loop (seq 1 max_retries) dsn s w) as [[e | []] s1 w1 t1];
    simpl_res; cbn [outcome trace] in *.
  - unfold attempts, sleeps, retry_view in *.
    cbn [filter is_db_connect is_sleep orb].
    split; [exact Hatt|]. split; [exact Halt|]. split; [exact Hstop|].
    exact Hex.
  - pose proof (probe_off_database s1 w1) as Hprobe.
    destruct (probe_pgx s1 w1) as [o2 s2 w2 t2]; simpl_res; cbn [trace] in *.
    destruct (off_database_attempts _ Hprobe) as (A & B & C).
    change (Logged INFO ?m :: (t1 ++ t2)%list)
      with (([Logged INFO m] ++ t1) ++ t2)%list.
    rewrite !attempts_app, !retry_view_app, A, C, !app_nil_r.
    split; [exact Hatt|]. split; [exact Halt|]. split.
    + apply stops_at_success_app; [exact Hstop | exact Hprobe].
    + intros Hf Hs. destruct (Hex Hf Hs) as (e' & u & p & d & Ho & _).
      discriminate Ho.
Qed.

End Retry.

Lemma connect_retries_witness :
  let connect := Analyzer.connect (H := down_world) (H0 := demo_runtime) in
  let tr := trace (connect demo_analyzer 0%nat) in
  exists e u p d,
    outcome (connect demo_analyzer 0%nat) = inl e /\ exn_cls e = DatabaseError /\
    List.length (attempts tr) = 30%nat /\
    List.length (sleeps tr) = 29%nat /\
    last (attempts tr) (Printed "") = Called (DbConnect u p d) (Some e).
Proof.
  cbv zeta.
  destruct (connect_retries (H := down_world) (H0 := demo_runtime)
              demo_analyzer 0%nat) as (_ & _ & _ & Hall).
  apply Hall.
  - intros u p d w0. exists listener_down, (S w0). split; reflexivity.
  - intros z w0. exists (S w0). reflexivity.
Defined.

(** ** C7: statement texts do not depend on the data *)

Section Statements.

Context `{World} `{Runtime}.

Import Analyzer.

Ltac unfold_methods :=
  unfold count_of, for_distinct, insert_inspection;
  unfold execute; unfold the_df, the_cursor, the_connection.

Lemma inspection_params_length cols row ps :
  inspection_params cols row = inr ps -> List.length ps = 11%nat.
Proof.
  unfold inspection_params, and_then.
  repeat match goal with
    | |- match ?x with _ => _ end = _ -> _ => destruct x; [discriminate|]
    end.
  intros E. injection E as <-. reflexivity.
Qed.

Ltac close_parameterized :=
  try exact I;
  try (intros; exact I);
  try (cbn; split; [repeat (first [left; reflexivity | right]) | reflexivity]).

Lemma country_month_loop_parameterized (Inv : PestDataAnalyzer -> Prop)
    cols rows seen :
  respects Inv (parameterized node_statements)
           (country_month_loop cols rows seen).
Proof.
  revert seen. induction rows as [|row rows IH]; intros seen;
    cbn [country_month_loop].
  - apply respects_ret.
  - unfold_methods. respects_all;
      lazymatch goal with
      | |- respects _ _ (country_month_loop _ _ _) => apply IH
      | |- _ => close_parameterized
      end.
Qed.

Lemma create_nodes_parameterized (Inv : PestDataAnalyzer -> Prop) :
  respects Inv (parameterized node_statements) create_nodes.
Proof.
  unfold create_nodes. unfold_methods.
  respects_all;
    lazymatch goal with
    | |- respects _ _ (country_month_loop _ _ _) =>
        apply country_month_loop_parameterized
    | |- _ => close_parameterized
    end.
Qed.

Lemma create_inspections_parameterized :
  respects (fun _ => True) (parameterized relationship_statements)
           create_inspections_and_relationships.
Proof.
  unfold create_inspections_and_relationships. unfold_methods.
  respects_all; close_parameterized.
  cbn. split; [left; reflexivity|].
  eapply inspection_params_length; eassumption.
Qed.

Lemma clear_database_parameterized :
  respects (fun _ => True) (parameterized delete_statements) clear_database.
Proof.
  unfold clear_database. unfold_methods.
  apply respects_bind; [apply respects_log; exact I | intros _].
  apply respects_bind; [|intros _; respects_all; close_parameterized].
  apply respects_for_each_in. intros table Hin.
  respects_all; close_parameterized.
  cbn in Hin.
  repeat (destruct Hin as [<- | Hin];
          [split; [cbn; tauto | reflexivity]|]).
  contradiction.
Qed.

Lemma copy_table_batch_insert (src dst : Conn) (t : string) (w : W) :
  Forall (batch_insert_of t dst) (trace (CopyScript.copy_table src dst t tt w)).
Proof.
  unfold CopyScript.copy_table. unfold_monad.
  repeat (first
    [ ask_env
    | match goal with
      | |- context [CopyScript.build_create_sql ?x ?c] =>
          destruct (CopyScript.build_create_sql x c) eqn:?
      | |- context [(0 <? ?n)%nat] => destruct (Nat.ltb_spec 0 n)
      end ];
    simpl_res).
  all: repeat (constructor; [cbn; eauto|]); constructor.
Qed.

Lemma placeholders_numbered (n : nat) :
  CopyScript.placeholders n = numbered_placeholders n.
Proof.
  unfold CopyScript.placeholders, numbered_placeholders.
  rewrite <- seq_shift, map_map. f_equal. apply map_ext.
  intros i. now rewrite Nat.add_1_r.
Qed.

(** C7: whatever the analyzer state (and so whatever the CSV it was loaded
    from) and whatever the environment, every statement that [create_nodes],
    [create_inspections_and_relationships] and [clear_database] execute is
    one of the fixed texts of the source and binds as many values as the text
    has numbered placeholders; the batch insert of [copy_table] is built from
    the table name and the column labels alone, with the placeholders [:1] to
    [:n] for [n] columns, and receives the rows as bind values. *)
Theorem statements_are_parameterized :
  (forall s w, Forall (parameterized node_statements) (trace (create_nodes s w))) /\
  (forall s w, Forall (parameterized relationship_statements)
                 (trace (create_inspections_and_relationships s w))) /\
  (forall s w, Forall (parameterized delete_statements) (trace (clear_database s w))) /\
  (forall src dst t w,
     Forall (batch_insert_of t dst) (trace (CopyScript.copy_table src dst t tt w))) /\
  (forall t cols dtypes1 rows1 dtypes2 rows2,
     CopyScript.insert_sql t (mkDF cols dtypes1 rows1)
     = CopyScript.insert_sql t (mkDF cols dtypes2 rows2)) /\
  (forall t df,
     CopyScript.insert_sql t df
     = "INSERT INTO " ++ t ++ " (" ++ join ", " (columns df) ++ ") VALUES ("
         ++ numbered_placeholders (List.length (columns df)) ++ ")").
Proof.
  split; [intros s w; now apply (create_nodes_parameterized (fun _ => True))|].
  split; [intros s w; now apply create_inspections_parameterized|].
  split; [intros s w; now apply clear_database_parameterized|].
  split; [intros; apply copy_table_batch_insert|].
  split; [reflexivity|].
  intros t df. unfold CopyScript.insert_sql.
  now rewrite placeholders_numbered.
Qed.

End Statements.

(** ** C9: [load_data] cleans the numeric columns *)

Section Cleaning.

Context `{World} `{Runtime}.

Import Analyzer.

Lemma in_int64_bounds (z : Z) :
  in_int64 z = true <-> (- 2 ^ 63 <= z <= 2 ^ 63 - 1)%Z.
Proof.
  unfold in_int64, int64_min, int64_max.
  rewrite Bool.andb_true_iff, !Z.leb_le. reflexivity.
Qed.

Lemma in_uint64_bounds (z : Z) :
  in_uint64 z = true <-> (0 <= z <= 2 ^ 64 - 1)%Z.
Proof.
  unfold in_uint64, uint64_max.
  rewrite Bool.andb_true_iff, !Z.leb_le. reflexivity.
Qed.

Lemma wrap_int64_range (z : Z) : in_int64 (wrap_int64 z) = true.
Proof.
  apply in_int64_bounds. unfold wrap_int64, int64_min.
  pose proof (Z.mod_pos_bound (z - - 2 ^ 63) (2 ^ 64) ltac:(lia)). lia.
Qed.

Lemma wrap_int64_small (z : Z) : in_int64 z = true -> wrap_int64 z = z.
Proof.
  intros Hz. apply in_int64_bounds in Hz. unfold wrap_int64, int64_min.
  rewrite Z.mod_small; lia.
Qed.

Lemma cast_int64_range (q : Q) : in_int64 (cast_int64 q) = true.
Proof.
  unfold cast_int64. destruct (in_int64 (trunc q)) eqn:E; [exact E|].
  reflexivity.
Qed.

Lemma cast_int64_exact (q : Q) :
  in_int64 (trunc q) = true -> cast_int64 q = trunc q.
Proof. unfold cast_int64. now intros ->. Qed.

Lemma small_in_int64 (z : Z) : (Z.abs z <= 2 ^ 53)%Z -> in_int64 z = true.
Proof. intros Hz. apply in_int64_bounds. lia. Qed.

(** One value of a series that [load_data] converts, the series being of
    the type that its values give it. *)
Lemma convert_cell_cleaned (dt : Dtype) (c : Cell) :
  match dt with
  | Int64 => is_int64_cell (to_numeric c) = true
  | UInt64 => is_uint64_cell (to_numeric c) = true
  | Float64 => is_finite (fillna0 (as_float64 (to_numeric c))) = true
  | Object => False
  end ->
  exists z, convert_cell dt c = CInt z /\ cleaned c z.
Proof.
  unfold convert_cell, cleaned, to_numeric.
  destruct dt; [| | |intros []].
  - (* int64: the values stay *)
    destruct c as [s | z | q | b | | ]; cbn; try discriminate.
    + destruct (parse_number s) as [[z | q | b]|]; cbn; try discriminate.
      intros Hz. exists z. auto.
    + intros Hz. exists z. auto.
  - (* uint64: the same bits *)
    destruct c as [s | z | q | b | | ]; cbn; try discriminate.
    + destruct (parse_number s) as [[z | q | b]|]; cbn; try discriminate.
      intros Hz. exists (wrap_int64 z).
      split; [reflexivity|]. split; [apply wrap_int64_range|].
      intros Hs. apply wrap_int64_small. now apply small_in_int64.
    + intros Hz. exists (wrap_int64 z).
      split; [reflexivity|]. split; [apply wrap_int64_range|].
      intros Hs. apply wrap_int64_small. now apply small_in_int64.
  - (* float64 *)
    assert (Hint : forall z,
      in_int64 (cast_int64 (inject_Z (round_float64 z))) = true /\
      ((Z.abs z <= 2 ^ 53)%Z -> cast_int64 (inject_Z (round_float64 z)) = z)).
    { intros z. split; [apply cast_int64_range|]. intros Hs.
      rewrite (round_float64_small z Hs), cast_int64_exact;
        rewrite trunc_inject_Z; [reflexivity | now apply small_in_int64]. }
    assert (Hfl : forall q,
      in_int64 (cast_int64 q) = true /\
      (in_int64 (trunc q) = true -> cast_int64 q = trunc q)).
    { intros q. split; [apply cast_int64_range | apply cast_int64_exact]. }
    destruct c as [s | z | q | b | | ]; cbn; try discriminate.
    + destruct (parse_number s) as [[z | q | b]|]; cbn; try discriminate;
        intros _; eexists; (split; [reflexivity|]);
        first [apply Hint | apply Hfl | split; reflexivity].
    + intros _. eexists. split; [reflexivity | apply Hint].
    + intros _. eexists. split; [reflexivity | apply Hfl].
    + intros _. eexists. split; [reflexivity | split; reflexivity].
    + intros _. eexists. split; [reflexivity | split; reflexivity].
Qed.

(** The conversion of a series, value by value. *)
Lemma convert_series (cs cs' : list Cell) :
  (let (read, dt) := to_numeric_series cs in
   astype_int_all dt (map fillna0 read)) = inr cs' ->
  exists dt,
    cs' = map (convert_cell dt) cs /\
    Forall (fun c => exists z, convert_cell dt c = CInt z /\ cleaned c z) cs.
Proof.
  unfold to_numeric_series, numeric_dtype.
  destruct (forallb is_int64_cell (map to_numeric cs)) eqn:Ei.
  { cbn [astype_int_all]. intros E. injection E as <-. exists Int64. split.
    - rewrite !map_map. reflexivity.
    - rewrite forallb_forall in Ei. apply Forall_forall. intros c Hc.
      apply (convert_cell_cleaned Int64). apply Ei. now apply in_map. }
  destruct (forallb is_uint64_cell (map to_numeric cs)) eqn:Eu.
  { cbn [astype_int_all]. intros E. injection E as <-. exists UInt64. split.
    - rewrite !map_map. reflexivity.
    - rewrite forallb_forall in Eu. apply Forall_forall. intros c Hc.
      apply (convert_cell_cleaned UInt64). apply Eu. now apply in_map. }
  cbn [astype_int_all].
  destruct (forallb is_finite _) eqn:Ef; [|discriminate].
  intros E. injection E as <-. exists Float64. split.
  - rewrite !map_map. reflexivity.
  - rewrite forallb_forall in Ef. apply Forall_forall. intros c Hc.
    apply (convert_cell_cleaned Float64). apply Ef.
    rewrite !map_map. apply in_map_iff. now exists c.
Qed.

Lemma length_set_nth {A} (i : nat) (x : A) (l : list A) :
  List.length (set_nth i x l) = List.length l.
Proof.
  revert i. induction l as [|y l IH]; intros [|i]; cbn; auto.
Qed.

Lemma nth_set_nth_eq {A} (i : nat) (x d : A) (l : list A) :
  (i < List.length l)%nat -> nth i (set_nth i x l) d = x.
Proof.
  revert i. induction l as [|y l IH]; intros [|i]; cbn; intros Hi;
    try lia; auto. apply IH. lia.
Qed.

Lemma nth_set_nth_neq {A} (i j : nat) (x d : A) (l : list A) :
  i <> j -> nth j (set_nth i x l) d = nth j l d.
Proof.
  revert i j. induction l as [|y l IH]; intros [|i] [|j]; cbn; intros Hij;
    try congruence; auto.
Qed.

Lemma col_index_nth (name : string) (names : list string) (j : nat) :
  col_index name names = Some j -> nth_error names j = Some name.
Proof.
  revert j. induction names as [|c names IH]; intros j; cbn; [discriminate|].
  destruct (String.eqb_spec c name) as [-> | Hne].
  - intros E; injection E as <-. reflexivity.
  - destruct (col_index name names) as [k|]; cbn; [|discriminate].
    intros E; injection E as <-. cbn. now apply IH.
Qed.

Lemma col_index_inj (n1 n2 : string) (names : list string) (j : nat) :
  col_index n1 names = Some j -> col_index n2 names = Some j -> n1 = n2.
Proof.
  intros H1 H2. apply col_index_nth in H1, H2. congruence.
Qed.

Lemma set_column_rows (i : nat) (f : Cell -> Cell) (rows : list (list Cell)) :
  Forall (fun c => exists z, f c = CInt z /\ cleaned c z)
         (map (fun row => nth i row CNaN) rows) ->
  Forall2 (fun r r' => exists z, cleaned (nth i r CNaN) z /\ r' = set_nth i (CInt z) r)
          rows
          (map (fun rc => set_nth i (snd rc) (fst rc))
               (combine rows (map f (map (fun row => nth i row CNaN) rows)))).
Proof.
  induction rows as [|r rows IH]; cbn [map combine]; intros Hall.
  - constructor.
  - inversion Hall as [|? ? (z & Hz & Hc) Hrest]; subst.
    constructor; [|now apply IH].
    exists z. cbn [fst snd]. rewrite Hz. now split.
Qed.

Lemma convert_column_rows (d d' : DataFrame) (col : string) (i : nat) :
  col_index col (columns d) = Some i ->
  convert_column d col = inr d' ->
  columns d' = columns d /\
  Forall2 (fun r r' => exists z, cleaned (nth i r CNaN) z /\ r' = set_nth i (CInt z) r)
          (rows d) (rows d').
Proof.
  intros Hi. unfold convert_column, column, set_column. rewrite Hi.
  match goal with
  | |- context [to_numeric_series ?cs] =>
      pose proof (convert_series cs) as Hser;
      destruct (to_numeric_series cs) as [read dt]
  end.
  destruct (astype_int_all dt (map fillna0 read)) as [e | cs']; [discriminate|].
  intros E; injection E as <-. cbn [columns rows].
  split; [reflexivity|].
  destruct (Hser cs' eq_refl) as (dt' & -> & Hall).
  now apply set_column_rows.
Qed.

Lemma cleaned_row_refl (names : list string) (r : list Cell) :
  cleaned_row names [] r r.
Proof.
  split; [reflexivity|]. intros name j _ _. split; [intros []|reflexivity].
Qed.

(** One more column cleaned in front of the columns [rest], which are other
    columns. *)
Lemma cleaned_row_step (names rest : list string) (col : string) (i : nat)
    (r r1 r' : list Cell) (z : Z) :
  ~ In col rest ->
  col_index col names = Some i ->
  cleaned (nth i r CNaN) z ->
  r1 = set_nth i (CInt z) r ->
  cleaned_row names rest r1 r' ->
  cleaned_row names (col :: rest) r r'.
Proof.
  intros Hfresh Hi Hz -> [Hlen Hcells]. rewrite length_set_nth in Hlen.
  split; [exact Hlen|]. intros name j Hj Hlt.
  assert (Hlt1 : (j < List.length (set_nth i (CInt z) r))%nat)
    by now rewrite length_set_nth.
  destruct (Hcells name j Hj Hlt1) as [Hin Hout].
  destruct (Nat.eq_dec i j) as [<- | Hij].
  - assert (name = col) by (eapply col_index_inj; eauto). subst name.
    rewrite nth_set_nth_eq in Hout by exact Hlt.
    split; [|intros Hn; exfalso; apply Hn; now left].
    intros _. exists z. split; [now apply Hout | exact Hz].
  - rewrite nth_set_nth_neq in Hin, Hout by exact Hij.
    assert (Hne : name <> col).
    { intros ->. rewrite Hi in Hj. congruence. }
    split.
    + intros [Heq | Hr]; [congruence | now apply Hin].
    + intros Hn. apply Hout. intros Hr. apply Hn. now right.
Qed.

Lemma cleaned_row_skip (names rest : list string) (col : string)
    (r r' : list Cell) :
  col_index col names = None ->
  cleaned_row names rest r r' ->
  cleaned_row names (col :: rest) r r'.
Proof.
  intros Hnone [Hlen Hcells]. split; [exact Hlen|]. intros name j Hj Hlt.
  destruct (Hcells name j Hj Hlt) as [Hin Hout].
  assert (Hne : name <> col) by (intros ->; congruence).
  split.
  - intros [Heq | Hr]; [congruence | now apply Hin].
  - intros Hn. apply Hout. intros Hr. apply Hn. now right.
Qed.

Lemma Forall2_refl_on {A} (R : A -> A -> Prop) (l : list A) :
  (forall x, R x x) -> Forall2 R l l.
Proof. intros HR. induction l; constructor; auto. Qed.

Lemma Forall2_chain {A} (R1 R2 R3 : A -> A -> Prop) (l1 l2 l3 : list A) :
  (forall x y z, R1 x y -> R2 y z -> R3 x z) ->
  Forall2 R1 l1 l2 -> Forall2 R2 l2 l3 -> Forall2 R3 l1 l3.
Proof.
  intros HR H12. revert l3. induction H12; intros l3 H23; inversion H23; subst;
    constructor; eauto.
Qed.

(** What the conversion loop makes of a frame. *)
Lemma convert_columns_rows (cols : list string) (d d' : DataFrame) :
  NoDup cols ->
  convert_columns cols d = inr d' ->
  columns d' = columns d /\
  Forall2 (cleaned_row (columns d) cols) (rows d) (rows d').
Proof.
  intros Hnd. revert d.
  induction Hnd as [|col cols Hfresh Hnd IH]; intros d; cbn [convert_columns].
  - intros E; injection E as <-. split; [reflexivity|].
    apply Forall2_refl_on. apply cleaned_row_refl.
  - unfold has_column. destruct (col_index col (columns d)) as [i|] eqn:Hi.
    + destruct (convert_column d col) as [e | d1] eqn:E1; [discriminate|].
      intros E. destruct (convert_column_rows _ _ _ _ Hi E1) as [Hc1 Hr1].
      destruct (IH _ E) as [Hc Hr]. rewrite Hc1 in Hc, Hr.
      split; [exact Hc|].
      eapply Forall2_chain; [|exact Hr1|exact Hr].
      intros r r1 r' (z & Hz & Hset) Hrest.
      eapply cleaned_row_step; eauto.
    + intros E. destruct (IH _ E) as [Hc Hr]. split; [exact Hc|].
      eapply Forall2_impl; [|exact Hr].
      intros r r' Hrr. now apply cleaned_row_skip.
Qed.

Lemma numeric_columns_NoDup : NoDup numeric_columns.
Proof.
  unfold numeric_columns.
  repeat (constructor; [cbn; intros Hin;
                        repeat (destruct Hin as [Hin | Hin];
                                [discriminate Hin|]); exact Hin|]).
  constructor.
Qed.

Lemma set_df_same (s : PestDataAnalyzer) (d : DataFrame) :
  df s = Some d -> set_df (Some d) s = s.
Proof. destruct s; cbn; intros ->; reflexivity. Qed.

Lemma convert_step_run (col : string) (d : DataFrame)
    (s : PestDataAnalyzer) (w : W) :
  df s = Some d ->
  convert_step col s w
  = if has_column d col then
      match convert_column d col with
      | inl e => mkRes (inl e) s w []
      | inr d' => mkRes (inr tt) (set_df (Some d') s) w []
      end
    else mkRes (inr tt) s w [].
Proof.
  intros Hd. unfold convert_step, the_df. unfold_monad. rewrite Hd.
  destruct (has_column d col); [|reflexivity].
  destruct (convert_column d col); reflexivity.
Qed.

(** The loop of [load_data] computes [convert_columns] on the frame of the
    analyzer, without any call or log line. *)
Lemma convert_loop_run (cols : list string) (d : DataFrame)
    (s : PestDataAnalyzer) (w : W) :
  df s = Some d ->
  exists o sf,
    for_each cols convert_step s w = mkRes o sf w [] /\
    match convert_columns cols d with
    | inr d' => o = inr tt /\ sf = set_df (Some d') s
    | inl e => o = inl e
    end.
Proof.
  revert d s. induction cols as [|col cols IH]; intros d s Hd;
    cbn [for_each convert_columns].
  - exists (inr tt), s. split; [reflexivity|].
    split; [reflexivity|]. symmetry. now apply set_df_same.
  - unfold bind. rewrite (convert_step_run col d s w Hd).
    destruct (has_column d col).
    + destruct (convert_column d col) as [e | d1].
      * exists (inl e), s. split; reflexivity.
      * destruct (IH d1 (set_df (Some d1) s) eq_refl) as (o & sf & -> & Hm).
        exists o, sf. split; [reflexivity|].
        destruct (convert_columns cols d1); [exact Hm|].
        destruct Hm as [-> ->]. split; reflexivity.
    + destruct (IH d s Hd) as (o & sf & -> & Hm).
      exists o, sf. split; [reflexivity | exact Hm].
Qed.

Lemma is_header_row_spec (raw : DataFrame) (hdr : bool) :
  is_header_row raw = inr hdr ->
  exists first row0 rest,
    hd_error (values raw) = Some first /\
    rows raw = row0 :: rest /\
    (hdr = true <->
       row_get (columns raw) first "TARGET_PROXY" = inr (CStr "TP") \/
       exists c, row_get (columns raw) first "ENTY_ID" = inr c /\
                 str_cell c = "ENTY_ID").
Proof.
  unfold is_header_row. pose proof (values_length raw) as Hlen.
  destruct (values raw) as [|first others]; [discriminate|].
  unfold len in Hlen. destruct (rows raw) as [|row0 rest]; [discriminate|].
  intros E. exists first, row0, rest.
  split; [reflexivity|]. split; [reflexivity|].
  destruct (row_get (columns raw) first "TARGET_PROXY") as [e | tp];
    [discriminate|].
  destruct (eq_str tp "TP") eqn:Etp.
  - injection E as <-. split; [|reflexivity]. intros _. left.
    destruct tp; cbn in Etp; try discriminate.
    apply String.eqb_eq in Etp. now subst.
  - destruct (row_get (columns raw) first "ENTY_ID") as [e | eid];
      [discriminate|].
    injection E as <-. split.
    + intros Hs. right. exists eid. split; [reflexivity|].
      now apply String.eqb_eq.
    + intros [Htp | (c & Hc & Hs)].
      * injection Htp as ->. cbn in Etp. discriminate.
      * injection Hc as ->. now apply String.eqb_eq.
Qed.

(** What a [load_data] that returns has computed: the frame read from the
    CSV, less its first row if the header test says so, run through the
    conversion of the numeric columns, is the frame of the analyzer. *)
Lemma load_data_computes (s : PestDataAnalyzer) (w : W) :
  outcome (load_data s w) = inr tt ->
  exists raw w1 hdr d,
    env (ReadCsv (csv_path s)) w = (inr raw, w1) /\
    is_header_row raw = inr hdr /\
    convert_columns numeric_columns (if hdr then drop_first_row raw else raw)
    = inr d /\
    df (final (load_data s w)) = Some d.
Proof.
  unfold load_data, the_df. unfold_monad.
  destruct (env (ReadCsv (csv_path s)) w) as [[e | raw] w1] eqn:Eread;
    simpl_res; [discriminate|].
  destruct (is_header_row raw) as [e | hdr] eqn:Ehdr; simpl_res; [discriminate|].
  destruct hdr; simpl_res.
  - match goal with
    | |- context [for_each numeric_columns convert_step ?s1 ?w1] =>
        destruct (convert_loop_run numeric_columns (drop_first_row raw) s1 w1
                    eq_refl) as (o & sf & -> & L)
    end.
    destruct (convert_columns numeric_columns (drop_first_row raw))
      as [e | d] eqn:Ec.
    + subst o. simpl_res. discriminate.
    + destruct L as [-> ->]. simpl_res. cbn [df set_df].
      destruct (column d "ENTY_ID"); simpl_res; [discriminate|].
      intros _. exists raw, w1, true, d. repeat split; assumption.
  - match goal with
    | |- context [for_each numeric_columns convert_step ?s1 ?w1] =>
        destruct (convert_loop_run numeric_columns raw s1 w1 eq_refl)
          as (o & sf & -> & L)
    end.
    destruct (convert_columns numeric_columns raw) as [e | d] eqn:Ec.
    + subst o. simpl_res. discriminate.
    + destruct L as [-> ->]. simpl_res. cbn [df set_df].
      destruct (column d "ENTY_ID"); simpl_res; [discriminate|].
      intros _. exists raw, w1, false, d. repeat split; assumption.
Qed.

(** C9: when [load_data] returns, the frame of the analyzer has the columns
    of the CSV; its rows are those of the CSV, without the first one exactly
    when that row, as [iloc[0]] reads it, repeats the header (TARGET_PROXY is
    ['TP'] or ENTY_ID reads ['ENTY_ID']); and in each of the seven numeric
    columns that the CSV has, every value is an integer of 64 bits: 0 for
    what is missing or cannot be parsed as a number, the value itself for an
    integer of magnitude up to 2^53, the truncation for a float whose
    truncation has 64 bits.  The other columns are as in the CSV. *)
Theorem load_data_cleans (s : PestDataAnalyzer) (w : W) :
  outcome (load_data s w) = inr tt ->
  exists raw w1 first row0 rest hdr d,
    env (ReadCsv (csv_path s)) w = (inr raw, w1) /\
    hd_error (values raw) = Some first /\
    rows raw = row0 :: rest /\
    (hdr = true <->
       row_get (columns raw) first "TARGET_PROXY" = inr (CStr "TP") \/
       exists c, row_get (columns raw) first "ENTY_ID" = inr c /\
                 str_cell c = "ENTY_ID") /\
    df (final (load_data s w)) = Some d /\
    columns d = columns raw /\
    Forall2 (cleaned_row (columns raw) numeric_columns)
            (if hdr then rest else row0 :: rest) (rows d).
Proof.
  intros Hok.
  destruct (load_data_computes s w Hok) as (raw & w1 & hdr & d & Er & Eh & Ec & Ed).
  destruct (is_header_row_spec raw hdr Eh)
    as (first & row0 & rest & Hfirst & Hrows & Hhdr).
  destruct (convert_columns_rows _ _ _ numeric_columns_NoDup Ec) as [Hc Hr].
  exists raw, w1, first, row0, rest, hdr, d.
  split; [exact Er|]. split; [exact Hfirst|]. split; [exact Hrows|].
  split; [exact Hhdr|]. split; [exact Ed|].
  destruct hdr; cbn [drop_first_row columns rows] in Hc, Hr;
    rewrite Hrows in Hr; (split; [exact Hc | exact Hr]).
Qed.

End Cleaning.

Lemma load_data_cleans_witness :
  let load_data := Analyzer.load_data (H := pipeline_world) (H0 := demo_runtime) in
  exists raw w1 first row0 rest hdr d,
    @env pipeline_world (ReadCsv (Analyzer.csv_path demo_analyzer)) 0%nat
      = (inr raw, w1) /\
    hd_error (values raw) = Some first /\
    rows raw = row0 :: rest /\
    (hdr = true <->
       row_get (columns raw) first "TARGET_PROXY" = inr (CStr "TP") \/
       exists c, row_get (columns raw) first "ENTY_ID" = inr c /\
                 str_cell (H := demo_runtime) c = "ENTY_ID") /\
    Analyzer.df (final (load_data demo_analyzer 0%nat)) = Some d /\
    columns d = columns raw /\
    Forall2 (cleaned_row (H := demo_runtime) (columns raw) Analyzer.numeric_columns)
            (if hdr then rest else row0 :: rest) (rows d).
Proof.
  cbv zeta.
  apply (load_data_cleans (H := pipeline_world) (H0 := demo_runtime)
           demo_analyzer 0%nat).
  vm_compute. reflexivity.
Defined.

(** ** The stages of the analyzer's methods *)

Section Ordering.

Lemma ordered_from_weaken (lo lo' : nat) (tr : list Event) :
  (lo' <= lo)%nat -> ordered_from lo tr -> ordered_from lo' tr.
Proof.
  revert lo lo'. induction tr as [|e tr IH]; intros lo lo' Hle; cbn; [auto|].
  destruct (stage_of e) as [st|].
  - intros [H1 H2]. split; [lia | exact H2].
  - now apply IH.
Qed.

Lemma staged_weaken (lo hi lo' hi' : nat) (e : Event) :
  (lo' <= lo)%nat -> (hi <= hi')%nat -> staged lo hi e -> staged lo' hi' e.
Proof. unfold staged. destruct (stage_of e); [lia | auto]. Qed.

Lemma ordered_from_single (k : nat) (tr : list Event) :
  Forall (staged k k) tr -> ordered_from k tr.
Proof.
  induction 1 as [|e tr He Htr IH]; cbn; [exact I|].
  unfold staged in He. destruct (stage_of e) as [st|]; [|exact IH].
  assert (rank st = k) as -> by lia. split; [lia | exact IH].
Qed.

Lemma ordered_staged (k lo hi : nat) (tr : list Event) :
  ordered_from k tr -> Forall (staged lo hi) tr -> Forall (staged k hi) tr.
Proof.
  revert k. induction tr as [|e tr IH]; intros k Ho Hs; [constructor|].
  inversion Hs as [|? ? He Htr]; subst. cbn in Ho.
  unfold staged in He |- *. constructor.
  - unfold staged. destruct (stage_of e) as [st|]; [lia | exact I].
  - destruct (stage_of e) as [st|].
    + destruct Ho as [Hk Ho].
      eapply Forall_impl; [|apply (IH (rank st) Ho Htr)].
      intros x. apply staged_weaken; lia.
    + now apply IH.
Qed.

Lemma ordered_from_app (lo hi : nat) (a b : list Event) :
  (lo <= hi)%nat ->
  ordered_from lo a -> Forall (staged lo hi) a -> ordered_from hi b ->
  ordered_from lo (a ++ b).
Proof.
  revert lo. induction a as [|e a IH]; intros lo Hle Ha Hs Hb; cbn [app].
  - eapply ordered_from_weaken; eassumption.
  - inversion Hs as [|? ? He Htr]; subst. cbn in Ha |- *.
    unfold staged in He. destruct (stage_of e) as [st|].
    + destruct Ha as [Hlo Ha]. split; [exact Hlo|].
      apply IH; [lia | exact Ha | | exact Hb].
      eapply ordered_staged; eassumption.
    + now apply IH.
Qed.

End Ordering.

Section InOrder.

Context `{World} {S : Type}.

Lemma in_order_single {A} (k : nat) (m : M S A) :
  emits (staged k k) m -> in_order k k m.
Proof.
  intros Hm s w. destruct (Hm s w I) as [_ Htr].
  split; [now apply ordered_from_single | exact Htr].
Qed.

Lemma in_order_weaken {A} (lo hi lo' hi' : nat) (m : M S A) :
  (lo' <= lo)%nat -> (hi <= hi')%nat -> in_order lo hi m -> in_order lo' hi' m.
Proof.
  intros Hlo Hhi Hm s w. destruct (Hm s w) as [Ho Hs]. split.
  - eapply ordered_from_weaken; eassumption.
  - eapply Forall_impl; [|exact Hs]. intros e. now apply staged_weaken.
Qed.

Lemma in_order_app (lo mid hi : nat) (a b : list Event) :
  (lo <= mid)%nat -> (mid <= hi)%nat ->
  ordered_from lo a /\ Forall (staged lo mid) a ->
  ordered_from mid b /\ Forall (staged mid hi) b ->
  ordered_from lo (a ++ b) /\ Forall (staged lo hi) (a ++ b).
Proof.
  intros H1 H2 [Ha Hsa] [Hb Hsb]. split.
  - eapply ordered_from_app; eassumption.
  - apply Forall_app. split; (eapply Forall_impl; [|eassumption]);
      intros e; apply staged_weaken; lia.
Qed.

Lemma in_order_bind {A B} (lo mid hi : nat) (m : M S A) (f : A -> M S B) :
  (lo <= mid)%nat -> (mid <= hi)%nat ->
  in_order lo mid m -> (forall a, in_order mid hi (f a)) ->
  in_order lo hi (bind m f).
Proof.
  intros H1 H2 Hm Hf s w. unfold bind.
  specialize (Hm s w).
  destruct (m s w) as [[e | a] s1 w1 t1]; cbn [trace] in *.
  - rewrite <- (app_nil_r t1). apply (in_order_app lo mid hi); auto.
    split; [exact I | constructor].
  - specialize (Hf a s1 w1).
    destruct (f a s1 w1) as [o s2 w2 t2]; cbn [trace] in *.
    now apply (in_order_app lo mid hi).
Qed.

Lemma in_order_try_except {A} (lo mid hi : nat) (m : M S A)
    (h : exn -> option (M S A)) :
  (lo <= mid)%nat -> (mid <= hi)%nat ->
  in_order lo mid m ->
  (forall e k, h e = Some k -> in_order mid hi k) ->
  in_order lo hi (try_except m h).
Proof.
  intros H1 H2 Hm Hh s w. unfold try_except.
  specialize (Hm s w).
  destruct (m s w) as [[e | a] s1 w1 t1]; cbn [trace] in *.
  - destruct (h e) as [k|] eqn:Ek.
    + specialize (Hh e k Ek s1 w1).
      destruct (k s1 w1) as [o s2 w2 t2]; cbn [trace] in *.
      now apply (in_order_app lo mid hi).
    + rewrite <- (app_nil_r t1). apply (in_order_app lo mid hi); auto.
      split; [exact I | constructor].
  - rewrite <- (app_nil_r t1). apply (in_order_app lo mid hi); auto.
    split; [exact I | constructor].
Qed.

Lemma in_order_try_finally {A} (lo mid hi : nat) (m : M S A) (fin : M S unit) :
  (lo <= mid)%nat -> (mid <= hi)%nat ->
  in_order lo mid m -> in_order mid hi fin ->
  in_order lo hi (try_finally m fin).
Proof.
  intros H1 H2 Hm Hf s w. unfold try_finally.
  specialize (Hm s w).
  destruct (m s w) as [o s1 w1 t1]; cbn [trace] in *.
  specialize (Hf s1 w1).
  destruct (fin s1 w1) as [[e | []] s2 w2 t2]; cbn [trace] in *;
    now apply (in_order_app lo mid hi).
Qed.

(** A computation without calls of any stage fits everywhere. *)
Lemma in_order_silent {A} (lo hi : nat) (m : M S A) :
  (lo <= hi)%nat ->
  emits (fun e => stage_of e = None) m -> in_order lo hi m.
Proof.
  intros Hle Hm s w. destruct (Hm s w I) as [_ Htr].
  induction Htr as [|e tr He Htr IH]; cbn.
  - split; [exact I | constructor].
  - rewrite He. destruct IH as [Ho Hs]. split; [exact Ho|].
    constructor; [|exact Hs]. unfold staged. now rewrite He.
Qed.

End InOrder.

Section MethodStages.

Context `{World} `{Runtime}.

Import Analyzer.

Ltac unfold_methods :=
  unfold count_of, for_distinct, insert_inspection, convert_step, cleanup;
  unfold execute; unfold the_df, the_cursor, the_connection.

Ltac close_staged :=
  try exact I;
  try (intros; exact I);
  try (unfold staged; cbn; lia);
  try (unfold staged; cbv; repeat split; repeat constructor).

Lemma retry_loop_stage (attempts : list nat) (dsn : Dsn) :
  emits (staged 0 0) (retry_loop attempts dsn).
Proof.
  unfold emits. induction attempts as [|attempt rest IH]; cbn [retry_loop].
  - apply respects_ret.
  - unfold attempt_body, attempt_handler.
    respects_all;
      lazymatch goal with
      | |- respects _ _ (retry_loop _ _) => apply IH
      | |- _ => close_staged
      end.
Qed.

Lemma probe_pgx_stage : emits (staged 1 1) probe_pgx.
Proof. unfold emits, probe_pgx. respects_all; close_staged. Qed.

Lemma connect_in_order : in_order 0 1 connect.
Proof.
  unfold connect.
  apply (in_order_bind 0 0 1); [lia | lia | |intros self].
  { apply in_order_silent; [lia|]. apply respects_get. }
  apply (in_order_bind 0 0 1); [lia | lia | |intros _].
  { apply in_order_silent; [lia|]. apply respects_log. reflexivity. }
  cbv zeta.
  apply (in_order_bind 0 0 1); [lia | lia | |intros _].
  { apply in_order_single. apply retry_loop_stage. }
  apply (in_order_weaken 1 1); [lia | lia |].
  apply in_order_single. apply probe_pgx_stage.
Qed.

(** The methods after [connect], for an invariant [Inv] of the analyzer
    that does not depend on the fields they assign. *)
Variable Inv : PestDataAnalyzer -> Prop.

Lemma load_data_stage :
  (forall d s, Inv s -> Inv (set_df d s)) ->
  respects Inv (staged 2 2) load_data.
Proof.
  intros Hdf. unfold load_data. unfold_methods.
  respects_all; try (intros; now apply Hdf); close_staged.
Qed.

Lemma clear_database_stage : respects Inv (staged 3 3) clear_database.
Proof.
  unfold clear_database. unfold_methods. respects_all; close_staged.
Qed.

Lemma country_month_loop_stage cols rows seen :
  respects Inv (staged 4 4) (country_month_loop cols rows seen).
Proof.
  revert seen. induction rows as [|row rows IH]; intros seen;
    cbn [country_month_loop].
  - apply respects_ret.
  - unfold_methods. respects_all;
      lazymatch goal with
      | |- respects _ _ (country_month_loop _ _ _) => apply IH
      | |- _ => close_staged
      end.
Qed.

Lemma create_nodes_stage : respects Inv (staged 4 4) create_nodes.
Proof.
  unfold create_nodes. unfold_methods.
  respects_all;
    lazymatch goal with
    | |- respects _ _ (country_month_loop _ _ _) =>
        apply country_month_loop_stage
    | |- _ => close_staged
    end.
Qed.

Lemma create_inspections_stage :
  respects Inv (staged 4 4) create_inspections_and_relationships.
Proof.
  unfold create_inspections_and_relationships. unfold_methods.
  respects_all; close_staged.
Qed.

Lemma count_edges_stage tables total :
  respects Inv (staged 5 5) (count_edges tables total).
Proof.
  revert total. induction tables as [|t tables IH]; intros total;
    cbn [count_edges].
  - apply respects_ret.
  - unfold_methods. respects_all;
      lazymatch goal with
      | |- respects _ _ (count_edges _ _) => apply IH
      | |- _ => close_staged
      end.
Qed.

Lemma get_stats_stage : respects Inv (staged 5 5) get_stats.
Proof.
  unfold get_stats. unfold_methods.
  respects_all;
    lazymatch goal with
    | |- respects _ _ (count_edges _ _) => apply count_edges_stage
    | |- _ => close_staged
    end.
Qed.

Lemma create_projection_silent :
  (forall g s, Inv s -> Inv (set_graph g s)) ->
  respects Inv (fun e => stage_of e = None) create_projection.
Proof.
  intros Hg. unfold create_projection.
  respects_all; try reflexivity; try (intros; now apply Hg).
Qed.

Lemma close_stage : respects Inv (staged 6 6) close.
Proof.
  unfold close. unfold_methods. respects_all; close_staged.
Qed.

End MethodStages.

(** ** The connection through the pipeline *)

Section Connection.

Context `{World} `{Runtime}.

Import Analyzer.

Lemma holds_set_df c cur d s : holds c cur s -> holds c cur (set_df d s).
Proof. exact (fun Hs => Hs). Qed.

Lemma holds_set_graph c cur g s : holds c cur s -> holds c cur (set_graph g s).
Proof. exact (fun Hs => Hs). Qed.

Lemma probe_pgx_holds c cur :
  respects (holds c cur) (fun _ => True) probe_pgx.
Proof.
  unfold probe_pgx. respects_all; try exact I; try (intros; exact I).
  all: intros st Hst; exact Hst.
Qed.

(** A [connect] that returns has opened a connection and a cursor. *)
Lemma connect_connected (s : PestDataAnalyzer) (w : W) :
  outcome (connect s w) = inr tt -> connected (final (connect s w)).
Proof.
  rewrite connect_run. cbv zeta.
  pose proof (retry_loop_connected max_retries 1
                (mkDsn (oracle_host s) (oracle_port s) (oracle_service s)) s w
                eq_refl ltac:(unfold max_retries; lia)) as Hc.
  destruct (retry_loop _ _ s w) as [[e | []] s1 w1 t1]; simpl_res;
    cbn [outcome final] in Hc; [discriminate|].
  intros _. destruct (Hc eq_refl) as (c & cur & Hconn & Hcur).
  destruct (probe_pgx_holds c (mkCur c cur) s1 w1 (conj Hconn Hcur))
    as [[Hc1 Hc2] _].
  exists c, cur. split; assumption.
Qed.

(** The methods after [connect], one after the other as in [pipeline]. *)
Lemma after_connect_respects (Inv : PestDataAnalyzer -> Prop) :
  (forall d s, Inv s -> Inv (set_df d s)) ->
  (forall g s, Inv s -> Inv (set_graph g s)) ->
  respects Inv (staged 2 5)
    (load_data ;; clear_database ;; create_nodes ;;
     create_inspections_and_relationships ;; get_stats ;; create_projection ;;
     log INFO "Full analysis pipeline completed successfully" ;;
     log INFO "Graph data ready - use PGX Server for advanced analytics").
Proof.
  intros Hdf Hg.
  apply respects_bind; [|intros _].
  { eapply respects_weaken; [|apply load_data_stage; exact Hdf].
    intros e. apply staged_weaken; lia. }
  apply respects_bind; [|intros _].
  { eapply respects_weaken; [|apply clear_database_stage].
    intros e. apply staged_weaken; lia. }
  apply respects_bind; [|intros _].
  { eapply respects_weaken; [|apply create_nodes_stage].
    intros e. apply staged_weaken; lia. }
  apply respects_bind; [|intros _].
  { eapply respects_weaken; [|apply create_inspections_stage].
    intros e. apply staged_weaken; lia. }
  apply respects_bind; [|intros _].
  { eapply respects_weaken; [|apply get_stats_stage].
    intros e. apply staged_weaken; lia. }
  apply respects_bind; [|intros _].
  { eapply respects_weaken; [|apply create_projection_silent; exact Hg].
    intros e He. unfold staged. now rewrite He. }
  apply respects_bind; [|intros _]; apply respects_log; exact I.
Qed.

(** When [connect] returned, the pipeline ends, with a value or an
    exception, holding the connection and the cursor that [connect]
    opened. *)
Lemma pipeline_keeps_connection (s : PestDataAnalyzer) (w : W) :
  outcome (connect s w) = inr tt ->
  exists c cur,
    holds c (mkCur c cur) (final (connect s w)) /\
    holds c (mkCur c cur) (final (pipeline s w)).
Proof.
  intros Hok. destruct (connect_connected s w Hok) as (c & cur & Hconn & Hcur).
  exists c, cur. split; [now split|].
  unfold pipeline. unfold bind at 1.
  destruct (connect s w) as [[e | []] s1 w1 t1]; cbn [outcome final] in *;
    [discriminate|].
  destruct (after_connect_respects (holds c (mkCur c cur))
              (holds_set_df c _) (holds_set_graph c _) s1 w1 (conj Hconn Hcur))
    as [Hfin _].
  match goal with
  | |- holds _ _ (final match ?r with _ => _ end) => destruct r
  end.
  exact Hfin.
Qed.

End Connection.

(** ** C4: the stages of [run_full_analysis] *)

Section Pipeline.

Context `{World} `{Runtime}.

Import Analyzer.

Ltac run_close :=
  repeat (first
    [ ask_env
    | match goal with
      | |- context [match pgx_session ?s with _ => _ end] =>
          destruct (pgx_session s) eqn:?
      | |- context [match graph ?s with _ => _ end] =>
          destruct (graph s) eqn:?
      | |- context [match cursor ?s with _ => _ end] =>
          destruct (cursor s) eqn:?
      | |- context [match connection ?s with _ => _ end] =>
          destruct (connection s) eqn:?
      end ];
    simpl_res).

(** [close] catches whatever its calls raise. *)
Lemma close_returns (s : PestDataAnalyzer) (w : W) :
  outcome (close s w) = inr tt.
Proof.
  unfold close, cleanup. unfold_monad. run_close; reflexivity.
Qed.

(** [close] closes the connection that the analyzer holds. *)
Lemma close_closes (s : PestDataAnalyzer) (w : W) (c : Conn) :
  connection s = Some c ->
  exists o, In (Called (ConnClose c) o) (trace (close s w)).
Proof.
  intros Hc. unfold close, cleanup. unfold_monad. run_close.
  all: try congruence.
  all: try discriminate.
  all: injection Hc as <-.
  all: eexists; cbn [In]; repeat (first [left; reflexivity | right]).
Qed.

(** A run: the start line, the pipeline, the error line if the pipeline
    raised, then [close]; the outcome is that of the pipeline. *)
Lemma run_full_analysis_run (s : PestDataAnalyzer) (w : W) :
  let rp := pipeline s w in
  let rc := close (final rp) (world rp) in
  run_full_analysis s w
  = mkRes (outcome rp) (final rc) (world rc)
      (Logged INFO "Starting full pest data analysis pipeline"
         :: trace rp
         ++ match outcome rp with
            | inl e => [Logged ERROR ("Analysis pipeline failed: " ++ exn_msg e)]
            | inr _ => []
            end
         ++ trace rc)%list.
Proof.
  cbv zeta. unfold run_full_analysis. unfold_monad.
  destruct (pipeline s w) as [[e | []] s1 w1 t1]; simpl_res;
    pose proof (close_returns s1 w1) as Hc;
    destruct (close s1 w1) as [[e' | []] s2 w2 t2]; cbn [outcome] in Hc;
    try discriminate; simpl_res; rewrite <- ?app_assoc; reflexivity.
Qed.

Lemma pipeline_in_order : in_order 0 5 pipeline.
Proof.
  unfold pipeline.
  apply (in_order_bind 0 1 5); [lia | lia | apply connect_in_order | intros _].
  apply (in_order_bind 1 2 5); [lia | lia | | intros _].
  { apply (in_order_weaken 2 2); [lia | lia |].
    apply in_order_single, load_data_stage; auto. }
  apply (in_order_bind 2 3 5); [lia | lia | | intros _].
  { apply (in_order_weaken 3 3); [lia | lia |].
    apply in_order_single, clear_database_stage. }
  apply (in_order_bind 3 4 5); [lia | lia | | intros _].
  { apply (in_order_weaken 4 4); [lia | lia |].
    apply in_order_single, create_nodes_stage. }
  apply (in_order_bind 4 4 5); [lia | lia | | intros _].
  { apply in_order_single, create_inspections_stage. }
  apply (in_order_bind 4 5 5); [lia | lia | | intros _].
  { apply (in_order_weaken 5 5); [lia | lia |].
    apply in_order_single, get_stats_stage. }
  apply (in_order_bind 5 5 5); [lia | lia | | intros _].
  { apply in_order_silent; [lia | apply create_projection_silent; auto]. }
  apply in_order_silent; [lia|].
  unfold emits. respects_all; reflexivity.
Qed.

Lemma run_full_analysis_in_order : in_order 0 6 run_full_analysis.
Proof.
  unfold run_full_analysis.
  apply (in_order_bind 0 0 6); [lia | lia | | intros _].
  { apply in_order_silent; [lia|]. apply respects_log. reflexivity. }
  apply (in_order_try_finally 0 5 6); [lia | lia | |].
  - apply (in_order_try_except 0 5 5); [lia | lia | apply pipeline_in_order |].
    intros e k E. injection E as <-.
    apply in_order_silent; [lia|].
    unfold emits. respects_all; reflexivity.
  - apply (in_order_weaken 6 6); [lia | lia |].
    apply in_order_single, close_stage.
Qed.

(** A pipeline that completes has run its seven methods one after the other,
    each from the state and the world that the one before left. *)
Lemma pipeline_completes (s : PestDataAnalyzer) (w : W) :
  outcome (pipeline s w) = inr tt ->
  let r1 := connect s w in
  let r2 := load_data (final r1) (world r1) in
  let r3 := clear_database (final r2) (world r2) in
  let r4 := create_nodes (final r3) (world r3) in
  let r5 := create_inspections_and_relationships (final r4) (world r4) in
  let r6 := get_stats (final r5) (world r5) in
  let r7 := create_projection (final r6) (world r6) in
  (outcome r1 = inr tt /\ outcome r2 = inr tt /\ outcome r3 = inr tt /\
   outcome r4 = inr tt /\ outcome r5 = inr tt /\ outcome r6 = inr tt /\
   outcome r7 = inr tt) /\
  trace (pipeline s w)
  = (trace r1 ++ trace r2 ++ trace r3 ++ trace r4 ++ trace r5 ++ trace r6
       ++ trace r7
       ++ [Logged INFO "Full analysis pipeline completed successfully";
           Logged INFO "Graph data ready - use PGX Server for advanced analytics"])%list.
Proof.
  cbv zeta. unfold pipeline. intros Hok.
  destruct (bind_inr _ _ _ _ _ Hok) as ([] & H1 & Hok2 & ->). clear Hok.
  destruct (bind_inr _ _ _ _ _ Hok2) as ([] & H2 & Hok3 & ->). clear Hok2.
  destruct (bind_inr _ _ _ _ _ Hok3) as ([] & H3 & Hok4 & ->). clear Hok3.
  destruct (bind_inr _ _ _ _ _ Hok4) as ([] & H4 & Hok5 & ->). clear Hok4.
  destruct (bind_inr _ _ _ _ _ Hok5) as ([] & H5 & Hok6 & ->). clear Hok5.
  destruct (bind_inr _ _ _ _ _ Hok6) as ([] & H6 & Hok7 & ->). clear Hok6.
  destruct (bind_inr _ _ _ _ _ Hok7) as ([] & H7 & _ & ->). clear Hok7.
  split; [repeat split; assumption | reflexivity].
Qed.

(** C4, amended: the calls of a run of [run_full_analysis] go through the
    stages connect, probe of the PGX server, read CSV, truncate, insert,
    counting queries, close, never back to an earlier stage, and never to an
    export or to a call of another script.  A run is the start line, the
    pipeline, the error line if the pipeline raised, and then [close], which
    never raises; the outcome of the run is that of the pipeline.  If
    [connect] returned, [close] closes the connection it opened.  A pipeline
    that completes has run [connect], [load_data], [clear_database],
    [create_nodes], [create_inspections_and_relationships], [get_stats] and
    [create_projection] once each, in this order. *)
Theorem run_full_analysis_stages (s : PestDataAnalyzer) (w : W) :
  let r := run_full_analysis s w in
  let rp := pipeline s w in
  let rc := close (final rp) (world rp) in
  (ordered_from 0 (trace r) /\ Forall (staged 0 6) (trace r)) /\
  (trace r
   = (Logged INFO "Starting full pest data analysis pipeline"
        :: trace rp
        ++ match outcome rp with
           | inl e => [Logged ERROR ("Analysis pipeline failed: " ++ exn_msg e)]
           | inr _ => []
           end
        ++ trace rc)%list /\
   outcome r = outcome rp /\ outcome rc = inr tt) /\
  (outcome (connect s w) = inr tt ->
   exists c o,
     connection (final (connect s w)) = Some c /\
     In (Called (ConnClose c) o) (trace rc)) /\
  (outcome rp = inr tt ->
   let r1 := connect s w in
   let r2 := load_data (final r1) (world r1) in
   let r3 := clear_database (final r2) (world r2) in
   let r4 := create_nodes (final r3) (world r3) in
   let r5 := create_inspections_and_relationships (final r4) (world r4) in
   let r6 := get_stats (final r5) (world r5) in
   let r7 := create_projection (final r6) (world r6) in
   (outcome r1 = inr tt /\ outcome r2 = inr tt /\ outcome r3 = inr tt /\
    outcome r4 = inr tt /\ outcome r5 = inr tt /\ outcome r6 = inr tt /\
    outcome r7 = inr tt) /\
   trace rp
   = (trace r1 ++ trace r2 ++ trace r3 ++ trace r4 ++ trace r5 ++ trace r6
        ++ trace r7
        ++ [Logged INFO "Full analysis pipeline completed successfully";
            Logged INFO "Graph data ready - use PGX Server for advanced analytics"])%list).
Proof.
  cbv zeta. split; [apply run_full_analysis_in_order|].
  split.
  { rewrite run_full_analysis_run. cbv zeta. simpl_res.
    split; [reflexivity|]. split; [reflexivity | apply close_returns]. }
  split.
  - intros Hok.
    destruct (pipeline_keeps_connection s w Hok) as (c & cur & [Hc1 _] & [Hc2 _]).
    destruct (close_closes _ (world (pipeline s w)) c Hc2) as [o Ho].
    exists c, o. split; assumption.
  - apply pipeline_completes.
Qed.

End Pipeline.

Lemma run_full_analysis_stages_witness :
  let connect := Analyzer.connect (H := pipeline_world) (H0 := demo_runtime) in
  let load_data := Analyzer.load_data (H := pipeline_world) (H0 := demo_runtime) in
  let clear_database := Analyzer.clear_database (H := pipeline_world) in
  let create_nodes :=
    Analyzer.create_nodes (H := pipeline_world) (H0 := demo_runtime) in
  let create_inspections_and_relationships :=
    Analyzer.create_inspections_and_relationships
      (H := pipeline_world) (H0 := demo_runtime) in
  let get_stats := Analyzer.get_stats (H := pipeline_world) (H0 := demo_runtime) in
  let create_projection := Analyzer.create_projection (H := pipeline_world) in
  let rp := Analyzer.pipeline (H := pipeline_world) (H0 := demo_runtime)
              demo_analyzer 0%nat in
  let rc := Analyzer.close (H := pipeline_world) (final rp) (world rp) in
  (exists c o,
     Analyzer.connection (final (connect demo_analyzer 0%nat)) = Some c /\
     In (Called (ConnClose c) o) (trace rc)) /\
  (let r1 := connect demo_analyzer 0%nat in
   let r2 := load_data (final r1) (world r1) in
   let r3 := clear_database (final r2) (world r2) in
   let r4 := create_nodes (final r3) (world r3) in
   let r5 := create_inspections_and_relationships (final r4) (world r4) in
   let r6 := get_stats (final r5) (world r5) in
   let r7 := create_projection (final r6) (world r6) in
   (outcome r1 = inr tt /\ outcome r2 = inr tt /\ outcome r3 = inr tt /\
    outcome r4 = inr tt /\ outcome r5 = inr tt /\ outcome r6 = inr tt /\
    outcome r7 = inr tt) /\
   trace rp
   = (trace r1 ++ trace r2 ++ trace r3 ++ trace r4 ++ trace r5 ++ trace r6
        ++ trace r7
        ++ [Logged INFO "Full analysis pipeline completed successfully";
            Logged INFO "Graph data ready - use PGX Server for advanced analytics"])%list).
Proof.
  cbv zeta.
  destruct (run_full_analysis_stages (H := pipeline_world) (H0 := demo_runtime)
              demo_analyzer 0%nat) as (_ & _ & Hclose & Hall).
  split.
  - apply Hclose. vm_compute. reflexivity.
  - apply Hall. vm_compute. reflexivity.
Defined.

(** The claim as worded fails: a run that completes contacts the analytics
    server only while connecting, before the CSV is read, and writes no
    CSV. *)
Lemma run_full_analysis_skips_analytics_and_export :
  let r := Analyzer.run_full_analysis (H := pipeline_world) (H0 := demo_runtime)
             demo_analyzer 0%nat in
  outcome r = inr tt /\
  stages (trace r) = [Connect; Probe; ReadInput; Truncate; Insert; Stats; Close] /\
  ~ follows_claimed_order (trace r).
Proof.
  cbv zeta. split; [vm_compute; reflexivity|].
  split; [vm_compute; reflexivity|].
  unfold follows_claimed_order. vm_compute. discriminate.
Qed.

(** ** C10: [has_pest] agrees with [target_proxy] *)

Section HasPest.

Context `{World} `{Runtime}.

Import Analyzer.

Lemma inspection_params_consistent (cols : list string) (row ps : list Cell) :
  (forall c, row_get cols row "TARGET_PROXY" = inr c ->
             (exists z, c = CInt z) \/ (exists z, c = CFloat (inject_Z z)) \/
             c = CNaN) ->
  inspection_params cols row = inr ps ->
  exists tp hp,
    nth_error ps 3 = Some (CInt tp) /\
    nth_error ps 10 = Some (CInt hp) /\
    (hp = 1%Z <-> tp = 1%Z).
Proof.
  intros Hclean. unfold inspection_params, and_then, get_int, and_then.
  destruct (row_get cols row "ENTY_ID"); [discriminate|].
  destruct (row_get cols row "CTRY_CODE"); [discriminate|].
  destruct (row_get cols row "MONTH"); [discriminate|].
  destruct (row_get cols row "TARGET_PROXY") as [e | tpc]; [discriminate|].
  destruct (Hclean tpc eq_refl) as [[z ->] | [[z ->] | ->]]; cbn [int_cell];
    [| |discriminate].
  all: repeat match goal with
    | |- match match ?x with _ => _ end with _ => _ end = _ -> _ => destruct x
    | |- match ?x with _ => _ end = _ -> _ => destruct x
    end; try discriminate.
  all: intros E; injection E as <-; cbn [nth_error eq_int];
    rewrite ?trunc_inject_Z, ?(Qeq_bool_inject z 1);
    exists z, (if (z =? 1)%Z then 1%Z else 0%Z);
    (split; [reflexivity|]); (split; [reflexivity|]);
    destruct (Z.eqb_spec z 1); split; intros; try lia; congruence.
Qed.

(** The frame that [the_df] hands on is the frame of a state that satisfies
    the invariant. *)
Lemma respects_bind_the_df {B} (I : PestDataAnalyzer -> Prop)
    (P : Event -> Prop) (f : DataFrame -> Run B) :
  (forall d, (exists s, I s /\ df s = Some d) -> respects I P (f d)) ->
  respects I P (bind the_df f).
Proof.
  intros Hf s w Hs. unfold the_df. unfold_monad.
  destruct (df s) as [d|] eqn:Hd; simpl_res.
  - destruct (Hf d (ex_intro _ s (conj Hs Hd)) s w Hs) as [H1 H2].
    destruct (f d s w) as [o s2 w2 t2]; cbn in *. now split.
  - split; [exact Hs | constructor].
Qed.

Ltac respects_df :=
  repeat first
    [ lazymatch goal with
      | |- respects _ _ (bind the_df _) =>
          apply respects_bind_the_df; intros ? ?
      end
    | respects_step ].

Ltac close_consistent :=
  try exact I;
  try (intros; exact I);
  try (intros ? Hclean; intros d Hd; cbn in Hd; now apply Hclean);
  try (cbn; intros Esql; discriminate Esql).

Ltac unfold_methods :=
  unfold count_of, for_distinct, insert_inspection;
  unfold execute; unfold the_cursor, the_connection.

Lemma create_inspections_consistent :
  respects tp_clean pest_consistent create_inspections_and_relationships.
Proof.
  unfold create_inspections_and_relationships. unfold_methods.
  respects_df; close_consistent.
  cbn. intros _.
  eapply inspection_params_consistent; [|eassumption].
  intros c Hc.
  match goal with
  | Hx : exists s, tp_clean s /\ df s = Some ?d, Hin : In _ (values ?d) |- _ =>
      destruct Hx as (s0 & Hs & Hd); eapply (Hs d Hd); eauto
  end.
Qed.

Lemma staged_consistent (lo hi : nat) (e : Event) :
  (hi < 4 \/ 4 < lo)%nat -> staged lo hi e -> pest_consistent e.
Proof.
  intros Hk. destruct e as [[] o | |]; try exact (fun _ => I).
  unfold staged. cbn [pest_consistent]. intros Hst ->.
  cbv in Hst. lia.
Qed.

Lemma node_statement_consistent (e : Event) :
  parameterized node_statements e -> pest_consistent e.
Proof.
  destruct e as [[] o | |]; try exact (fun _ => I).
  cbn [parameterized pest_consistent]. intros [Hin _] ->.
  cbn in Hin. repeat (destruct Hin as [Hin | Hin]; [discriminate Hin|]).
  contradiction.
Qed.

Lemma tp_clean_set_graph g s : tp_clean s -> tp_clean (set_graph g s).
Proof. exact (fun Hs => Hs). Qed.

Lemma Forall2_in_right {A B} (R : A -> B -> Prop) (l : list A) (l' : list B)
    (y : B) :
  Forall2 R l l' -> In y l' -> exists x, In x l /\ R x y.
Proof.
  induction 1 as [|x y' l l' Hxy Hrest IH]; intros Hin; [contradiction|].
  destruct Hin as [<- | Hin].
  - exists x. split; [now left | exact Hxy].
  - destruct (IH Hin) as (x' & Hx' & HR). exists x'. split; [now right | exact HR].
Qed.

(** The frame that [load_data] leaves has integers in TARGET_PROXY. *)
Lemma load_data_tp_clean (s : PestDataAnalyzer) (w : W) :
  outcome (load_data s w) = inr tt -> tp_clean (final (load_data s w)).
Proof.
  intros Hok.
  destruct (load_data_computes s w Hok)
    as (raw & w1 & hdr & d & _ & _ & Ec & Hd).
  destruct (convert_columns_rows _ _ _ numeric_columns_NoDup Ec) as [Hcols Hrows].
  assert (Hraw : columns (if hdr then drop_first_row raw else raw) = columns raw)
    by (destruct hdr; reflexivity).
  rewrite Hraw in Hcols, Hrows.
  intros d' Hd'. rewrite Hd in Hd'. injection Hd' as <-.
  intros v c Hv Hget.
  destruct (In_values d v Hv) as (r' & Hin & Hread).
  destruct (Forall2_in_right _ _ _ _ Hrows Hin) as (r & _ & [Hlen Hcells]).
  unfold row_get in Hget. rewrite Hcols in Hget.
  destruct (col_index "TARGET_PROXY" (columns raw)) as [j|] eqn:Hj;
    [|discriminate].
  injection Hget as <-.
  assert (Hraw' : (exists z, nth j r' CNaN = CInt z) \/ nth j r' CNaN = CNaN).
  { destruct (Nat.lt_ge_cases j (List.length r)) as [Hlt | Hge].
    - destruct (Hcells "TARGET_PROXY" j Hj Hlt) as [Hnum _].
      destruct Hnum as (z & Hz & _); [cbn; tauto|]. left. now exists z.
    - right. apply nth_overflow. lia. }
  destruct Hread as [-> | ->].
  - destruct Hraw' as [[z Hz] | Hn]; [left; now exists z | right; now right].
  - rewrite nth_as_float64.
    destruct Hraw' as [[z ->] | ->]; cbn [as_float64].
    + right. left. now exists (round_float64 z).
    + right. now right.
Qed.

(** The methods that follow [load_data] in the pipeline. *)
Lemma after_load_consistent :
  respects tp_clean pest_consistent
    (clear_database ;; create_nodes ;;
     create_inspections_and_relationships ;; get_stats ;; create_projection ;;
     log INFO "Full analysis pipeline completed successfully" ;;
     log INFO "Graph data ready - use PGX Server for advanced analytics").
Proof.
  apply respects_bind; [|intros _].
  { eapply respects_weaken; [|apply clear_database_stage].
    intros e. apply staged_consistent. lia. }
  apply respects_bind; [|intros _].
  { eapply respects_weaken; [|apply create_nodes_parameterized].
    apply node_statement_consistent. }
  apply respects_bind; [|intros _].
  { apply create_inspections_consistent. }
  apply respects_bind; [|intros _].
  { eapply respects_weaken; [|apply get_stats_stage].
    intros e. apply staged_consistent. lia. }
  apply respects_bind; [|intros _].
  { eapply respects_weaken;
      [|apply create_projection_silent; apply tp_clean_set_graph].
    intros e He. destruct e as [[] o | |]; try exact I; cbn in He;
      try discriminate.
    destruct (is_delete_sql sql); [discriminate|].
    destruct (is_insert_sql sql); discriminate. }
  apply respects_bind; [|intros _]; apply respects_log; exact I.
Qed.

Lemma pipeline_consistent (s : PestDataAnalyzer) (w : W) :
  Forall pest_consistent (trace (pipeline s w)).
Proof.
  unfold pipeline. apply Forall_bind_trace.
  - destruct (connect_in_order s w) as [_ Hst].
    eapply Forall_impl; [|exact Hst].
    intros e. apply staged_consistent. lia.
  - intros _ _. apply Forall_bind_trace.
    + destruct (load_data_stage (fun _ => True) (fun _ _ _ => I)
                  (final (connect s w)) (world (connect s w)) I) as [_ Hst].
      eapply Forall_impl; [|exact Hst].
      intros e. apply staged_consistent. lia.
    + intros [] Hok. apply after_load_consistent.
      now apply load_data_tp_clean.
Qed.


End HasPest.


(** ** C3: the tables are truncated before anything is inserted *)

Section TruncateFirst.

Context `{World} `{Runtime}.

Import Analyzer.

Lemma delete_not_insert (sql : string) :
  is_delete_sql sql = true -> is_insert_sql sql = false.
Proof.
  unfold is_delete_sql, is_insert_sql.
  destruct (lstrip sql) as [|c rest]; [discriminate|].
  cbn [prefix]. destruct (ascii_dec "D" c) as [<- | Hne]; [|discriminate].
  intros _. reflexivity.
Qed.

Lemma staged_quiet (lo hi : nat) (e : Event) :
  (hi < 4 \/ (4 < lo /\ hi < 8))%nat -> staged lo hi e -> inserts e = false.
Proof.
  intros Hk. destruct e as [[] o | |]; try reflexivity; unfold staged, inserts;
    cbn [stage_of sql_of rank].
  - destruct (is_delete_sql sql) eqn:Ed.
    + intros _. now apply delete_not_insert.
    + destruct (is_insert_sql sql); [cbn [rank]; lia | reflexivity].
  - lia.
Qed.

Lemma Forall_quiet (lo hi : nat) (tr : list Event) :
  (hi < 4 \/ (4 < lo /\ hi < 8))%nat ->
  Forall (staged lo hi) tr -> Forall (fun e => inserts e = false) tr.
Proof.
  intros Hk. apply Forall_impl. intros e. now apply staged_quiet.
Qed.

(** An insert in a trace that starts with events that insert nothing lies
    behind these events. *)
Lemma split_after_quiet (a b tr1 : list Event) (e : Event) (tr2 : list Event) :
  (a ++ b = tr1 ++ e :: tr2)%list ->
  Forall (fun x => inserts x = false) a ->
  inserts e = true ->
  exists r1, tr1 = (a ++ r1)%list /\ b = (r1 ++ e :: tr2)%list.
Proof.
  revert tr1. induction a as [|x a IH]; intros tr1 Heq Hq He.
  - exists tr1. split; [reflexivity | exact Heq].
  - inversion Hq as [|? ? Hx Ha]; subst.
    destruct tr1 as [|y tr1]; cbn in Heq; injection Heq as Hxy Heq.
    + subst. congruence.
    + subst y. destruct (IH tr1 Heq Ha He) as (r1 & -> & ->).
      exists r1. split; reflexivity.
Qed.

Lemma quiet_has_no_insert (tr tr1 : list Event) (e : Event) (tr2 : list Event) :
  Forall (fun x => inserts x = false) tr ->
  tr = (tr1 ++ e :: tr2)%list -> inserts e = true -> False.
Proof.
  intros Hq -> He. apply Forall_app in Hq as [_ Hq].
  inversion Hq; subst. congruence.
Qed.

(** The loop of [clear_database] on a state that holds a cursor: every table
    gets its DELETE, whatever the DELETEs before it did, and the loop
    returns. *)
Lemma clear_loop_run (cur : Cur) (ts : list string)
    (s : PestDataAnalyzer) (w : W) :
  cursor s = Some cur ->
  exists os w',
    List.length os = List.length ts /\
    for_each ts (fun table =>
      try_except
        (cur <- the_cursor ;;
         call (CurExecute cur ("DELETE FROM " ++ table) []) ;;
         log DEBUG ("Cleared table: " ++ table))
        (fun e => Some (log DEBUG ("Could not clear " ++ table ++ ": "
                                     ++ take_str 100 (exn_msg e))))) s w
    = mkRes (inr tt) s w' (delete_steps cur ts os).
Proof.
  intros Hcur.
  set (body := fun table : string => try_except _ _).
  revert w. induction ts as [|t ts IH]; intros w.
  - exists [], w. split; reflexivity.
  - cbn [for_each]. unfold bind at 1. unfold body at 1.
    unfold the_cursor. unfold_monad. rewrite Hcur. simpl_res.
    destruct (env (CurExecute cur ("DELETE FROM " ++ t) []) w)
      as [[e | []] w1]; simpl_res.
    + destruct (IH w1) as (os & w' & Hlen & ->).
      exists (Some e :: os), w'. split; [cbn; lia | reflexivity].
    + destruct (IH w1) as (os & w' & Hlen & ->).
      exists (None :: os), w'. split; [cbn; lia | reflexivity].
Qed.

(** [clear_database] on a state that holds a connection and a cursor. *)
Lemma clear_database_run (c : Conn) (cur : Cur)
    (s : PestDataAnalyzer) (w : W) :
  holds c cur s ->
  exists os oc w',
    List.length os = 10%nat /\
    clear_database s w
    = mkRes (match oc with None => inr tt | Some e => inl e end) s w'
        (Logged WARNING "Clearing all graph data from database..."
           :: delete_steps cur tables os
           ++ Called (ConnCommit c) oc
           :: match oc with
              | None => [Logged INFO "Database cleared"]
              | Some _ => []
              end)%list.
Proof.
  intros [Hconn Hcur]. unfold clear_database.
  destruct (clear_loop_run cur tables s w Hcur) as (os & w' & Hlen & Hloop).
  revert Hloop. set (loop := for_each tables _). intros Hloop.
  unfold the_connection. unfold_monad. rewrite Hloop, Hconn. simpl_res.
  destruct (env (ConnCommit c) w') as [[e | []] w2]; simpl_res.
  - exists os, (Some e), w2. split; [exact Hlen|].
    reflexivity.
  - exists os, None, w2. split; [exact Hlen|].
    rewrite <- ?app_assoc. reflexivity.
Qed.

Lemma delete_steps_quiet (cur : Cur) (ts : list string) (os : list (option exn)) :
  Forall (fun e => inserts e = false) (delete_steps cur ts os).
Proof.
  unfold delete_steps. revert os.
  induction ts as [|t ts IH]; intros [|o os]; cbn [combine flat_map].
  - constructor.
  - constructor.
  - constructor.
  - cbn [delete_step app]. constructor; [reflexivity|].
    constructor; [reflexivity | apply IH].
Qed.

Lemma clear_run_quiet (cur : Cur) (c : Conn) (os : list (option exn)) :
  Forall (fun e => inserts e = false) (clear_run cur c os).
Proof.
  unfold clear_run. constructor; [reflexivity|].
  apply Forall_app. split; [apply delete_steps_quiet|].
  repeat constructor.
Qed.

(** The events of the pipeline either insert nothing, or they contain a
    completed truncation with nothing inserted before it. *)
Lemma pipeline_truncates_first (s : PestDataAnalyzer) (w : W) :
  Forall (fun e => inserts e = false) (trace (pipeline s w)) \/
  exists pre c cur os rest,
    List.length os = 10%nat /\
    trace (pipeline s w) = (pre ++ clear_run cur c os ++ rest)%list /\
    Forall (fun e => inserts e = false) pre.
Proof.
  unfold pipeline. rewrite bind_trace.
  assert (Q1 : Forall (fun e => inserts e = false) (trace (connect s w))).
  { destruct (connect_in_order s w) as [_ Hst].
    eapply Forall_quiet; [|exact Hst]. lia. }
  destruct (outcome (connect s w)) as [e1 | []] eqn:E1.
  { left. rewrite app_nil_r. exact Q1. }
  destruct (connect_connected s w E1) as (c & cn & Hconn & Hcur).
  set (s1 := final (connect s w)) in *. set (w1 := world (connect s w)) in *.
  rewrite bind_trace.
  destruct (load_data_stage (holds c (mkCur c cn)) (holds_set_df c _)
              s1 w1 (conj Hconn Hcur)) as [Hholds Hst2].
  assert (Q2 : Forall (fun e => inserts e = false) (trace (load_data s1 w1))).
  { eapply Forall_quiet; [|exact Hst2]. lia. }
  destruct (outcome (load_data s1 w1)) as [e2 | []] eqn:E2.
  { left. rewrite app_nil_r. apply Forall_app. now split. }
  set (s2 := final (load_data s1 w1)) in *.
  set (w2 := world (load_data s1 w1)) in *.
  rewrite bind_trace.
  destruct (clear_database_run c (mkCur c cn) s2 w2 Hholds)
    as (os & oc & w3 & Hlen & Hclear).
  rewrite Hclear. simpl_res. destruct oc as [e3|].
  - left. rewrite app_nil_r.
    apply Forall_app. split; [exact Q1|].
    apply Forall_app. split; [exact Q2|].
    constructor; [reflexivity|].
    apply Forall_app. split; [apply delete_steps_quiet | repeat constructor].
  - right.
    match goal with
    | |- context [trace ?r] =>
        lazymatch r with
        | context [create_nodes] =>
            exists (trace (connect s w) ++ trace (load_data s1 w1))%list,
                   c, (mkCur c cn), os, (trace r)
        end
    end.
    split; [exact Hlen|]. split.
    + unfold clear_run. rewrite <- !app_assoc. cbn [app].
      rewrite <- !app_assoc. reflexivity.
    + apply Forall_app. now split.
Qed.

(** C3, amended: on a state that holds a connection and a cursor,
    [clear_database] attempts a DELETE on each of the ten tables, the four
    edge tables and [inspections] first and the vertex tables after them,
    going on to the next table when a DELETE raises (the table then keeps
    its rows), and then commits.  In every run of [run_full_analysis], an
    INSERT is preceded by such a round of ten attempts that ran to its end,
    commit included, with no INSERT before it. *)
Theorem truncate_before_insert (s : PestDataAnalyzer) (w : W) :
  tables = [ "has_inspection_result_edges"; "has_weather_edges";
             "is_from_edges"; "shipped_in_edges"; "inspections";
             "country_months"; "target_proxies"; "months"; "countries";
             "entities" ] /\
  (forall c cur s' w',
     holds c cur s' ->
     exists os oc,
       List.length os = 10%nat /\
       trace (clear_database s' w')
       = (Logged WARNING "Clearing all graph data from database..."
            :: delete_steps cur tables os
            ++ Called (ConnCommit c) oc
            :: match oc with
               | None => [Logged INFO "Database cleared"]
               | Some _ => []
               end)%list /\
       outcome (clear_database s' w')
       = match oc with None => inr tt | Some e => inl e end) /\
  (forall tr1 e tr2,
     trace (run_full_analysis s w) = (tr1 ++ e :: tr2)%list ->
     inserts e = true ->
     exists pre c cur os mid,
       List.length os = 10%nat /\
       tr1 = (pre ++ clear_run cur c os ++ mid)%list /\
       Forall (fun x => inserts x = false) pre).
Proof.
  split; [reflexivity|]. split.
  - intros c cur s' w' Hh.
    destruct (clear_database_run c cur s' w' Hh) as (os & oc & w2 & Hlen & ->).
    exists os, oc. repeat split. exact Hlen.
  - intros tr1 e tr2 Heq He.
    rewrite run_full_analysis_run in Heq. cbv zeta in Heq.
    cbn [trace] in Heq.
    assert (Qtail : Forall (fun x => inserts x = false)
              (match outcome (pipeline s w) with
               | inl e0 => [Logged ERROR ("Analysis pipeline failed: " ++ exn_msg e0)]
               | inr _ => []
               end
               ++ trace (close (final (pipeline s w)) (world (pipeline s w))))%list).
    { apply Forall_app. split.
      - destruct (outcome (pipeline s w)); repeat constructor.
      - destruct (close_stage (fun _ => True)
                    (final (pipeline s w)) (world (pipeline s w)) I) as [_ Hst].
        eapply Forall_quiet; [|exact Hst]. lia. }
    destruct (pipeline_truncates_first s w)
      as [Hq | (pre & c & cur & os & rest & Hlen & Hp & Hpre)].
    + exfalso. eapply quiet_has_no_insert; [|exact Heq|exact He].
      constructor; [reflexivity|]. apply Forall_app. now split.
    + rewrite Hp in Heq.
      assert (Heq' :
        ((Logged INFO "Starting full pest data analysis pipeline" :: pre
            ++ clear_run cur c os)
         ++ (rest ++ match outcome (pipeline s w) with
                     | inl e0 => [Logged ERROR ("Analysis pipeline failed: "
                                                  ++ exn_msg e0)]
                     | inr _ => []
                     end
               ++ trace (close (final (pipeline s w)) (world (pipeline s w)))))%list
        = (tr1 ++ e :: tr2)%list).
      { rewrite <- Heq. cbn [app]. rewrite <- !app_assoc. reflexivity. }
      apply split_after_quiet in Heq'; [|
        constructor; [reflexivity|]; apply Forall_app; split;
          [exact Hpre | apply clear_run_quiet] | exact He].
      destruct Heq' as (r1 & -> & _).
      exists (Logged INFO "Starting full pest data analysis pipeline" :: pre),
        c, cur, os, r1.
      split; [exact Hlen|]. split.
      * cbn [app]. rewrite <- !app_assoc. reflexivity.
      * constructor; [reflexivity | exact Hpre].
Qed.

End TruncateFirst.

Lemma truncate_before_insert_witness :
  let run := trace (Analyzer.run_full_analysis
                      (H := locked_world) (H0 := demo_runtime)
                      demo_analyzer 0%nat) in
  let connected_analyzer :=
    Analyzer.set_cursor (Some (mkCur 1%nat 0%nat))
      (Analyzer.set_connection (Some 1%nat) demo_analyzer) in
  (exists os oc,
     List.length os = 10%nat /\
     trace (Analyzer.clear_database (H := locked_world) connected_analyzer 0%nat)
     = (Logged WARNING "Clearing all graph data from database..."
          :: delete_steps (mkCur 1%nat 0%nat) Analyzer.tables os
          ++ Called (ConnCommit 1%nat) oc
          :: match oc with
             | None => [Logged INFO "Database cleared"]
             | Some _ => []
             end)%list /\
     outcome (Analyzer.clear_database (H := locked_world) connected_analyzer 0%nat)
     = match oc with None => inr tt | Some e => inl e end) /\
  (exists pre c cur os mid,
     List.length os = 10%nat /\
     firstn 42 run = (pre ++ clear_run cur c os ++ mid)%list /\
     Forall (fun x => inserts x = false) pre).
Proof.
  cbv zeta.
  destruct (truncate_before_insert (H := locked_world) (H0 := demo_runtime)
              demo_analyzer 0%nat) as (_ & Hclear & Hrun).
  split.
  - apply Hclear. split; reflexivity.
  - apply (Hrun _ (nth 42 (trace (Analyzer.run_full_analysis
                                    (H := locked_world) (H0 := demo_runtime)
                                    demo_analyzer 0%nat)) (Printed ""))
             (skipn 43 (trace (Analyzer.run_full_analysis
                                 (H := locked_world) (H0 := demo_runtime)
                                 demo_analyzer 0%nat)))).
    + vm_compute. reflexivity.
    + vm_compute. reflexivity.
Defined.

(** The claim as worded fails: in a run in which the DELETE on [months]
    raises, the run goes on and inserts rows although [months] has not been
    emptied. *)
Lemma inserts_after_failed_delete :
  ~ loads_into_empty_tables
      (trace (Analyzer.run_full_analysis
                (H := locked_world) (H0 := demo_runtime) demo_analyzer 0%nat)).
Proof.
  intros Hclaim.
  set (run := trace (Analyzer.run_full_analysis
                       (H := locked_world) (H0 := demo_runtime)
                       demo_analyzer 0%nat)) in Hclaim.
  specialize (Hclaim (firstn 42 run) (nth 42 run (Printed "")) (skipn 43 run)).
  assert (Hsplit : run = (firstn 42 run ++ nth 42 run (Printed "") :: skipn 43 run)%list)
    by (vm_compute; reflexivity).
  assert (Hins : inserts (nth 42 run (Printed "")) = true)
    by (vm_compute; reflexivity).
  specialize (Hclaim Hsplit Hins "months").
  assert (Hin : In "months" Analyzer.tables)
    by (cbn; repeat (first [left; reflexivity | right])).
  specialize (Hclaim Hin). vm_compute in Hclaim. discriminate Hclaim.
Qed.

(** ** [cleanup] and [close] *)

Section Closing.

Context `{World} `{Runtime}.

Import Analyzer.

Ltac run_handles :=
  repeat (first
    [ ask_env
    | match goal with
      | |- context [match pgx_session ?s with _ => _ end] =>
          destruct (pgx_session s) eqn:?
      | |- context [match graph ?s with _ => _ end] =>
          destruct (graph s) eqn:?
      | |- context [match cursor ?s with _ => _ end] =>
          destruct (cursor s) eqn:?
      | |- context [match connection ?s with _ => _ end] =>
          destruct (connection s) eqn:?
      end ];
    simpl_res).

(** X1: [close] never raises and leaves the fields of the analyzer as they
    are; whatever the single close calls do, it tries them all: the graph
    and the session if a session is set, then the cursor, then the
    connection, each once and in this order. *)
Theorem close_tries_every_handle (s : PestDataAnalyzer) (w : W) :
  outcome (close s w) = inr tt /\
  final (close s w) = s /\
  calls_of (trace (close s w)) = closing_plan s.
Proof.
  unfold close, cleanup, closing_plan. unfold_monad.
  run_handles; repeat split; reflexivity.
Qed.

(** X2: [cleanup] never raises, changes no field, destroys the graph exactly
    when one is set, and frames whatever happens between its two INFO
    lines. *)
Theorem cleanup_never_raises (s : PestDataAnalyzer) (w : W) :
  outcome (cleanup s w) = inr tt /\
  final (cleanup s w) = s /\
  calls_of (trace (cleanup s w))
  = match graph s with Some g => [PgxGraphDestroy g] | None => [] end /\
  exists mid,
    trace (cleanup s w)
    = (Logged INFO "Cleaning up resources..." :: mid
         ++ [Logged INFO "Resource cleanup completed"])%list /\
    List.length mid = match graph s with Some _ => 2%nat | None => 0%nat end.
Proof.
  unfold cleanup. unfold_monad.
  destruct (graph s) as [g|] eqn:Eg; simpl_res.
  - destruct (env (PgxGraphDestroy g) w) as [[e | []] w1]; simpl_res;
      (repeat split; try reflexivity);
      eexists [_; _]; split; reflexivity.
  - repeat split; try reflexivity.
    exists []. split; reflexivity.
Qed.

End Closing.

(** ** The PGX handles are never set *)

Section NoSession.

Context `{World} `{Runtime}.

Import Analyzer.

(** [connect] for an invariant that the assignments of [connect] keep. *)
Lemma connect_respects (Inv : PestDataAnalyzer -> Prop) :
  (forall c s, Inv s -> Inv (set_connection c s)) ->
  (forall c s, Inv s -> Inv (set_cursor c s)) ->
  (forall s, Inv s -> Inv (clear_pgx s)) ->
  respects Inv (staged 0 1) connect.
Proof.
  intros Hconn Hcur Hpgx. unfold connect.
  apply respects_bind_get. intros self _.
  apply respects_bind; [apply respects_log; exact I | intros _].
  cbv zeta. apply respects_bind; [|intros _].
  - generalize (mkDsn (oracle_host self) (oracle_port self) (oracle_service self)).
    intros dsn. generalize (seq 1 max_retries). intros attempts.
    induction attempts as [|attempt rest IH]; cbn [retry_loop].
    + apply respects_ret.
    + unfold attempt_body, attempt_handler.
      respects_all;
        lazymatch goal with
        | |- respects _ _ (retry_loop _ _) => apply IH
        | |- forall _, _ -> _ => first [apply Hconn | apply Hcur]
        | |- _ => try exact I; try (unfold staged; cbn; lia)
        end.
  - unfold probe_pgx.
    respects_all;
      lazymatch goal with
      | |- forall _, _ -> _ => apply Hpgx
      | |- _ => try exact I; try (unfold staged; cbn; lia)
      end.
Qed.

Lemma staged_not_pgx (lo hi : nat) (e : Event) :
  (hi < 6)%nat -> staged lo hi e -> is_pgx_call e = false.
Proof.
  intros Hhi. destruct e as [[] o | |]; try reflexivity;
    unfold staged; cbn [stage_of rank]; lia.
Qed.

Lemma close_without_session :
  respects no_session (fun e => is_pgx_call e = false) close.
Proof.
  unfold close. apply respects_bind_get. intros s0 Hs0.
  unfold no_session in Hs0. rewrite Hs0.
  respects_all; try reflexivity.
Qed.

Lemma pipeline_without_session :
  respects no_session (fun e => is_pgx_call e = false) pipeline.
Proof.
  unfold pipeline. apply respects_bind; [|intros _].
  - eapply respects_weaken;
      [|apply (connect_respects no_session); intros;
         first [assumption | reflexivity]].
    intros e. apply staged_not_pgx. lia.
  - eapply respects_weaken;
      [|apply (after_connect_respects no_session); intros; assumption].
    intros e. apply staged_not_pgx. lia.
Qed.

(** X3: an analyzer without a PGX session, as [__init__] builds it, never
    gets one: [run_full_analysis] ends without a session, and it calls
    neither [graph.destroy()] nor [pgx_session.close()], so that the session
    branch of [close], and with it [cleanup], is never entered. *)
Theorem run_full_analysis_never_has_session (s : PestDataAnalyzer) (w : W) :
  pgx_session s = None ->
  pgx_session (final (run_full_analysis s w)) = None /\
  Forall (fun e => is_pgx_call e = false) (trace (run_full_analysis s w)).
Proof.
  intros Hs.
  assert (Hr : respects no_session (fun e => is_pgx_call e = false)
                 run_full_analysis).
  { unfold run_full_analysis.
    apply respects_bind; [apply respects_log; reflexivity | intros _].
    apply respects_try_finally; [|apply close_without_session].
    apply respects_try_except; [apply pipeline_without_session|].
    intros e k E. injection E as <-.
    respects_all; reflexivity. }
  exact (Hr s w Hs).
Qed.

End NoSession.

Lemma run_full_analysis_never_has_session_witness :
  Analyzer.pgx_session
    (final (Analyzer.run_full_analysis (H := pipeline_world) (H0 := demo_runtime)
              demo_analyzer 0%nat)) = None /\
  Forall (fun e => is_pgx_call e = false)
    (trace (Analyzer.run_full_analysis (H := pipeline_world) (H0 := demo_runtime)
              demo_analyzer 0%nat)).
Proof.
  apply (run_full_analysis_never_has_session
           (H := pipeline_world) (H0 := demo_runtime)).
  reflexivity.
Defined.

(** ** [main] of the analyzer application *)

Section Main.

Context `{World} `{Runtime}.

Import Analyzer.

Ltac run_handles :=
  repeat (first
    [ ask_env
    | match goal with
      | |- context [match pgx_session ?s with _ => _ end] =>
          destruct (pgx_session s) eqn:?
      | |- context [match graph ?s with _ => _ end] =>
          destruct (graph s) eqn:?
      | |- context [match cursor ?s with _ => _ end] =>
          destruct (cursor s) eqn:?
      | |- context [match connection ?s with _ => _ end] =>
          destruct (connection s) eqn:?
      end ];
    simpl_res).

Lemma close_final (s : PestDataAnalyzer) (w : W) : final (close s w) = s.
Proof.
  unfold close, cleanup. unfold_monad. run_handles; reflexivity.
Qed.

Lemma close_conn_closes (s : PestDataAnalyzer) (w : W) :
  conn_closes (trace (close s w))
  = match connection s with Some c => [c] | None => [] end.
Proof.
  unfold close, cleanup. unfold_monad. run_handles; reflexivity.
Qed.

Lemma conn_closes_app (a b : list Event) :
  conn_closes (a ++ b) = (conn_closes a ++ conn_closes b)%list.
Proof. apply flat_map_app. Qed.

Lemma conn_closes_cons (e : Event) (tr : list Event) :
  conn_closes (e :: tr) = (conn_closes [e] ++ conn_closes tr)%list.
Proof. exact (conn_closes_app [e] tr). Qed.

Lemma staged_no_conn_close (lo hi : nat) (tr : list Event) :
  (hi < 6)%nat -> Forall (staged lo hi) tr -> conn_closes tr = [].
Proof.
  intros Hhi. induction 1 as [|e tr He Htr IH]; [reflexivity|].
  rewrite conn_closes_cons, IH, app_nil_r.
  destruct e as [[] o | |]; try reflexivity.
  unfold staged in He. cbn [stage_of rank] in He. lia.
Qed.

(** The analyzer that [main] builds from the process environment, once the
    port is read and the log file is open. *)
Lemma main_run (environ : string -> option string)
    (analyzer0 : option PestDataAnalyzer) (w : W) :
  match int_cell (CStr (getenv environ "ORACLE_PORT" "1521")) with
  | inl e => main environ analyzer0 w = mkRes (inl e) analyzer0 w []
  | inr port =>
      match env (OpenLogFile "/app/pest_analysis.log") w with
      | (inl e, w0) =>
          main environ analyzer0 w
          = mkRes (inl e) analyzer0 w0
              [Called (OpenLogFile "/app/pest_analysis.log") (Some e)]
      | (inr _, w0) =>
          let analyzer :=
            init (getenv environ "CSV_FILE_PATH" "/app/data/pest_data.csv")
                 (getenv environ "ORACLE_HOST" "oracle-db") port
                 (getenv environ "ORACLE_SERVICE" "GRAPHDB")
                 (getenv environ "ORACLE_USER" "graphuser")
                 (getenv environ "ORACLE_PASSWORD" "GraphPassword123")
                 (Some (getenv environ "PGX_BASE_URL" "http://oracle-db:7007")) in
          let r := run_full_analysis analyzer w0 in
          let rc := close (final r) (world r) in
          main environ analyzer0 w
          = mkRes (outcome r) (Some (final r)) (world rc)
              (Called (OpenLogFile "/app/pest_analysis.log") None
                 :: Logged INFO "Starting pest analysis application with Oracle Graph PGX"
                 :: trace r
                 ++ match outcome r with
                    | inr _ => Logged INFO "Analysis completed successfully"
                    | inl e => Logged ERROR ("Application failed: " ++ exn_msg e)
                    end
                 :: trace rc
                 ++ [Logged INFO "Application shutdown complete"])%list
      end
  end.
Proof.
  unfold main.
  destruct (int_cell (CStr (getenv environ "ORACLE_PORT" "1521")))
    as [e | port]; [reflexivity|].
  cbv zeta. unfold on_analyzer. unfold_monad. simpl_res.
  destruct (env (OpenLogFile "/app/pest_analysis.log") w) as [[e | []] w0];
    simpl_res; [reflexivity|].
  match goal with
  | |- context [run_full_analysis ?a w0] =>
      destruct (run_full_analysis a w0) as [[e | []] s1 w1 t1]
  end; simpl_res;
    pose proof (close_returns s1 w1) as Hc;
    pose proof (close_final s1 w1) as Hf;
    destruct (close s1 w1) as [[e' | []] s2 w2 t2];
    cbn [outcome final] in Hc, Hf; try discriminate; subst s2; simpl_res;
    rewrite <- ?app_assoc; reflexivity.
Qed.

(** X4: [main] reads the port before anything else: when it is no integer,
    [main] raises at once, with no log line and no call.  It then opens the
    log file; when that raises, [main] raises with it, having logged nothing
    and built no analyzer.  Otherwise [main] runs [run_full_analysis] on the
    analyzer built from the environment, logs the success or the failure,
    calls [close] on the analyzer again and logs the shutdown; it returns or
    raises as [run_full_analysis] did. *)
Theorem main_runs_then_closes_again (environ : string -> option string)
    (analyzer0 : option PestDataAnalyzer) (w : W) :
  match int_cell (CStr (getenv environ "ORACLE_PORT" "1521")) with
  | inl e =>
      outcome (main environ analyzer0 w) = inl e /\
      trace (main environ analyzer0 w) = []
  | inr port =>
      match env (OpenLogFile "/app/pest_analysis.log") w with
      | (inl e, w0) =>
          outcome (main environ analyzer0 w) = inl e /\
          final (main environ analyzer0 w) = analyzer0 /\
          trace (main environ analyzer0 w)
          = [Called (OpenLogFile "/app/pest_analysis.log") (Some e)]
      | (inr _, w0) =>
          let analyzer :=
            init (getenv environ "CSV_FILE_PATH" "/app/data/pest_data.csv")
                 (getenv environ "ORACLE_HOST" "oracle-db") port
                 (getenv environ "ORACLE_SERVICE" "GRAPHDB")
                 (getenv environ "ORACLE_USER" "graphuser")
                 (getenv environ "ORACLE_PASSWORD" "GraphPassword123")
                 (Some (getenv environ "PGX_BASE_URL" "http://oracle-db:7007")) in
          let r := run_full_analysis analyzer w0 in
          let rc := close (final r) (world r) in
          outcome (main environ analyzer0 w) = outcome r /\
          trace (main environ analyzer0 w)
          = (Called (OpenLogFile "/app/pest_analysis.log") None
               :: Logged INFO "Starting pest analysis application with Oracle Graph PGX"
               :: trace r
               ++ match outcome r with
                  | inr _ => Logged INFO "Analysis completed successfully"
                  | inl e => Logged ERROR ("Application failed: " ++ exn_msg e)
                  end
               :: trace rc
               ++ [Logged INFO "Application shutdown complete"])%list
      end
  end.
Proof.
  pose proof (main_run environ analyzer0 w) as Hrun.
  destruct (int_cell (CStr (getenv environ "ORACLE_PORT" "1521")))
    as [e | port].
  - rewrite Hrun. split; reflexivity.
  - destruct (env (OpenLogFile "/app/pest_analysis.log") w) as [[e | u] w0].
    + rewrite Hrun. repeat split.
    + cbv zeta in Hrun |- *. rewrite Hrun. split; reflexivity.
Qed.

(** X5: when the port is an integer, the log file opens and [connect]
    returns, [main] closes the connection that [connect] opened twice: once
    in the [finally] of [run_full_analysis] and once more in its own, the
    analyzer still holding the closed connection.  No other connection is
    closed. *)
Theorem main_closes_connection_twice (environ : string -> option string)
    (analyzer0 : option PestDataAnalyzer) (w w0 : W) (port : Z) (c : Conn) :
  int_cell (CStr (getenv environ "ORACLE_PORT" "1521")) = inr port ->
  env (OpenLogFile "/app/pest_analysis.log") w = (inr tt, w0) ->
  let analyzer :=
    init (getenv environ "CSV_FILE_PATH" "/app/data/pest_data.csv")
         (getenv environ "ORACLE_HOST" "oracle-db") port
         (getenv environ "ORACLE_SERVICE" "GRAPHDB")
         (getenv environ "ORACLE_USER" "graphuser")
         (getenv environ "ORACLE_PASSWORD" "GraphPassword123")
         (Some (getenv environ "PGX_BASE_URL" "http://oracle-db:7007")) in
  outcome (connect analyzer w0) = inr tt ->
  connection (final (connect analyzer w0)) = Some c ->
  conn_closes (trace (main environ analyzer0 w)) = [c; c].
Proof.
  intros Hport Hopen. cbv zeta. intros Hok Hconn.
  pose proof (main_run environ analyzer0 w) as Hrun.
  rewrite Hport, Hopen in Hrun. cbv zeta in Hrun. rewrite Hrun. clear Hrun.
  cbn [trace].
  match goal with
  | |- context [run_full_analysis ?x w0] => set (a := x) in *
  end.
  destruct (pipeline_keeps_connection a w0 Hok) as (c' & cur & [Hc1 _] & [Hc2 _]).
  assert (c' = c) as -> by congruence.
  assert (Hr : conn_closes (trace (run_full_analysis a w0)) = [c]).
  { rewrite run_full_analysis_run. cbv zeta. cbn [trace].
    rewrite conn_closes_cons, !conn_closes_app.
    rewrite (staged_no_conn_close 0 5 (trace (pipeline a w0)));
      [|lia | apply pipeline_in_order].
    rewrite close_conn_closes, Hc2.
    destruct (outcome (pipeline a w0)); reflexivity. }
  assert (Hf : connection (final (run_full_analysis a w0)) = Some c).
  { rewrite run_full_analysis_run. cbv zeta. cbn [final].
    rewrite close_final. exact Hc2. }
  rewrite conn_closes_cons.
  change (conn_closes [Called (OpenLogFile "/app/pest_analysis.log") None])
    with (@nil Conn).
  cbn [app].
  rewrite conn_closes_cons, conn_closes_app, Hr.
  rewrite (conn_closes_cons _ (trace _ ++ _)), conn_closes_app.
  rewrite close_conn_closes, Hf.
  destruct (outcome (run_full_analysis a w0)); reflexivity.
Qed.

End Main.

Lemma main_closes_connection_twice_witness :
  conn_closes
    (trace (Analyzer.main (H := pipeline_world) (H0 := demo_runtime)
              (fun _ => None) None 0%nat))
  = [1%nat; 1%nat].
Proof.
  apply (main_closes_connection_twice (H := pipeline_world) (H0 := demo_runtime)
           (fun _ => None) None 0%nat 1%nat 1521%Z 1%nat).
  - reflexivity.
  - reflexivity.
  - vm_compute. reflexivity.
  - vm_compute. reflexivity.
Defined.

(** ** [get_stats] *)

Section Stats.

Context `{World} `{Runtime}.

Import Analyzer.

Ltac run_stats Ecur :=
  repeat (first
    [ rewrite Ecur
    | ask_env
    | match goal with
      | |- context [match ?x with [] => _ | _ :: _ => _ end] =>
          is_var x; destruct x
      | |- context [add_count _ ?c] => is_var c; destruct c
      end ];
    cbn [add_count]; simpl_res).

(** X6: [get_stats] leaves the analyzer as it is and runs the six counting
    queries in a fixed order, without bind values, stopping at the first
    that fails.  When it returns, all six have run, the four edge counts are
    integers, and the total that it logs is their sum. *)
Theorem get_stats_logs_the_sum (s : PestDataAnalyzer) (w : W) :
  final (get_stats s w) = s /\
  initial_segment (map fst (statements (trace (get_stats s w)))) count_queries /\
  Forall (fun sb => snd sb = []) (statements (trace (get_stats s w))) /\
  (outcome (get_stats s w) = inr tt ->
   map fst (statements (trace (get_stats s w))) = count_queries /\
   exists (entities inspections : Cell) (c1 c2 c3 c4 : Z),
     logged (trace (get_stats s w))
     = [ "Gathering database statistics...";
         "  shipped_in_edges: " ++ str_Z c1;
         "  is_from_edges: " ++ str_Z c2;
         "  has_weather_edges: " ++ str_Z c3;
         "  has_inspection_result_edges: " ++ str_Z c4;
         "Database contains " ++ str_cell entities ++ " entities, "
           ++ str_cell inspections ++ " inspections";
         "Total edges: " ++ str_Z (c1 + c2 + c3 + c4) ]).
Proof.
  unfold get_stats, edge_tables. cbn [count_edges].
  unfold count_of, execute, the_cursor. unfold_monad.
  destruct (cursor s) as [cur|] eqn:Ecur; simpl_res.
  2: { repeat split; [now exists count_queries | constructor | discriminate
                     | discriminate]. }
  run_stats Ecur.
  all: split; [reflexivity|].
  all: split; [unfold initial_segment, count_queries; cbn;
               eexists; reflexivity|].
  all: split; [cbn; repeat constructor|].
  all: intros Hok; try discriminate Hok.
  all: split; [reflexivity|].
  all: do 6 eexists; cbn; reflexivity.
Qed.

End Stats.

(** ** The copy script as a whole *)

Section CopyMain.

Context `{World} `{Runtime}.

Variable ORACLE_PASSWORD : string.

Lemma copy_loop_returns (src dst : Conn) (ts : list string) (w : W) :
  outcome (CopyScript.copy_loop src dst ts tt w) = inr tt.
Proof.
  revert w. induction ts as [|t rest IH]; intros w; [reflexivity|].
  rewrite copy_loop_cons. simpl_res. apply IH.
Qed.

Lemma copy_table_before_verification (src dst : Conn) (t : string) :
  emits before_verification (CopyScript.copy_table src dst t).
Proof.
  unfold emits, CopyScript.copy_table.
  respects_all; try exact I; try (split; reflexivity).
  match goal with
  | E : CopyScript.build_create_sql _ _ = inr _ |- _ =>
      unfold CopyScript.build_create_sql in E;
      destruct (CopyScript.col_defs_loop _ _); [discriminate|];
      injection E as <-
  end.
  split; reflexivity.
Qed.

Lemma copy_loop_before_verification (src dst : Conn) (ts : list string) :
  emits before_verification (CopyScript.copy_loop src dst ts).
Proof.
  unfold emits, CopyScript.copy_loop.
  apply respects_for_each. intros t.
  apply respects_try_except; [apply copy_table_before_verification|].
  intros e k E. injection E as <-. apply respects_print. split; reflexivity.
Qed.

Lemma before_verification_views (tr : list Event) :
  Forall before_verification tr ->
  conn_closes tr = [] /\ count_statements tr = [].
Proof.
  induction 1 as [|e tr [He1 He2] Htr [IH1 IH2]]; [split; reflexivity|].
  split.
  - change (e :: tr) with ([e] ++ tr)%list.
    unfold conn_closes in *. rewrite flat_map_app, He1, IH1. reflexivity.
  - change (e :: tr) with ([e] ++ tr)%list.
    unfold count_statements in *. rewrite flat_map_app, He2, IH2. reflexivity.
Qed.

Ltac run_script :=
  repeat (first
    [ ask_env
    | match goal with
      | |- context [CopyScript.count_line _ ?row] =>
          is_var row; destruct row as [|[] ?]
      end ];
    cbn [CopyScript.count_line]; simpl_res).

Ltac view_trace Hc Hq :=
  unfold conn_closes, count_statements in *;
  cbn [flat_map app];
  rewrite ?flat_map_app, ?Hc, ?Hq;
  cbn [flat_map app is_count_sql prefix].

(** X7: the copy script closes its connections last.  It runs the ten
    counting queries of the verification in the order of the table list and
    stops at the first that fails; a connection is closed only after all ten
    have run, so that a run that raises during the copy set-up or the
    verification leaves both connections open.  A run that returns has
    closed the connection to FREE and then the one to FREEPDB1, once
    each. *)
Theorem copy_script_closes_last (w : W) :
  let r := CopyScript.main ORACLE_PASSWORD tt w in
  initial_segment (count_statements (trace r)) verification_queries /\
  (conn_closes (trace r) <> [] ->
   count_statements (trace r) = verification_queries) /\
  (outcome r = inr tt ->
   exists free w1 dest w2,
     env (DbConnect CopyScript.ORACLE_USER ORACLE_PASSWORD
            (mkDsn CopyScript.ORACLE_HOST CopyScript.ORACLE_PORT "FREE")) w
     = (inr free, w1) /\
     env (DbConnect CopyScript.ORACLE_USER ORACLE_PASSWORD
            (mkDsn CopyScript.ORACLE_HOST CopyScript.ORACLE_PORT "FREEPDB1")) w1
     = (inr dest, w2) /\
     conn_closes (trace r) = [free; dest]).
Proof.
  cbv zeta. unfold CopyScript.main, CopyScript.connect_to_db.
  unfold_monad.
  destruct (env (DbConnect _ _ (mkDsn _ _ "FREE")) w) as [[e1 | free] w1] eqn:E1;
    simpl_res.
  { split; [now exists verification_queries|].
    split; [intros Hc; now contradiction Hc | discriminate]. }
  destruct (env (DbConnect _ _ (mkDsn _ _ "FREEPDB1")) w1) as [[e2 | dest] w2]
    eqn:E2; simpl_res.
  { split; [now exists verification_queries|].
    split; [intros Hc; now contradiction Hc | discriminate]. }
  pose proof (copy_loop_returns free dest CopyScript.tables w2) as Hret.
  destruct (copy_loop_before_verification free dest CopyScript.tables tt w2 I)
    as [_ Hquiet].
  apply before_verification_views in Hquiet. destruct Hquiet as [Hc Hq].
  destruct (CopyScript.copy_loop free dest CopyScript.tables tt w2)
    as [[e3 | []] [] w3 t3]; cbn [outcome trace] in Hret, Hc, Hq;
    [discriminate|]. simpl_res.
  unfold CopyScript.tables. cbn [for_each]. unfold_monad.
  run_script.
  all: split; [view_trace Hc Hq; unfold initial_segment, verification_queries;
               cbn; eexists; reflexivity|].
  all: split; [view_trace Hc Hq;
               first [ intros Hne; now contradiction Hne | intros _; reflexivity ]|].
  all: first [ discriminate | intros _ ].
  all: exists free, w1, dest, w2.
  all: split; [first [exact E1 | reflexivity]|];
    split; [first [exact E2 | reflexivity]|].
  all: view_trace Hc Hq; reflexivity.
Qed.

End CopyMain.

(** ** [run_pgql_query] *)

Lemma string_append_inv_head (p a b : string) : p ++ a = p ++ b -> a = b.
Proof.
  induction p as [|c p IH]; cbn; [auto|].
  intros Heq. injection Heq as Heq. now apply IH.
Qed.

Lemma string_append_inv_tail (a b t : string) : a ++ t = b ++ t -> a = b.
Proof.
  revert b. induction a as [|c a IH]; intros [|d b] Heq; cbn in Heq.
  - reflexivity.
  - apply (f_equal String.length) in Heq. cbn in Heq.
    rewrite string_length_append in Heq. lia.
  - apply (f_equal String.length) in Heq. cbn in Heq.
    rewrite string_length_append in Heq. lia.
  - injection Heq as -> Heq. f_equal. now apply IH.
Qed.

Section PgqlQuery.

Context `{World} `{Runtime}.

Import Analyzer.

(** X8: [run_pgql_query] puts the query into the statement text: it binds no
    value, and different queries give different statement texts.  It leaves
    the analyzer as it is, executes this one statement on the cursor of the
    analyzer and fetches all rows, stopping at the first call that raises;
    without a cursor it makes no call at all. *)
Theorem run_pgql_query_splices_the_query (query : string)
    (s : PestDataAnalyzer) (w : W) :
  let r := run_pgql_query query s w in
  final r = s /\
  (forall q1 q2, pgql_sql q1 = pgql_sql q2 -> q1 = q2) /\
  match cursor s with
  | None => trace r = [] /\ exists e, outcome r = inl e
  | Some cur =>
      initial_segment (calls_of (trace r))
        [CurExecute cur (pgql_sql query) []; CurFetchAll cur] /\
      (forall rows, outcome r = inr rows ->
         calls_of (trace r)
         = [CurExecute cur (pgql_sql query) []; CurFetchAll cur])
  end.
Proof.
  cbv zeta. split; [|split].
  - unfold run_pgql_query, the_cursor. unfold_monad.
    destruct (cursor s) as [cur|] eqn:Ecur; simpl_res; [|reflexivity].
    ask_env; simpl_res; [reflexivity|].
    rewrite Ecur. simpl_res. ask_env; reflexivity.
  - intros q1 q2 Heq. unfold pgql_sql in Heq.
    apply string_append_inv_head in Heq.
    now apply string_append_inv_tail in Heq.
  - unfold run_pgql_query, the_cursor. unfold_monad.
    destruct (cursor s) as [cur|] eqn:Ecur; simpl_res.
    + ask_env; simpl_res.
      * split; [eexists; reflexivity | discriminate].
      * rewrite Ecur. simpl_res.
        ask_env; simpl_res;
          (split; [eexists; cbn; reflexivity | intros; try discriminate;
                                               reflexivity]).
    + split; [reflexivity | eexists; reflexivity].
Qed.

End PgqlQuery.

(** ** The REST client: construction and the example run *)

Lemma rstrip_slash_slashes (t : string) :
  all_chars "/" t = true -> RestClient.rstrip_slash t = "".
Proof.
  induction t as [|c t IH]; cbn; [reflexivity|].
  intros Hall. apply andb_prop in Hall as [Hc Ht].
  rewrite (IH Ht), Hc. reflexivity.
Qed.

(** [rstrip_slash] takes off a tail of slashes, and as much of it as there
    is. *)
Lemma rstrip_slash_splits (s : string) :
  exists slashes,
    s = RestClient.rstrip_slash s ++ slashes /\
    all_chars "/" slashes = true /\
    ends_with "/" (RestClient.rstrip_slash s) = false.
Proof.
  induction s as [|c s (t & Hs & Hall & Hend)]; [now exists ""|].
  cbn [RestClient.rstrip_slash].
  destruct (RestClient.rstrip_slash s) as [|d kept] eqn:Er.
  - cbn in Hs. subst t. destruct (Ascii.eqb c "/") eqn:Ec.
    + exists (String c s). cbn. rewrite Ec, Hall. now repeat split.
    + exists s. cbn. rewrite Ec. now repeat split.
  - exists t. split; [cbn; now rewrite Hs at 1|]. split; [exact Hall|].
    exact Hend.
Qed.

Lemma rstrip_slash_unique (a t : string) :
  all_chars "/" t = true -> ends_with "/" a = false ->
  RestClient.rstrip_slash (a ++ t) = a.
Proof.
  intros Hall. induction a as [|c a IH]; intros Hend.
  - now apply rstrip_slash_slashes.
  - cbn [append RestClient.rstrip_slash]. destruct a as [|d a'].
    + cbn [append]. rewrite (rstrip_slash_slashes t Hall).
      cbn in Hend. now rewrite Hend.
    + rewrite IH; [reflexivity | exact Hend].
Qed.

Section RestClientRuns.

Context `{World} `{Runtime}.

Import RestClient.

(** X9: [__init__] stores the base URL without its trailing slashes, all of
    them and nothing else, so that building a client from the stored URL
    changes nothing; it sets the credentials of the session exactly when a
    user name and a password are both given and not empty; and every method
    of the client then requests the stored URL followed by the path of its
    endpoint. *)
Theorem init_strips_trailing_slashes (url : string) (u p : option string) :
  let client := init url u p in
  (exists slashes,
     url = base_url client ++ slashes /\ all_chars "/" slashes = true) /\
  ends_with "/" (base_url client) = false /\
  (forall a t,
     url = a ++ t -> all_chars "/" t = true -> ends_with "/" a = false ->
     base_url client = a) /\
  base_url (init (base_url client) u p) = base_url client /\
  (forall a b,
     session_auth client = Some (a, b) <->
     u = Some a /\ p = Some b /\ a <> "" /\ b <> "") /\
  (forall (m : Method) (w : W),
     exists body,
       requests (trace (invoke m client w))
       = [(fst (endpoint m), base_url client ++ snd (endpoint m), body)]).
Proof.
  cbv zeta. cbn [init base_url session_auth].
  destruct (rstrip_slash_splits url) as (t & Hs & Hall & Hend).
  split; [now exists t|]. split; [exact Hend|]. split.
  { intros a t' -> Ht' Ha. now apply rstrip_slash_unique. }
  split.
  { rewrite <- (string_append_nil_r (rstrip_slash url)) at 1.
    now apply rstrip_slash_unique. }
  split.
  { intros a b. destruct u as [x|], p as [y|]; cbn.
    - destruct (String.eqb_spec x ""), (String.eqb_spec y ""); cbn;
        (split; [intros Heq; try discriminate; injection Heq as <- <-; auto
                | intros (Hx & Hy & Hna & Hnb);
                  injection Hx as <-; injection Hy as <-;
                  first [reflexivity | congruence]]).
    - split; [discriminate | intros (_ & Hy & _); discriminate].
    - split; [discriminate | intros (Hx & _); discriminate].
    - split; [discriminate | intros (Hx & _); discriminate]. }
  intros m w.
  destruct m; cbn [invoke endpoint fst snd];
    unfold get_version, load_graph_from_database, run_pagerank,
      run_betweenness_centrality, run_community_detection, run_deepwalk,
      execute_pgql, list_graphs, get_graph_info, delete_graph, checked;
    unfold_monad; cbv zeta; cbn [base_url].
  all: match goal with
       | |- context [env (Http _ _ ?b _ None) _] => exists b
       end.
  all: match goal with
       | |- context [env ?c ?w] => destruct (env c w) as [[e | resp] w1]
       end; simpl_res; try reflexivity.
  all: unfold raise_for_status, json;
    destruct (is_error_status (status_code resp));
    [ | destruct (json_body resp) ]; reflexivity.
Qed.

Ltac run_example :=
  repeat (first
    [ ask_env
    | match goal with
      | |- context [is_error_status (status_code ?r)] =>
          destruct (is_error_status (status_code r))
      | |- context [json_body ?r] => destruct (json_body r)
      end ];
    simpl_res).

(** X10: [example_pgx_analysis] leaves the client as it is and sends its
    five requests in a fixed order (version, list of graphs, PageRank with
    100 iterations and tolerance 0.001, Louvain, the PGQL query), the graph
    being [pest_graph] unless one is named.  It stops at the first request
    that fails: nothing is requested after it.  A run that returns has sent
    all five and printed the closing rule. *)
Theorem example_pgx_analysis_requests (graph_name : option string)
    (client : PGXRestClient) (w : W) :
  let graph := match graph_name with Some g => g | None => "pest_graph" end in
  let r := example_pgx_analysis graph_name client w in
  final r = client /\
  initial_segment (requests (trace r))
                  (example_requests (base_url client) graph) /\
  (outcome r = inr tt ->
   requests (trace r) = example_requests (base_url client) graph /\
   List.length (printed (trace r)) = 12%nat /\
   last (printed (trace r)) "" = rule) /\
  (forall e, outcome r = inl e ->
     List.length (requests (trace r)) = List.length (returned_calls (trace r))
     \/ S (List.length (returned_calls (trace r)))
        = List.length (requests (trace r))).
Proof.
  cbv zeta. unfold example_pgx_analysis, get_version, list_graphs,
    run_pagerank, run_community_detection, execute_pgql, checked,
    raise_for_status, json.
  unfold_monad. cbv zeta.
  run_example.
  all: split; [reflexivity|].
  all: split; [unfold initial_segment, example_requests; cbn;
               eexists; reflexivity|].
  all: split; [intros Hok; try discriminate Hok;
               repeat split; reflexivity|].
  all: intros e' He'; try discriminate He'; cbn; auto.
Qed.

End RestClientRuns.

(** ** The query scripts *)

Section PgqlScript.

Context `{World} `{Pandas}.

Variables ORACLE_USER ORACLE_PASSWORD : string.

Import PgqlQueries.

(** One call of [run_query]: two lines, the read, and the frame or the error
    line. *)
Lemma run_query_run (c : Conn) (query description : string) (w : W) :
  run_query c query description tt w
  = mkRes (inr match fst (env (ReadSql query c) w) with
               | inr df => Some df
               | inl _ => None
               end)
          tt (snd (env (ReadSql query c) w))
          [ Printed (newline ++ description);
            Printed dashes60;
            Called (ReadSql query c) (raised_of (fst (env (ReadSql query c) w)));
            Printed (match fst (env (ReadSql query c) w) with
                     | inr df => to_string df
                     | inl e => "[ERROR] " ++ exn_msg e
                     end) ].
Proof.
  unfold run_query. unfold_monad.
  destruct (env (ReadSql query c) w) as [[e | df] w1]; reflexivity.
Qed.

(** X11: [run_query] never raises.  It reads once; it returns the frame and
    prints it when the read returns, and it returns [None] and prints the
    error when the read raises. *)
Theorem run_query_never_raises (c : Conn) (query description : string) (w : W) :
  let r := run_query c query description tt w in
  calls_of (trace r) = [ReadSql query c] /\
  match fst (env (ReadSql query c) w) with
  | inr df =>
      outcome r = inr (Some df) /\
      last (printed (trace r)) "" = to_string df
  | inl e =>
      outcome r = inr None /\
      last (printed (trace r)) "" = "[ERROR] " ++ exn_msg e
  end.
Proof.
  cbv zeta. rewrite run_query_run. simpl_res.
  split; [reflexivity|].
  destruct (fst (env (ReadSql query c) w)); split; reflexivity.
Qed.

(** X12: once connected, the script of [pgql_queries.py] runs its seven
    queries in a fixed order whatever the queries before did, and then
    closes the connection; it raises only if closing raises.  When the
    connection cannot be opened the script raises at once. *)
Theorem pgql_script_runs_every_query (w : W) :
  let dsn := mkDsn ORACLE_HOST ORACLE_PORT ORACLE_SERVICE in
  let r := main ORACLE_USER ORACLE_PASSWORD tt w in
  match fst (env (DbConnect ORACLE_USER ORACLE_PASSWORD dsn) w) with
  | inl e =>
      outcome r = inl e /\
      calls_of (trace r) = [DbConnect ORACLE_USER ORACLE_PASSWORD dsn]
  | inr c =>
      calls_of (trace r)
      = (DbConnect ORACLE_USER ORACLE_PASSWORD dsn
           :: map (fun q => ReadSql q c) queries ++ [ConnClose c])%list /\
      (outcome r = inr tt \/
       exists e tr, outcome r = inl e /\
                    trace r = (tr ++ [Called (ConnClose c) (Some e)])%list)
  end.
Proof.
  cbv zeta. unfold main, connect_db. unfold_monad.
  destruct (env (DbConnect _ _ _) w) as [[e | c] w1]; simpl_res;
    [split; reflexivity|].
  unfold analyses, analyze_graph_structure, analyze_node_degrees,
    analyze_country_distribution, analyze_temporal_patterns,
    analyze_inspection_results, find_high_risk_entities.
  unfold_monad.
  repeat (rewrite run_query_run; simpl_res).
  match goal with
  | |- context [env (ConnClose c) ?w'] =>
      destruct (env (ConnClose c) w') as [[e | []] w2]
  end; simpl_res.
  - split; [reflexivity|]. right. eexists e, _. split; [reflexivity|].
    rewrite (app_removelast_last (l := _ :: _) (Printed "")) at 1;
      [|discriminate].
    reflexivity.
  - split; [reflexivity | left; reflexivity].
Qed.

End PgqlScript.

Section AnalyticsScript.

Context `{World} `{Runtime} `{Pandas}.

Variables ORACLE_HOST : string.
Variable ORACLE_PORT : Z.
Variables ORACLE_SERVICE ORACLE_USER ORACLE_PASSWORD : string.

Import GraphAnalytics.

Ltac run_analytics :=
  repeat (first
    [ ask_env
    | match goal with
      | |- context [(0 <? len ?d)%nat] => destruct (0 <? len d)%nat eqn:?
      | |- context [iloc0 ?d ?n] => destruct (iloc0 d n) eqn:?
      end ];
    simpl_res).



End AnalyticsScript.


(** ** The rows written by [create_nodes] *)

Lemma flat_map_singleton {A B} (h : A -> B) (xs : list A) :
  flat_map (fun x => [h x]) xs = map h xs.
Proof. induction xs as [|x xs IH]; cbn; [reflexivity | now rewrite IH]. Qed.

Lemma statements_app (a b : list Event) :
  statements (a ++ b) = (statements a ++ statements b)%list.
Proof. apply flat_map_app. Qed.

Lemma pick_app (sql : string) (a b : list (string * list Cell)) :
  pick sql (a ++ b) = (pick sql a ++ pick sql b)%list.
Proof. apply flat_map_app. Qed.

Lemma pick_map_same {X} (sql : string) (f : X -> list Cell) (xs : list X) :
  pick sql (map (fun x => (sql, f x)) xs) = map f xs.
Proof.
  induction xs as [|x xs IH]; [reflexivity|].
  cbn [map]. change (?a :: ?l) with ([a] ++ l)%list at 1.
  rewrite pick_app, IH. cbn. now rewrite String.eqb_refl.
Qed.

Lemma pick_map_other {X} (sql sql' : string) (f : X -> list Cell) (xs : list X) :
  (sql' =? sql)%string = false ->
  pick sql (map (fun x => (sql', f x)) xs) = [].
Proof.
  intros Hne. induction xs as [|x xs IH]; [reflexivity|].
  cbn [map]. change (?a :: ?l) with ([a] ++ l)%list at 1.
  rewrite pick_app, IH. cbn. now rewrite Hne.
Qed.

Lemma pick_flat_map_other {X} (sql : string)
    (g : X -> list (string * list Cell)) (xs : list X) :
  (forall x, pick sql (g x) = []) -> pick sql (flat_map g xs) = [].
Proof.
  intros Hg. induction xs as [|x xs IH]; [reflexivity|].
  cbn [flat_map]. now rewrite pick_app, Hg, IH.
Qed.

Lemma binds_of_pick (sql : string) (tr : list Event) :
  binds_of sql tr = pick sql (statements tr).
Proof. reflexivity. Qed.

Section Nodes.

Context `{World} `{Runtime}.

Import Analyzer.

(** A loop whose turns leave the analyzer as it is: the statements of a run
    that returns are those of its turns. *)
Lemma for_each_statements {X} (xs : list X) (body : X -> Run unit)
    (g : X -> list (string * list Cell)) (s : PestDataAnalyzer) :
  (forall x w, outcome (body x s w) = inr tt ->
               final (body x s w) = s /\ statements (trace (body x s w)) = g x) ->
  forall w,
    outcome (for_each xs body s w) = inr tt ->
    final (for_each xs body s w) = s /\
    statements (trace (for_each xs body s w)) = flat_map g xs.
Proof.
  intros Hbody. induction xs as [|x xs IH]; intros w; cbn [for_each flat_map].
  - intros _. split; reflexivity.
  - unfold bind. specialize (Hbody x w).
    destruct (body x s w) as [[e | []] s1 w1 t1]; cbn [outcome final trace] in *;
      [discriminate|].
    destruct (Hbody eq_refl) as [-> Ht1].
    specialize (IH w1).
    destruct (for_each xs body s w1) as [o2 s2 w2 t2];
      cbn [outcome final trace] in *.
    intros Hok. destruct (IH Hok) as [-> Ht2].
    split; [reflexivity|]. now rewrite statements_app, Ht1, Ht2.
Qed.

(** One [execute] that returns. *)
Lemma execute_statement (sql : string) (params : list Cell)
    (s : PestDataAnalyzer) (w : W) :
  outcome (execute sql params s w) = inr tt ->
  final (execute sql params s w) = s /\
  statements (trace (execute sql params s w)) = [(sql, params)].
Proof.
  unfold execute, the_cursor. unfold_monad.
  destruct (cursor s) as [cur|]; simpl_res; [|discriminate].
  ask_env; simpl_res; [discriminate|]. intros _. split; reflexivity.
Qed.

Lemma country_month_loop_statements (cols : list string)
    (rows : list (list Cell)) (s : PestDataAnalyzer) :
  forall (seen : list string) (w : W),
    outcome (country_month_loop cols rows seen s w) = inr tt ->
    final (country_month_loop cols rows seen s w) = s /\
    exists cms,
      country_month_rows cols rows seen = inr cms /\
      statements (trace (country_month_loop cols rows seen s w))
      = map (pair country_months_sql) cms.
Proof.
  induction rows as [|row rest IH]; intros seen w;
    cbn [country_month_loop country_month_rows].
  - intros _. split; [reflexivity|]. now exists [].
  - unfold_monad.
    destruct (cm_id_of cols row) as [e | cm_id]; simpl_res; [discriminate|].
    destruct (in_set cm_id seen).
    { specialize (IH seen w).
      destruct (country_month_loop cols rest seen s w); exact IH. }
    destruct (row_get cols row "CTRY_CODE") as [e | ctry]; simpl_res;
      [discriminate|].
    destruct (row_get cols row "MONTH") as [e | month]; simpl_res;
      [discriminate|].
    match goal with
    | |- context [execute ?sql ?params s w] =>
        pose proof (execute_statement sql params s w) as Hex;
        destruct (execute sql params s w) as [[e | []] s1 w1 t1]
    end; cbn [outcome final trace] in *; [discriminate|].
    destruct (Hex eq_refl) as [-> Ht1].
    specialize (IH (cm_id :: seen) w1).
    destruct (country_month_loop cols rest (cm_id :: seen) s w1)
      as [o2 s2 w2 t2]; cbn [outcome final trace] in *.
    intros Hok. destruct (IH Hok) as (-> & cms & -> & Ht2).
    split; [reflexivity|]. eexists. split; [reflexivity|].
    rewrite statements_app, Ht1, Ht2. reflexivity.
Qed.

Ltac solve_turn s :=
  let x := fresh "x" in
  let w' := fresh "w" in
  intros x w'; cbv beta;
  try destruct x as [? ?];
  unfold target_row;
  repeat match goal with
         | |- context [int_cell ?t] => destruct (int_cell t) eqn:?
         end;
  unfold_monad; simpl_res; try discriminate;
  first
    [ apply execute_statement
    | match goal with
      | |- context [execute ?sql ?p s ?w0] =>
          let Hex := fresh "Hex" in
          pose proof (execute_statement sql p s w0) as Hex;
          destruct (execute sql p s w0) as [[? | []] ? ? ?];
          cbn [outcome final trace] in *; [discriminate | exact Hex]
      end ].

Ltac run_loop g :=
  match goal with
  | |- context [for_each ?xs ?body ?s ?w] =>
      let Hloop := fresh "Hloop" in
      assert (Hloop := for_each_statements xs body g s);
      let Hturn := fresh "Hturn" in
      assert (Hturn : forall x w0, outcome (body x s w0) = inr tt ->
                        final (body x s w0) = s /\
                        statements (trace (body x s w0)) = g x)
        by solve_turn s;
      specialize (Hloop Hturn w); clear Hturn;
      destruct (for_each xs body s w) as [[?e | []] ?s ?w ?t];
      cbn [outcome final trace] in Hloop; simpl_res; [discriminate|];
      destruct (Hloop eq_refl) as [-> ?Ht]; clear Hloop
  end.

(** The statements of a [create_nodes] that returns, as a function of the
    frame. *)
Lemma create_nodes_statements (s : PestDataAnalyzer) (w : W) (d : DataFrame) :
  df s = Some d ->
  outcome (create_nodes s w) = inr tt ->
  exists ids codes ms ts cms,
    column d "ENTY_ID" = inr ids /\
    column d "CTRY_CODE" = inr codes /\
    column d "MONTH" = inr ms /\
    column d "TARGET_PROXY" = inr ts /\
    country_month_rows (columns d) (values d) [] = inr cms /\
    statements (trace (create_nodes s w))
    = (map (fun e => (entities_sql,
                      [CStr (str_cell e); CStr "inspection_entity"]))
           (unique ids)
       ++ map (fun c => (countries_sql,
                         [CStr (str_cell c); CStr (str_cell c)]))
              (unique codes)
       ++ map (fun im => (months_sql,
                          [CStr (str_cell (snd im));
                           CInt (Z.of_nat (fst im + 1))]))
              (enumerate (unique ms))
       ++ flat_map target_row (unique ts)
       ++ map (pair country_months_sql) cms)%list.
Proof.
  intros Hdf. unfold create_nodes, the_df, the_connection. unfold_monad.
  rewrite Hdf. simpl_res.
  destruct (column d "ENTY_ID") as [e | ids]; simpl_res; [discriminate|].
  run_loop (fun e : Cell =>
              [(entities_sql, [CStr (str_cell e); CStr "inspection_entity"])]).
  rewrite Hdf. simpl_res.
  destruct (column d "CTRY_CODE") as [e | codes]; simpl_res; [discriminate|].
  run_loop (fun c : Cell =>
              [(countries_sql, [CStr (str_cell c); CStr (str_cell c)])]).
  rewrite Hdf. simpl_res.
  destruct (column d "MONTH") as [e | ms]; simpl_res; [discriminate|].
  run_loop (fun im : nat * Cell =>
              [(months_sql, [CStr (str_cell (snd im));
                             CInt (Z.of_nat (fst im + 1))])]).
  rewrite Hdf. simpl_res.
  destruct (column d "TARGET_PROXY") as [e | ts]; simpl_res; [discriminate|].
  run_loop target_row.
  rewrite Hdf. simpl_res.
  match goal with
  | |- context [country_month_loop ?cols ?rows [] s ?w0] =>
      pose proof (country_month_loop_statements cols rows s [] w0) as Hcm;
      destruct (country_month_loop cols rows [] s w0) as [[e | []] s5 w5 t5]
  end; cbn [outcome final trace] in Hcm; simpl_res; [discriminate|].
  destruct (Hcm eq_refl) as (-> & cms & Hrows & Ht5).
  destruct (connection s) as [c|]; simpl_res; [|discriminate].
  ask_env; simpl_res; [discriminate|].
  intros _. exists ids, codes, ms, ts, cms.
  repeat (split; [reflexivity || assumption|]).
  cbn [app].
  repeat (rewrite ?statements_app;
          change (statements (?e :: ?l))
            with (statements [e] ++ statements l)%list;
          cbn [statements flat_map app]).
  fold (statements t). fold (statements t0). fold (statements t1).
  fold (statements t2). fold (statements t5).
  rewrite ?statements_app.
  repeat match goal with
         | Ht : statements _ = _ |- _ => rewrite Ht; clear Ht
         end.
  rewrite !flat_map_singleton. cbn [statements flat_map app].
  rewrite ?app_nil_r. reflexivity.
Qed.

End Nodes.

Section VertexProperties.

Context `{World} `{Runtime}.

Import Analyzer.

Lemma in_set_In (x : string) (xs : list string) :
  in_set x xs = true <-> In x xs.
Proof.
  unfold in_set. rewrite existsb_exists. split.
  - intros (y & Hy & Heq). apply String.eqb_eq in Heq. now subst.
  - intros Hx. exists x. split; [exact Hx | apply String.eqb_refl].
Qed.

(** The rows of [country_months]: one per distinct id that is not in [seen],
    for every row that the loop reads and for nothing else. *)
Lemma country_month_rows_ids (cols : list string) (rows : list (list Cell)) :
  forall (seen : list string) (cms : list (list Cell)),
    country_month_rows cols rows seen = inr cms ->
    NoDup (bind_column 0 cms) /\
    (forall id, In (CStr id) (bind_column 0 cms) -> ~ In id seen) /\
    (forall row, In row rows ->
       exists id, cm_id_of cols row = inr id /\
                  (In id seen \/ In (CStr id) (bind_column 0 cms))) /\
    (forall x, In x (bind_column 0 cms) ->
       exists row id, In row rows /\ cm_id_of cols row = inr id /\ x = CStr id).
Proof.
  induction rows as [|row rest IH]; intros seen cms; cbn [country_month_rows].
  - intros Heq. injection Heq as <-. cbn.
    split; [constructor|]. split; [intros id []|].
    split; [intros row []| intros x []].
  - destruct (cm_id_of cols row) as [e | cm_id] eqn:Ecm; [discriminate|].
    destruct (in_set cm_id seen) eqn:Eseen.
    + intros Heq. destruct (IH seen cms Heq) as (Hnd & Hfresh & Hcover & Hfrom).
      split; [exact Hnd|]. split; [exact Hfresh|]. split.
      * intros r [<- | Hr].
        -- exists cm_id. split; [exact Ecm|]. left. now apply in_set_In.
        -- now apply Hcover.
      * intros x Hx. destruct (Hfrom x Hx) as (r & id & Hr & Hid & ->).
        exists r, id. split; [now right | now split].
    + destruct (row_get cols row "CTRY_CODE") as [e | c]; [discriminate|].
      destruct (row_get cols row "MONTH") as [e | m]; [discriminate|].
      destruct (country_month_rows cols rest (cm_id :: seen)) as [e | more]
        eqn:Emore; [discriminate|].
      intros Heq. injection Heq as <-.
      destruct (IH (cm_id :: seen) more Emore)
        as (Hnd & Hfresh & Hcover & Hfrom).
      cbn [bind_column map nth]. fold (bind_column 0 more).
      split; [|split; [|split]].
      * constructor; [|exact Hnd].
        intros Hin. apply (Hfresh cm_id Hin). now left.
      * intros id [Heq | Hin].
        -- injection Heq as <-. intros Hin. apply in_set_In in Hin. congruence.
        -- intros Hs. apply (Hfresh id Hin). now right.
      * intros r [<- | Hr].
        -- exists cm_id. split; [exact Ecm|]. right. now left.
        -- destruct (Hcover r Hr) as (id & Hid & [[<- | Hs] | Hin]).
           ++ exists cm_id. split; [exact Hid|]. right. now left.
           ++ exists id. split; [exact Hid|]. now left.
           ++ exists id. split; [exact Hid|]. right. now right.
      * intros x [<- | Hx].
        -- exists row, cm_id. split; [now left | now split].
        -- destruct (Hfrom x Hx) as (r & id & Hr & Hid & ->).
           exists r, id. split; [now right | now split].
Qed.

Lemma pick_target_rows (sql : string) (ts : list Cell) :
  (target_proxies_sql =? sql)%string = false ->
  pick sql (flat_map target_row ts) = [].
Proof.
  intros Hne. apply pick_flat_map_other. intros t. unfold target_row.
  destruct (int_cell t); [reflexivity|].
  unfold pick. cbn [flat_map fst snd app]. now rewrite Hne.
Qed.

Lemma map_fst_enumerate {A} (xs : list A) :
  map fst (enumerate xs) = seq 0 (List.length xs).
Proof.
  unfold enumerate. generalize 0%nat.
  induction xs as [|x xs IH]; intros n; cbn; [reflexivity|].
  now rewrite IH.
Qed.

Lemma map_snd_enumerate {A} (xs : list A) : map snd (enumerate xs) = xs.
Proof.
  unfold enumerate. generalize 0%nat.
  induction xs as [|x xs IH]; intros n; cbn; [reflexivity|].
  now rewrite IH.
Qed.

(** X15: a [create_nodes] that returns has inserted one row of [months] for
    each distinct value of the MONTH column, in the order in which the
    values first appear in the frame, and has numbered them 1, 2, 3, ... in
    that order: [month_number] is the rank of first appearance, whatever the
    month is. *)
Theorem months_numbered_by_first_appearance
    (s : PestDataAnalyzer) (w : W) (d : DataFrame) (ms : list Cell) :
  df s = Some d ->
  column d "MONTH" = inr ms ->
  outcome (create_nodes s w) = inr tt ->
  let rows := binds_of months_sql (trace (create_nodes s w)) in
  bind_column 0 rows = map (fun m => CStr (str_cell m)) (unique ms) /\
  bind_column 1 rows
  = map (fun i => CInt (Z.of_nat i)) (seq 1 (List.length (unique ms))).
Proof.
  intros Hdf Hms Hok. cbv zeta.
  destruct (create_nodes_statements s w d Hdf Hok)
    as (ids & codes & ms' & ts & cms & _ & _ & Hms' & _ & _ & Hst).
  assert (ms' = ms) as -> by congruence.
  rewrite binds_of_pick, Hst, !pick_app.
  rewrite (pick_map_other months_sql entities_sql) by reflexivity.
  rewrite (pick_map_other months_sql countries_sql) by reflexivity.
  rewrite pick_map_same.
  rewrite pick_target_rows by reflexivity.
  rewrite (pick_map_other months_sql country_months_sql (fun b => b))
    by reflexivity.
  cbn [app]. rewrite app_nil_r. unfold bind_column. rewrite !map_map.
  cbn [nth]. split.
  - rewrite <- (map_map snd (fun m => CStr (str_cell m))).
    now rewrite map_snd_enumerate.
  - rewrite <- (map_map fst (fun i => CInt (Z.of_nat (i + 1)))).
    rewrite map_fst_enumerate, <- seq_shift, map_map.
    apply map_ext. intros i. now rewrite Nat.add_1_r.
Qed.

(** The ids of the rows of [country_months] that a [create_nodes] that
    returns has inserted are those of the rows computed from the frame. *)
Lemma country_months_binds (s : PestDataAnalyzer) (w : W) (d : DataFrame) :
  df s = Some d ->
  outcome (create_nodes s w) = inr tt ->
  exists cms,
    country_month_rows (columns d) (values d) [] = inr cms /\
    binds_of country_months_sql (trace (create_nodes s w)) = cms.
Proof.
  intros Hdf Hok.
  destruct (create_nodes_statements s w d Hdf Hok)
    as (ids & codes & ms & ts & cms & _ & _ & _ & _ & Hcms & Hst).
  exists cms. split; [exact Hcms|].
  rewrite binds_of_pick, Hst, !pick_app.
  rewrite (pick_map_other country_months_sql entities_sql) by reflexivity.
  rewrite (pick_map_other country_months_sql countries_sql) by reflexivity.
  rewrite (pick_map_other country_months_sql months_sql) by reflexivity.
  rewrite pick_target_rows by reflexivity.
  rewrite (pick_map_same country_months_sql (fun b => b)).
  cbn [app]. apply map_id.
Qed.

(** X16: a [create_nodes] that returns has inserted one row of
    [country_months] for each distinct country-month id of the rows that the
    loop over the frame reads ([values]: rows of floats when the columns are
    numeric and not all of one integer type), and no other: no id is
    inserted twice, the id of every such row is inserted, and every inserted
    id is the id of such a row. *)
Theorem country_months_inserted_once
    (s : PestDataAnalyzer) (w : W) (d : DataFrame) :
  df s = Some d ->
  outcome (create_nodes s w) = inr tt ->
  let ids := bind_column 0 (binds_of country_months_sql
                              (trace (create_nodes s w))) in
  NoDup ids /\
  (forall row, In row (values d) ->
     exists id, cm_id_of (columns d) row = inr id /\ In (CStr id) ids) /\
  (forall x, In x ids ->
     exists row id,
       In row (values d) /\ cm_id_of (columns d) row = inr id /\ x = CStr id).
Proof.
  intros Hdf Hok. cbv zeta.
  destruct (country_months_binds s w d Hdf Hok) as (cms & Hcms & ->).
  destruct (country_month_rows_ids _ _ _ _ Hcms)
    as (Hnd & _ & Hcover & Hfrom).
  split; [exact Hnd|]. split; [|exact Hfrom].
  intros row Hrow. destruct (Hcover row Hrow) as (id & Hid & [[] | Hin]).
  now exists id.
Qed.

End VertexProperties.

Lemma months_numbered_by_first_appearance_witness :
  let rows :=
    binds_of months_sql
      (trace (Analyzer.create_nodes (H := pipeline_world) (H0 := demo_runtime)
                loaded_analyzer 0%nat)) in
  bind_column 0 rows
  = map (fun m => CStr (@str_cell demo_runtime m))
        (unique [CStr "JAN"; CStr "FEB"; CStr "FEB"; CStr "FEB"]) /\
  bind_column 1 rows
  = map (fun i => CInt (Z.of_nat i))
        (seq 1 (List.length (unique [CStr "JAN"; CStr "FEB"; CStr "FEB";
                                     CStr "FEB"]))).
Proof.
  apply (months_numbered_by_first_appearance
           (H := pipeline_world) (H0 := demo_runtime)
           loaded_analyzer 0%nat clean_frame).
  - reflexivity.
  - reflexivity.
  - vm_compute. reflexivity.
Defined.

Lemma country_months_inserted_once_witness :
  let ids :=
    bind_column 0
      (binds_of country_months_sql
         (trace (Analyzer.create_nodes (H := pipeline_world)
                   (H0 := demo_runtime) numeric_analyzer 0%nat))) in
  ids = [CStr "840.0_1.0"; CStr "124.0_2.0"] /\
  NoDup ids /\
  (forall row, In row (values numeric_frame) ->
     exists id,
       @Analyzer.cm_id_of demo_runtime (columns numeric_frame) row = inr id /\
       In (CStr id) ids) /\
  (forall x, In x ids ->
     exists row id,
       In row (values numeric_frame) /\
       @Analyzer.cm_id_of demo_runtime (columns numeric_frame) row = inr id /\
       x = CStr id).
Proof.
  cbv zeta. split; [vm_compute; reflexivity|].
  apply (country_months_inserted_once
           (H := pipeline_world) (H0 := demo_runtime)
           numeric_analyzer 0%nat numeric_frame).
  - reflexivity.
  - vm_compute. reflexivity.
Defined.

(** ** The rows written by [create_inspections_and_relationships] refer to
       rows written by [create_nodes] *)

Section Frames.

Context `{Runtime}.

Lemma drop_dup_from_subset (rows seen : list (list Cell)) (r : list Cell) :
  In r (drop_dup_from seen rows) -> In r rows.
Proof.
  revert seen. induction rows as [|x rows IH]; intros seen; cbn; [auto|].
  destruct (existsb (row_eqb x) seen).
  - intros Hin. right. now apply (IH seen).
  - intros [<- | Hin]; [now left | right; now apply (IH (x :: seen))].
Qed.

Lemma cell_eqb_refl (c : Cell) : cell_eqb c c = true.
Proof.
  destruct c; cbn; auto using String.eqb_refl, Z.eqb_refl, Bool.eqb_reflx.
  apply Qeq_bool_iff. reflexivity.
Qed.

(** Every value has an equal among the distinct values, and the distinct
    values are values. *)
Lemma unique_from_covers (xs seen : list Cell) (x : Cell) :
  In x xs ->
  exists u, (In u seen \/ In u (unique_from seen xs)) /\ cell_eqb x u = true.
Proof.
  revert seen. induction xs as [|y xs IH]; intros seen; [intros []|].
  cbn [unique_from]. intros [<- | Hin].
  - destruct (existsb (cell_eqb y) seen) eqn:Ey.
    + apply existsb_exists in Ey as (u & Hu & Heq). exists u. auto.
    + exists y. split; [right; now left | apply cell_eqb_refl].
  - destruct (existsb (cell_eqb y) seen).
    + apply (IH seen Hin).
    + destruct (IH (y :: seen) Hin) as (u & [[<- | Hu] | Hu] & Heq).
      * exists y. split; [right; now left | exact Heq].
      * exists u. auto.
      * exists u. split; [right; now right | exact Heq].
Qed.

Lemma unique_from_subset (xs seen : list Cell) (u : Cell) :
  In u (unique_from seen xs) -> In u xs.
Proof.
  revert seen. induction xs as [|y xs IH]; intros seen; cbn; [auto|].
  destruct (existsb (cell_eqb y) seen).
  - intros Hin. right. now apply (IH seen).
  - intros [<- | Hin]; [now left | right; now apply (IH (y :: seen))].
Qed.

Lemma column_In (d : DataFrame) (name : string) (cs : list Cell)
    (row : list Cell) (c : Cell) :
  column d name = inr cs -> In row (rows d) ->
  row_get (columns d) row name = inr c -> In c cs.
Proof.
  unfold column, row_get. destruct (col_index name (columns d)) as [i|];
    [|discriminate].
  intros Hc Hrow Hget. injection Hc as <-. injection Hget as <-.
  apply in_map_iff. now exists row.
Qed.

(** A frame with a column of text has rows of mixed types: a loop over them
    reads every value in the type of its column. *)
Lemma object_column_rows (d : DataFrame) (name : string) :
  column_dtype d name = Some Object -> values d = rows d.
Proof.
  unfold column_dtype. destruct (col_index name (columns d)) as [i|];
    [|discriminate].
  intros Hi. apply values_rows. unfold upcasts, common_dtype.
  replace (existsb is_object (dtypes d)) with true; [reflexivity|].
  symmetry. apply existsb_exists. exists Object. split; [|reflexivity].
  eapply nth_error_In. exact Hi.
Qed.

Lemma select_frame (d sub : DataFrame) (names : list string) :
  select d names = inr sub ->
  exists ixs,
    select_indices (columns d) names = Some ixs /\
    sub = mkDF names (map (fun i => nth i (dtypes d) Object) ixs)
               (map (fun row => map (fun i => nth i row CNaN) ixs) (rows d)).
Proof.
  unfold select, missing_labels.
  destruct (select_indices (columns d) names) as [ixs|]; [|discriminate].
  intros E. injection E as <-. now exists ixs.
Qed.

Lemma select_columns (d sub : DataFrame) (names : list string) :
  select d names = inr sub -> columns sub = names.
Proof.
  intros Hsub. destruct (select_frame d sub names Hsub) as (ixs & _ & ->).
  reflexivity.
Qed.

Lemma map_nth_as_float64 (ixs : list nat) (row : list Cell) :
  map as_float64 (map (fun i => nth i row CNaN) ixs)
  = map (fun i => nth i (map as_float64 row) CNaN) ixs.
Proof.
  rewrite map_map. apply map_ext. intros i. now rewrite nth_as_float64.
Qed.

(** A row of a selection comes from a row of the frame, and reads the same
    in the selected columns when the rows of both are floats or the rows of
    neither. *)
Lemma selection_row (d sub : DataFrame) (names : list string)
    (r' : list Cell) :
  select d names = inr sub ->
  upcasts (dtypes sub) = upcasts (dtypes d) ->
  In r' (values (drop_duplicates sub)) ->
  exists row ixs,
    In row (values d) /\
    select_indices (columns d) names = Some ixs /\
    r' = map (fun i => nth i row CNaN) ixs.
Proof.
  intros Hsub Hup Hin.
  destruct (select_frame d sub names Hsub) as (ixs & Hix & ->).
  cbn [dtypes] in Hup.
  destruct (upcasts (dtypes d)) eqn:Ed.
  - rewrite values_float in Hin by exact Hup.
    rewrite (values_float d Ed).
    cbn [drop_duplicates rows columns] in Hin.
    apply in_map_iff in Hin as (r0 & <- & Hr0).
    apply drop_dup_from_subset in Hr0.
    apply in_map_iff in Hr0 as (row & <- & Hrow).
    exists (map as_float64 row), ixs.
    split; [now apply in_map|]. split; [exact Hix|].
    apply map_nth_as_float64.
  - rewrite values_rows in Hin by exact Hup.
    rewrite (values_rows d Ed).
    cbn [drop_duplicates rows columns] in Hin.
    apply drop_dup_from_subset in Hin.
    apply in_map_iff in Hin as (row & <- & Hrow).
    now exists row, ixs.
Qed.

(** A selection that starts with a column of text has rows of mixed
    types. *)
Lemma selection_of_text (d sub : DataFrame) (name : string)
    (others : list string) :
  column_dtype d name = Some Object ->
  select d (name :: others) = inr sub ->
  upcasts (dtypes sub) = false.
Proof.
  intros Hdt Hsub.
  destruct (select_frame d sub _ Hsub) as (ixs & Hix & ->).
  cbn [select_indices] in Hix. unfold column_dtype in Hdt.
  destruct (col_index name (columns d)) as [i|]; [|discriminate].
  destruct (select_indices (columns d) others) as [ixs'|]; [|discriminate].
  injection Hix as <-. cbn [dtypes map].
  rewrite (nth_error_nth _ _ Object Hdt). reflexivity.
Qed.

End Frames.

Section EdgesRefer.

Context `{World} `{Runtime}.

Import Analyzer.

(** A row of the selection for [has_weather_edges] has the country-month id
    of the row of the frame it comes from. *)
Lemma weather_row (d sub : DataFrame) (x : list Cell) (id : string) :
  select d ["ENTY_ID"; "CTRY_CODE"; "MONTH"] = inr sub ->
  upcasts (dtypes sub) = upcasts (dtypes d) ->
  In x (values (drop_duplicates sub)) ->
  cm_id_of ["ENTY_ID"; "CTRY_CODE"; "MONTH"] x = inr id ->
  exists row, In row (values d) /\ cm_id_of (columns d) row = inr id.
Proof.
  intros Hsel Hup Hin Hid.
  destruct (selection_row d sub _ x Hsel Hup Hin) as (row & ixs & Hrow & Hix & ->).
  exists row. split; [exact Hrow|].
  cbn [select_indices] in Hix. unfold cm_id_of, row_get in *.
  destruct (col_index "ENTY_ID" (columns d)) as [i|]; [|discriminate].
  destruct (col_index "CTRY_CODE" (columns d)) as [j|]; [|discriminate].
  destruct (col_index "MONTH" (columns d)) as [k|]; [|discriminate].
  injection Hix as <-. exact Hid.
Qed.

(** A row of a selection that starts with ENTY_ID has the ENTY_ID of the row
    of the frame it comes from. *)
Lemma entity_row (d sub : DataFrame) (others : list string) (x : list Cell)
    (c : Cell) :
  select d ("ENTY_ID" :: others) = inr sub ->
  upcasts (dtypes sub) = upcasts (dtypes d) ->
  In x (values (drop_duplicates sub)) ->
  row_get ("ENTY_ID" :: others) x "ENTY_ID" = inr c ->
  exists row, In row (values d) /\ row_get (columns d) row "ENTY_ID" = inr c.
Proof.
  intros Hsel Hup Hin Hget.
  destruct (selection_row d sub _ x Hsel Hup Hin) as (row & ixs & Hrow & Hix & ->).
  exists row. split; [exact Hrow|].
  cbn [select_indices] in Hix. unfold row_get in *.
  destruct (col_index "ENTY_ID" (columns d)) as [i|]; [|discriminate].
  destruct (select_indices (columns d) others) as [ixs'|]; [|discriminate].
  injection Hix as <-. exact Hget.
Qed.

Lemma inspection_params_entity (cols : list string) (row ps : list Cell) :
  inspection_params cols row = inr ps ->
  exists c, row_get cols row "ENTY_ID" = inr c /\
            nth 0 ps CNone = CStr (str_cell c).
Proof.
  unfold inspection_params, and_then, get_int, and_then.
  destruct (row_get cols row "ENTY_ID") as [e | c]; [discriminate|].
  repeat match goal with
    | |- match match ?x with _ => _ end with _ => _ end = _ -> _ => destruct x
    | |- match ?x with _ => _ end = _ -> _ => destruct x
    end; try discriminate.
  intros E. injection E as <-. now exists c.
Qed.

Ltac respects_frame :=
  repeat first
    [ lazymatch goal with
      | |- respects _ _ (bind the_df _) =>
          apply respects_bind_the_df; intros ? ?
      end
    | respects_step ].

Ltac unfold_inserts :=
  unfold for_distinct, insert_inspection;
  unfold execute; unfold the_cursor, the_connection.

Ltac same_frame d :=
  repeat match goal with
         | Hx : exists s, df s = Some d /\ df s = Some ?d0 |- _ =>
             let s0 := fresh "s" in
             let H1 := fresh "H" in
             let H2 := fresh "H" in
             destruct Hx as (s0 & H1 & H2);
             assert (d0 = d) by congruence; subst d0; clear H1 H2 s0
         end.

Lemma create_inspections_weather (d : DataFrame) :
  (forall sub, select d ["ENTY_ID"; "CTRY_CODE"; "MONTH"] = inr sub ->
               upcasts (dtypes sub) = upcasts (dtypes d)) ->
  respects (fun s => df s = Some d) (weather_refers_to d)
    create_inspections_and_relationships.
Proof.
  intros Hup.
  unfold create_inspections_and_relationships. unfold_inserts.
  respects_frame; try exact I; try (intros; assumption);
    try (cbn; intros Esql; discriminate Esql).
  same_frame d. cbn. intros _.
  match goal with
  | Hsel : select d _ = inr ?sub, Hin : In ?x (values (drop_duplicates ?sub)),
    Hid : cm_id_of _ ?x = inr ?id |- _ =>
      destruct (weather_row d sub x id Hsel (Hup sub Hsel) Hin Hid)
        as (row & Hrow & Hcm)
  end.
  eexists _, _. split; [eassumption|]. split; [eassumption | reflexivity].
Qed.

Ltac entity_of_selection d Hstored :=
  match goal with
  | Hsel : select d ?names = inr ?sub,
    Hin : In ?x (values (drop_duplicates ?sub)),
    Hget : row_get _ ?x "ENTY_ID" = inr ?c |- _ =>
      let Hup := fresh "Hup" in
      assert (Hup : upcasts (dtypes sub) = upcasts (dtypes d))
        by (rewrite (proj1 Hstored);
            apply (proj2 Hstored names sub); [cbn; tauto | exact Hsel]);
      destruct (entity_row d sub _ x c Hsel Hup Hin Hget) as (row & Hrow & Hc)
  end;
  eexists _, _; split; [eassumption|]; split; [eassumption | reflexivity].

Lemma create_inspections_entity (d : DataFrame) :
  read_as_stored d ->
  respects (fun s => df s = Some d) (entity_refers_to d)
    create_inspections_and_relationships.
Proof.
  intros Hstored.
  unfold create_inspections_and_relationships. unfold_inserts.
  respects_frame; try exact I; try (intros; assumption).
  all: same_frame d; cbn [entity_refers_to].
  - match goal with
    | Hp : inspection_params _ ?row = inr ?ps |- _ =>
        destruct (inspection_params_entity _ row ps Hp) as (c & Hc & Hn)
    end.
    eexists _, c. split; [eassumption|]. split; [exact Hc | exact Hn].
  - entity_of_selection d Hstored.
  - entity_of_selection d Hstored.
  - entity_of_selection d Hstored.
  - entity_of_selection d Hstored.
Qed.

(** A frame in which ENTY_ID is a column of text is read as stored. *)
Lemma text_ids_read_as_stored (d : DataFrame) :
  column_dtype d "ENTY_ID" = Some Object -> read_as_stored d.
Proof.
  intros Htext. split.
  - unfold column_dtype in Htext. unfold upcasts, common_dtype.
    destruct (col_index "ENTY_ID" (columns d)) as [i|]; [|discriminate].
    replace (existsb is_object (dtypes d)) with true; [reflexivity|].
    symmetry. apply existsb_exists. exists Object. split; [|reflexivity].
    eapply nth_error_In. exact Htext.
  - intros names sub Hin Hsel. cbn in Hin.
    repeat (destruct Hin as [<- | Hin];
            [exact (selection_of_text d sub _ _ Htext Hsel)|]).
    contradiction.
Qed.

(** The entity ids that a [create_nodes] that returns has inserted. *)
Lemma create_nodes_entities (s : PestDataAnalyzer) (w : W) (d : DataFrame)
    (ids : list Cell) :
  df s = Some d ->
  column d "ENTY_ID" = inr ids ->
  outcome (create_nodes s w) = inr tt ->
  bind_column 0 (binds_of entities_sql (trace (create_nodes s w)))
  = map (fun e => CStr (str_cell e)) (unique ids).
Proof.
  intros Hdf Hids Hok.
  destruct (create_nodes_statements s w d Hdf Hok)
    as (ids' & codes & ms & ts & cms & Hids' & _ & _ & _ & _ & Hst).
  assert (ids' = ids) as -> by congruence.
  rewrite binds_of_pick, Hst, !pick_app.
  rewrite pick_map_same.
  rewrite (pick_map_other entities_sql countries_sql) by reflexivity.
  rewrite (pick_map_other entities_sql months_sql) by reflexivity.
  rewrite pick_target_rows by reflexivity.
  rewrite (pick_map_other entities_sql country_months_sql (fun b => b))
    by reflexivity.
  rewrite !app_nil_r. unfold bind_column. rewrite map_map. reflexivity.
Qed.


(** X18: the entity ids of [entities] are the values of the ENTY_ID column,
    each printed in the type of the column; the other statements print the
    ENTY_ID of a row of the frame or of a selection.  When no loop reads its
    rows as floats (as when ENTY_ID is a column of text), and values of the
    column that compare equal print alike (as texts do), every statement
    that [create_inspections_and_relationships] executes, in any run, binds
    as its entity id one that a [create_nodes] that returned on the same
    frame has inserted into [entities]. *)
Theorem rows_refer_to_entities
    (s s' : PestDataAnalyzer) (w w' : W) (d : DataFrame) (ids : list Cell) :
  df s = Some d ->
  df s' = Some d ->
  column d "ENTY_ID" = inr ids ->
  read_as_stored d ->
  prints_alike ids ->
  outcome (create_nodes s w) = inr tt ->
  forall cur sql binds o,
    In (Called (CurExecute cur sql binds) o)
       (trace (create_inspections_and_relationships s' w')) ->
    In (nth 0 binds CNone)
       (bind_column 0 (binds_of entities_sql (trace (create_nodes s w)))).
Proof.
  intros Hdf Hdf' Hids Hstored Halike Hok cur sql binds o Hin.
  destruct (create_inspections_entity d Hstored s' w' Hdf') as [_ Hall].
  rewrite Forall_forall in Hall. specialize (Hall _ Hin).
  destruct Hall as (row & c & Hrow & Hc & ->).
  rewrite (values_rows d (proj1 Hstored)) in Hrow.
  rewrite (create_nodes_entities s w d ids Hdf Hids Hok).
  pose proof (column_In d "ENTY_ID" ids row c Hids Hrow Hc) as Hcin.
  destruct (unique_from_covers ids [] c Hcin) as (u & [[] | Hu] & Heq).
  apply in_map_iff. exists u. split; [|exact Hu].
  f_equal. symmetry. apply Halike; [exact Hcin | | exact Heq].
  now apply (unique_from_subset ids []).
Qed.

End EdgesRefer.


Lemma rows_refer_to_entities_witness :
  In (nth 0 [CStr "E2"; CStr "FEB"] CNone)
     (bind_column 0
        (binds_of entities_sql
           (trace (Analyzer.create_nodes (H := pipeline_world)
                     (H0 := demo_runtime) loaded_analyzer 0%nat)))).
Proof.
  apply (rows_refer_to_entities
           (H := pipeline_world) (H0 := demo_runtime)
           loaded_analyzer loaded_analyzer 0%nat 0%nat clean_frame
           [CStr "E1"; CStr "E2"; CStr "E1"; CStr "E2"]
           eq_refl eq_refl eq_refl)
    with (cur := mkCur 1%nat 0%nat) (sql := shipped_in_sql) (o := None).
  - split; [reflexivity|].
    intros names sub Hin Hsel. cbn in Hin.
    repeat (destruct Hin as [<- | Hin];
            [vm_compute in Hsel; injection Hsel as <-; reflexivity|]).
    contradiction.
  - intros a b Ha Hb.
    repeat (destruct Ha as [<- | Ha]; [|]);
      repeat (destruct Hb as [<- | Hb]; [|]);
      try contradiction; cbn; intros Heq;
      first [reflexivity | discriminate Heq].
  - vm_compute. reflexivity.
  - vm_compute. repeat (first [left; reflexivity | right]).
Defined.

(** ** The probe of the PGX server, and [load_data] as a whole *)

Lemma calls_of_app (a b : list Event) :
  calls_of (a ++ b) = (calls_of a ++ calls_of b)%list.
Proof. apply flat_map_app. Qed.

Lemma silent_calls (tr : list Event) : Forall silent tr -> calls_of tr = [].
Proof.
  induction 1 as [|e tr He Htr IH]; [reflexivity|].
  change (e :: tr) with ([e] ++ tr)%list. rewrite calls_of_app, IH.
  destruct e; [contradiction | reflexivity | reflexivity].
Qed.

Section ProbeAndLoad.

Context `{World} `{Runtime}.

Import Analyzer.

Lemma probe_pgx_returns (s : PestDataAnalyzer) (w : W) :
  outcome (probe_pgx s w) = inr tt.
Proof.
  unfold probe_pgx. unfold_monad. ask_env; simpl_res; [reflexivity|].
  destruct (status_code a =? 200)%Z; simpl_res; [|reflexivity].
  destruct (json_body a); reflexivity.
Qed.

(** X19: the probe of the PGX server never raises, whatever the server
    does: it sends one GET to [/version] below [pgx_base_url] with a timeout
    of 5 seconds, clears the three PGX fields and returns.  It reports the
    REST API as ready exactly when the answer has status 200 and a JSON
    body.  So [connect] raises only when its retry loop does. *)
Theorem probe_pgx_never_raises (s : PestDataAnalyzer) (w : W) :
  let request := Http GET (pgx_base_url s ++ "/version") None [] (Some 5%Z) in
  let r := probe_pgx s w in
  outcome r = inr tt /\
  final r = clear_pgx s /\
  calls_of (trace r) = [request] /\
  (In (Logged INFO "PGX REST API ready for use") (trace r) <->
   exists resp doc,
     fst (env request w) = inr resp /\
     status_code resp = 200%Z /\ json_body resp = Some doc) /\
  (forall e,
     outcome (connect s w) = inl e ->
     outcome (retry_loop (seq 1 max_retries)
                (mkDsn (oracle_host s) (oracle_port s) (oracle_service s)) s w)
     = inl e).
Proof.
  cbv zeta. split; [|split; [|split; [|split]]].
  - apply probe_pgx_returns.
  - unfold probe_pgx. unfold_monad. ask_env; simpl_res; [reflexivity|].
    destruct (status_code a =? 200)%Z; simpl_res; [|reflexivity].
    destruct (json_body a); reflexivity.
  - unfold probe_pgx. unfold_monad. ask_env; simpl_res; [reflexivity|].
    destruct (status_code a =? 200)%Z; simpl_res; [|reflexivity].
    destruct (json_body a); reflexivity.
  - unfold probe_pgx. unfold_monad.
    destruct (env (Http GET (pgx_base_url s ++ "/version") None [] (Some 5%Z)) w)
      as [[e | resp] w1]; simpl_res.
    + split.
      * intros Hin. cbn in Hin.
        repeat (destruct Hin as [Hin | Hin]; [discriminate Hin|]).
        contradiction.
      * intros (resp & doc & Hresp & _). discriminate Hresp.
    + destruct (Z.eqb_spec (status_code resp) 200) as [Hst | Hst]; simpl_res.
      * destruct (json_body resp) as [doc|] eqn:Ej; simpl_res.
        -- split; [intros _; now exists resp, doc|].
           intros _. cbn. auto 10.
        -- split.
           ++ intros Hin. cbn in Hin.
              repeat (destruct Hin as [Hin | Hin]; [discriminate Hin|]).
              contradiction.
           ++ intros (resp' & doc & Hresp & _ & Hj).
              injection Hresp as <-. congruence.
      * split.
        -- intros Hin. cbn in Hin.
           repeat (destruct Hin as [Hin | Hin]; [discriminate Hin|]).
           contradiction.
        -- intros (resp' & doc & Hresp & Hs & _).
           injection Hresp as <-. contradiction.
  - intros e. rewrite connect_run. cbv zeta.
    destruct (outcome (retry_loop _ _ s w)) as [e1 | []] eqn:Er; simpl_res;
      [intros Heq; injection Heq as <-; reflexivity|].
    intros Hp. rewrite probe_pgx_returns in Hp. discriminate Hp.
Qed.

(** The conversion loop keeps the columns of the frame and the other fields
    of the analyzer, also when it raises half-way. *)
Lemma convert_loop_keeps (cols : list string) (d : DataFrame)
    (s : PestDataAnalyzer) (w : W) :
  df s = Some d ->
  exists o sf d',
    for_each cols convert_step s w = mkRes o sf w [] /\
    df sf = Some d' /\ columns d' = columns d /\
    len d' = len d /\
    set_df None sf = set_df None s.
Proof.
  revert d s. induction cols as [|col cols IH]; intros d s Hd; cbn [for_each].
  - exists (inr tt), s, d. repeat split; assumption || reflexivity.
  - unfold bind. rewrite (convert_step_run col d s w Hd).
    unfold has_column.
    destruct (col_index col (columns d)) as [i|] eqn:Hi.
    + destruct (convert_column d col) as [e | d1] eqn:E1.
      * exists (inl e), s, d. repeat split; assumption || reflexivity.
      * destruct (convert_column_rows _ _ _ _ Hi E1) as [Hc1 Hr1].
        destruct (IH d1 (set_df (Some d1) s) eq_refl)
          as (o & sf & d' & -> & Hsf & Hc & Hl & Hother).
        exists o, sf, d'. split; [reflexivity|]. split; [exact Hsf|].
        split; [congruence|]. split; [|exact Hother].
        rewrite Hl. unfold len. symmetry. eapply Forall2_length. exact Hr1.
    + destruct (IH d s Hd) as (o & sf & d' & -> & Hsf & Hc & Hl & Hother).
      exists o, sf, d'. repeat split; assumption.
Qed.

(** X20: [load_data] makes one external call in every run, the read of the
    CSV file at [csv_path], and changes no field of the analyzer other than
    [df].  When the read raises, [load_data] raises with the analyzer
    untouched.  When the read returns, [df] holds a frame with the columns
    of the file whatever happens afterwards: a failure of the header test or
    of a conversion leaves the file, as far as it was converted, in the
    analyzer. *)
Theorem load_data_reads_once (s : PestDataAnalyzer) (w : W) :
  let r := load_data s w in
  calls_of (trace r) = [ReadCsv (csv_path s)] /\
  set_df None (final r) = set_df None s /\
  match fst (env (ReadCsv (csv_path s)) w) with
  | inl e => outcome r = inl e /\ final r = s
  | inr raw =>
      exists d', df (final r) = Some d' /\ columns d' = columns raw /\
                 (len d' = len raw \/ S (len d') = len raw)
  end.
Proof.
  cbv zeta. unfold load_data, the_df. unfold_monad.
  destruct (env (ReadCsv (csv_path s)) w) as [[e | raw] w1]; simpl_res.
  { repeat split. }
  destruct (is_header_row raw) as [e | hdr] eqn:Ehdr; simpl_res.
  { split; [reflexivity|]. split; [reflexivity|].
    exists raw. split; [reflexivity|]. split; [reflexivity | now left]. }
  assert (Hrows : hdr = true -> S (len (drop_first_row raw)) = len raw).
  { intros ->.
    destruct (is_header_row_spec raw true Ehdr)
      as (first & row0 & rest & _ & Hraw & _).
    unfold len, drop_first_row. cbn [rows]. now rewrite Hraw. }
  destruct hdr; simpl_res.
  - match goal with
    | |- context [for_each numeric_columns convert_step ?s1 ?w0] =>
        destruct (convert_loop_keeps numeric_columns (drop_first_row raw)
                    s1 w0 eq_refl)
          as (o & sf & d' & -> & Hsf & Hc & Hl & Hother)
    end.
    assert (Hlen : S (len d') = len raw).
    { rewrite Hl. now apply Hrows. }
    destruct o as [e | []]; simpl_res.
    + split; [reflexivity|]. split; [exact Hother|]. exists d'. auto.
    + rewrite Hsf. simpl_res.
      destruct (column d' "ENTY_ID"); simpl_res;
        (split; [reflexivity|]; split; [exact Hother|]; exists d'; auto).
  - match goal with
    | |- context [for_each numeric_columns convert_step ?s1 ?w0] =>
        destruct (convert_loop_keeps numeric_columns raw s1 w0 eq_refl)
          as (o & sf & d' & -> & Hsf & Hc & Hl & Hother)
    end.
    destruct o as [e | []]; simpl_res.
    + split; [reflexivity|]. split; [exact Hother|]. exists d'. auto.
    + rewrite Hsf. simpl_res.
      destruct (column d' "ENTY_ID"); simpl_res;
        (split; [reflexivity|]; split; [exact Hother|]; exists d'; auto).
Qed.

End ProbeAndLoad.

(** ** The rows written by [create_inspections_and_relationships] *)

Section Relationships.

Context `{World} `{Runtime}.

Import Analyzer.

(** A loop whose turns leave the analyzer as it is: in a run that returns,
    every turn returned. *)
Lemma for_each_statements_ok {X} (xs : list X) (body : X -> Run unit)
    (g : X -> list (string * list Cell)) (Q : X -> Prop)
    (s : PestDataAnalyzer) :
  (forall x w, outcome (body x s w) = inr tt ->
               final (body x s w) = s /\
               statements (trace (body x s w)) = g x /\ Q x) ->
  forall w,
    outcome (for_each xs body s w) = inr tt ->
    final (for_each xs body s w) = s /\
    statements (trace (for_each xs body s w)) = flat_map g xs /\
    Forall Q xs.
Proof.
  intros Hbody. induction xs as [|x xs IH]; intros w; cbn [for_each flat_map].
  - intros _. repeat split. constructor.
  - unfold bind. specialize (Hbody x w).
    destruct (body x s w) as [[e | []] s1 w1 t1]; cbn [outcome final trace] in *;
      [discriminate|].
    destruct (Hbody eq_refl) as (-> & Ht1 & HQ).
    specialize (IH w1).
    destruct (for_each xs body s w1) as [o2 s2 w2 t2];
      cbn [outcome final trace] in *.
    intros Hok. destruct (IH Hok) as (-> & Ht2 & HQs).
    split; [reflexivity|]. split; [|now constructor].
    now rewrite statements_app, Ht1, Ht2.
Qed.

Ltac solve_row s :=
  let x := fresh "x" in
  let w' := fresh "w" in
  intros x w'; cbv beta;
  unfold inspection_row, shipped_in_row, is_from_row, has_weather_row,
    has_result_row;
  unfold insert_inspection, the_cursor; unfold_monad;
  repeat match goal with
         | |- context [cm_id_of ?c ?r] => destruct (cm_id_of c r) eqn:?
         | |- context [inspection_params ?c ?r] =>
             destruct (inspection_params c r) eqn:?
         | |- context [get_int ?c ?r ?n] => destruct (get_int c r n) eqn:?
         | |- context [row_get ?c ?r ?n] => destruct (row_get c r n) eqn:?
         end;
  simpl_res; try discriminate;
  destruct (cursor s); simpl_res; try discriminate;
  ask_env; simpl_res; try discriminate;
  intros _; repeat split; eauto.

Ltac run_rows g Q :=
  match goal with
  | |- context [for_each ?xs ?body ?s ?w] =>
      let Hloop := fresh "Hloop" in
      let Hturn := fresh "Hturn" in
      assert (Hturn : forall x w0, outcome (body x s w0) = inr tt ->
                        final (body x s w0) = s /\
                        statements (trace (body x s w0)) = g x /\ Q x)
        by solve_row s;
      pose proof (for_each_statements_ok xs body g Q s Hturn w) as Hloop;
      clear Hturn;
      destruct (for_each xs body s w) as [[?e | []] ?s ?w ?t];
      cbn [outcome final trace] in Hloop; simpl_res; [discriminate|];
      destruct (Hloop eq_refl) as (-> & ?Ht & ?HQ); clear Hloop
  end.

(** The statements of a [create_inspections_and_relationships] that returns,
    as a function of the frame. *)
Lemma create_inspections_statements (s : PestDataAnalyzer) (w : W)
    (d : DataFrame) :
  df s = Some d ->
  outcome (create_inspections_and_relationships s w) = inr tt ->
  exists sub1 sub2 sub3 sub4,
    select d ["ENTY_ID"; "MONTH"] = inr sub1 /\
    select d ["ENTY_ID"; "CTRY_CODE"] = inr sub2 /\
    select d ["ENTY_ID"; "CTRY_CODE"; "MONTH"] = inr sub3 /\
    select d ["ENTY_ID"; "TARGET_PROXY"] = inr sub4 /\
    Forall (fun row => List.length (inspection_row (columns d) row) = 1%nat)
           (values d) /\
    Forall (fun row => List.length (shipped_in_row (columns sub1) row) = 1%nat)
           (values (drop_duplicates sub1)) /\
    Forall (fun row => List.length (is_from_row (columns sub2) row) = 1%nat)
           (values (drop_duplicates sub2)) /\
    Forall (fun row => List.length (has_weather_row (columns sub3) row) = 1%nat)
           (values (drop_duplicates sub3)) /\
    Forall (fun row => List.length (has_result_row (columns sub4) row) = 1%nat)
           (values (drop_duplicates sub4)) /\
    statements (trace (create_inspections_and_relationships s w))
    = (flat_map (inspection_row (columns d)) (values d)
       ++ flat_map (shipped_in_row (columns sub1)) (values (drop_duplicates sub1))
       ++ flat_map (is_from_row (columns sub2)) (values (drop_duplicates sub2))
       ++ flat_map (has_weather_row (columns sub3)) (values (drop_duplicates sub3))
       ++ flat_map (has_result_row (columns sub4))
                   (values (drop_duplicates sub4)))%list.
Proof.
  intros Hdf. unfold create_inspections_and_relationships, for_distinct,
    the_df, the_connection.
  unfold_monad. repeat (rewrite Hdf; simpl_res).
  run_rows (inspection_row (columns d))
           (fun row => List.length (inspection_row (columns d) row) = 1%nat).
  destruct (connection s) as [c|] eqn:Hconn; simpl_res; [|discriminate].
  ask_env; simpl_res; [discriminate|].
  rewrite Hdf. simpl_res.
  destruct (select d ["ENTY_ID"; "MONTH"]) as [e | sub1] eqn:E1; simpl_res;
    [discriminate|].
  assert (C1 : columns sub1 = ["ENTY_ID"; "MONTH"]).
  { exact (select_columns _ _ _ E1). }
  run_rows (shipped_in_row ["ENTY_ID"; "MONTH"])
           (fun row => List.length (shipped_in_row ["ENTY_ID"; "MONTH"] row)
                       = 1%nat).
  rewrite Hdf. simpl_res.
  destruct (select d ["ENTY_ID"; "CTRY_CODE"]) as [e | sub2] eqn:E2; simpl_res;
    [discriminate|].
  assert (C2 : columns sub2 = ["ENTY_ID"; "CTRY_CODE"]).
  { exact (select_columns _ _ _ E2). }
  run_rows (is_from_row ["ENTY_ID"; "CTRY_CODE"])
           (fun row => List.length (is_from_row ["ENTY_ID"; "CTRY_CODE"] row)
                       = 1%nat).
  rewrite Hdf. simpl_res.
  destruct (select d ["ENTY_ID"; "CTRY_CODE"; "MONTH"]) as [e | sub3] eqn:E3;
    simpl_res; [discriminate|].
  assert (C3 : columns sub3 = ["ENTY_ID"; "CTRY_CODE"; "MONTH"]).
  { exact (select_columns _ _ _ E3). }
  run_rows (has_weather_row ["ENTY_ID"; "CTRY_CODE"; "MONTH"])
           (fun row =>
              List.length (has_weather_row ["ENTY_ID"; "CTRY_CODE"; "MONTH"] row)
              = 1%nat).
  rewrite Hdf. simpl_res.
  destruct (select d ["ENTY_ID"; "TARGET_PROXY"]) as [e | sub4] eqn:E4;
    simpl_res; [discriminate|].
  assert (C4 : columns sub4 = ["ENTY_ID"; "TARGET_PROXY"]).
  { exact (select_columns _ _ _ E4). }
  run_rows (has_result_row ["ENTY_ID"; "TARGET_PROXY"])
           (fun row =>
              List.length (has_result_row ["ENTY_ID"; "TARGET_PROXY"] row)
              = 1%nat).
  rewrite Hconn. simpl_res.
  ask_env; simpl_res; [discriminate|].
  intros _. exists sub1, sub2, sub3, sub4.
  rewrite C1, C2, C3, C4.
  repeat (split; [reflexivity || assumption|]).
  cbn [app].
  repeat (rewrite ?statements_app;
          change (statements (?e :: ?l))
            with (statements [e] ++ statements l)%list;
          cbn [statements flat_map app]).
  fold (statements t). fold (statements t0). fold (statements t1).
  fold (statements t2). fold (statements t3).
  rewrite ?statements_app.
  repeat match goal with
         | Ht : statements _ = _ |- _ => rewrite Ht; clear Ht
         end.
  cbn [statements flat_map app]. rewrite ?app_nil_r. reflexivity.
Qed.

End Relationships.

Lemma pick_flat_map_text {X} (sql : string)
    (g : X -> list (string * list Cell)) (xs : list X) :
  (forall x sb, In sb (g x) -> (fst sb =? sql)%string = true) ->
  pick sql (flat_map g xs) = map snd (flat_map g xs).
Proof.
  intros Hg. induction xs as [|x xs IH]; [reflexivity|].
  cbn [flat_map]. rewrite pick_app, map_app, IH. f_equal.
  specialize (Hg x). induction (g x) as [|sb l IHl]; [reflexivity|].
  change (sb :: l) with ([sb] ++ l)%list. rewrite pick_app, map_app.
  rewrite IHl by (intros sb' Hin; apply Hg; now right).
  unfold pick at 1. cbn [flat_map app]. rewrite (Hg sb) by now left.
  reflexivity.
Qed.

Lemma pick_flat_map_none {X} (sql : string)
    (g : X -> list (string * list Cell)) (xs : list X) :
  (forall x sb, In sb (g x) -> (fst sb =? sql)%string = false) ->
  pick sql (flat_map g xs) = [].
Proof.
  intros Hg. apply pick_flat_map_other. intros x. specialize (Hg x).
  induction (g x) as [|sb l IHl]; [reflexivity|].
  change (sb :: l) with ([sb] ++ l)%list. rewrite pick_app.
  rewrite IHl by (intros sb' Hin; apply Hg; now right).
  unfold pick. cbn [flat_map app]. rewrite (Hg sb) by now left. reflexivity.
Qed.

Lemma flat_map_length_one {X Y} (g : X -> list Y) (xs : list X) :
  Forall (fun x => List.length (g x) = 1%nat) xs ->
  List.length (flat_map g xs) = List.length xs.
Proof.
  induction 1 as [|x xs Hx Hxs IH]; [reflexivity|].
  cbn [flat_map]. rewrite length_app, Hx, IH. reflexivity.
Qed.

Section RelationshipProperties.

Context `{World} `{Runtime}.

Import Analyzer.

Ltac text_of_rows :=
  let x := fresh "x" in
  let sb := fresh "sb" in
  let Hin := fresh "Hin" in
  intros x sb;
  unfold inspection_row, shipped_in_row, is_from_row, has_weather_row,
    has_result_row;
  repeat match goal with
         | |- context [match ?o with inl _ => _ | inr _ => _ end] =>
             destruct o
         end;
  cbn [In]; intros Hin; try contradiction;
  destruct Hin as [<- | []]; reflexivity.

Lemma inspection_rows_params (cols : list string) (rows : list (list Cell)) :
  Forall (fun row => List.length (inspection_row cols row) = 1%nat) rows ->
  Forall2 (fun row ps => inspection_params cols row = inr ps) rows
          (map snd (flat_map (inspection_row cols) rows)).
Proof.
  induction 1 as [|row rows Hrow Hrows IH]; [constructor|].
  cbn [flat_map]. rewrite map_app. unfold inspection_row in Hrow |- * at 1.
  destruct (inspection_params cols row) as [e | ps] eqn:Eps; [discriminate|].
  cbn [map snd app]. constructor; [exact Eps | exact IH].
Qed.

(** The rows of [inspections] that a run that returns has inserted: one for
    every row that the loop over the frame reads, with the values of that
    row. *)
Lemma inspection_binds (s : PestDataAnalyzer) (w : W) (d : DataFrame) :
  df s = Some d ->
  outcome (create_inspections_and_relationships s w) = inr tt ->
  Forall2 (fun row ps => inspection_params (columns d) row = inr ps)
          (values d)
          (binds_of inspection_sql
             (trace (create_inspections_and_relationships s w))).
Proof.
  intros Hdf Hok.
  destruct (create_inspections_statements s w d Hdf Hok)
    as (sub1 & sub2 & sub3 & sub4 & E1 & E2 & E3 & E4
        & Q0 & Q1 & Q2 & Q3 & Q4 & Hst).
  rewrite !binds_of_pick, Hst, !pick_app.
  rewrite (pick_flat_map_text inspection_sql) by text_of_rows.
  rewrite (pick_flat_map_none inspection_sql (shipped_in_row _))
    by text_of_rows.
  rewrite (pick_flat_map_none inspection_sql (is_from_row _))
    by text_of_rows.
  rewrite (pick_flat_map_none inspection_sql (has_weather_row _))
    by text_of_rows.
  rewrite (pick_flat_map_none inspection_sql (has_result_row _))
    by text_of_rows.
  rewrite !app_nil_r. now apply inspection_rows_params.
Qed.

(** The entity ids of rows of [inspections]: the text of the ENTY_ID of the
    rows they were made of. *)
Lemma inspection_entity_ids (cols : list string) (i : nat)
    (vs binds : list (list Cell)) :
  col_index "ENTY_ID" cols = Some i ->
  Forall2 (fun row ps => inspection_params cols row = inr ps) vs binds ->
  bind_column 0 binds = map (fun row => CStr (str_cell (nth i row CNaN))) vs.
Proof.
  intros Hi. induction 1 as [|row ps vs binds Hps Hrest IH]; [reflexivity|].
  cbn [bind_column map]. fold (bind_column 0 binds). rewrite IH. f_equal.
  destruct (inspection_params_entity cols row ps Hps) as (c & Hc & ->).
  unfold row_get in Hc. rewrite Hi in Hc. now injection Hc as <-.
Qed.

(** X21: a [create_inspections_and_relationships] that returns has inserted
    one row of [inspections] for every row of the frame, in the order of the
    frame and with the values of that row as the loop reads it ([values]:
    a row of floats when the columns are numeric and not all of one integer
    type), and one row of each edge table for every distinct combination of
    the columns that the edge is made of. *)
Theorem inspections_one_per_row (s : PestDataAnalyzer) (w : W) (d : DataFrame) :
  df s = Some d ->
  outcome (create_inspections_and_relationships s w) = inr tt ->
  let tr := trace (create_inspections_and_relationships s w) in
  Forall2 (fun row ps => inspection_params (columns d) row = inr ps)
          (values d) (binds_of inspection_sql tr) /\
  (exists sub, select d ["ENTY_ID"; "MONTH"] = inr sub /\
     List.length (binds_of shipped_in_sql tr) = len (drop_duplicates sub)) /\
  (exists sub, select d ["ENTY_ID"; "CTRY_CODE"] = inr sub /\
     List.length (binds_of is_from_sql tr) = len (drop_duplicates sub)) /\
  (exists sub, select d ["ENTY_ID"; "CTRY_CODE"; "MONTH"] = inr sub /\
     List.length (binds_of has_weather_sql tr) = len (drop_duplicates sub)) /\
  (exists sub, select d ["ENTY_ID"; "TARGET_PROXY"] = inr sub /\
     List.length (binds_of has_result_sql tr) = len (drop_duplicates sub)).
Proof.
  intros Hdf Hok. cbv zeta.
  destruct (create_inspections_statements s w d Hdf Hok)
    as (sub1 & sub2 & sub3 & sub4 & E1 & E2 & E3 & E4
        & Q0 & Q1 & Q2 & Q3 & Q4 & Hst).
  split; [now apply inspection_binds|].
  rewrite !binds_of_pick, Hst, !pick_app.
  split; [|split; [|split]].
  - exists sub1. split; [exact E1|].
    rewrite (pick_flat_map_none shipped_in_sql (inspection_row _))
      by text_of_rows.
    rewrite (pick_flat_map_text shipped_in_sql) by text_of_rows.
    rewrite (pick_flat_map_none shipped_in_sql (is_from_row _))
      by text_of_rows.
    rewrite (pick_flat_map_none shipped_in_sql (has_weather_row _))
      by text_of_rows.
    rewrite (pick_flat_map_none shipped_in_sql (has_result_row _))
      by text_of_rows.
    cbn [app]. rewrite !app_nil_r, length_map, <- values_length.
    now apply flat_map_length_one.
  - exists sub2. split; [exact E2|].
    rewrite (pick_flat_map_none is_from_sql (inspection_row _))
      by text_of_rows.
    rewrite (pick_flat_map_none is_from_sql (shipped_in_row _))
      by text_of_rows.
    rewrite (pick_flat_map_text is_from_sql) by text_of_rows.
    rewrite (pick_flat_map_none is_from_sql (has_weather_row _))
      by text_of_rows.
    rewrite (pick_flat_map_none is_from_sql (has_result_row _))
      by text_of_rows.
    cbn [app]. rewrite !app_nil_r, length_map, <- values_length.
    now apply flat_map_length_one.
  - exists sub3. split; [exact E3|].
    rewrite (pick_flat_map_none has_weather_sql (inspection_row _))
      by text_of_rows.
    rewrite (pick_flat_map_none has_weather_sql (shipped_in_row _))
      by text_of_rows.
    rewrite (pick_flat_map_none has_weather_sql (is_from_row _))
      by text_of_rows.
    rewrite (pick_flat_map_text has_weather_sql) by text_of_rows.
    rewrite (pick_flat_map_none has_weather_sql (has_result_row _))
      by text_of_rows.
    cbn [app]. rewrite !app_nil_r, length_map, <- values_length.
    now apply flat_map_length_one.
  - exists sub4. split; [exact E4|].
    rewrite (pick_flat_map_none has_result_sql (inspection_row _))
      by text_of_rows.
    rewrite (pick_flat_map_none has_result_sql (shipped_in_row _))
      by text_of_rows.
    rewrite (pick_flat_map_none has_result_sql (is_from_row _))
      by text_of_rows.
    rewrite (pick_flat_map_none has_result_sql (has_weather_row _))
      by text_of_rows.
    rewrite (pick_flat_map_text has_result_sql) by text_of_rows.
    cbn [app]. rewrite length_map, <- values_length.
    now apply flat_map_length_one.
Qed.

(** X22: when all columns of the frame are numeric and not all of one
    integer type, the loop of [create_inspections_and_relationships] over
    the frame reads rows of floats.  The entity id of every row of
    [inspections] is then the text of the ENTY_ID as a float, while the
    entity ids of [entities], which [create_nodes] takes from the column
    itself, are the texts of the distinct values in the type of the column:
    an integer id reaches [entities] as the text of the integer and
    [inspections] as the text of the float. *)
Theorem float_rows_write_float_ids
    (s s' : PestDataAnalyzer) (w w' : W) (d : DataFrame) (i : nat) :
  df s = Some d ->
  df s' = Some d ->
  col_index "ENTY_ID" (columns d) = Some i ->
  upcasts (dtypes d) = true ->
  outcome (create_nodes s w) = inr tt ->
  outcome (create_inspections_and_relationships s' w') = inr tt ->
  bind_column 0 (binds_of entities_sql (trace (create_nodes s w)))
  = map (fun c => CStr (str_cell c))
        (unique (map (fun row => nth i row CNaN) (rows d))) /\
  bind_column 0 (binds_of inspection_sql
                   (trace (create_inspections_and_relationships s' w')))
  = map (fun row => CStr (str_cell (as_float64 (nth i row CNaN)))) (rows d).
Proof.
  intros Hdf Hdf' Hi Hup Hnodes Hok. split.
  - apply (create_nodes_entities s w d _ Hdf); [|exact Hnodes].
    unfold column. now rewrite Hi.
  - rewrite (inspection_entity_ids (columns d) i (values d) _ Hi
               (inspection_binds s' w' d Hdf' Hok)).
    rewrite (values_float d Hup), map_map. apply map_ext.
    intros row. now rewrite nth_as_float64.
Qed.

End RelationshipProperties.

Lemma inspections_one_per_row_witness :
  let tr := trace (Analyzer.create_inspections_and_relationships
                     (H := pipeline_world) (H0 := demo_runtime)
                     numeric_analyzer 0%nat) in
  bind_column 0 (binds_of Analyzer.inspection_sql tr)
  = [CStr "101.0"; CStr "102.0"; CStr "101.0"] /\
  Forall2 (fun row ps =>
             @Analyzer.inspection_params demo_runtime (columns numeric_frame) row
             = inr ps)
          (values numeric_frame) (binds_of Analyzer.inspection_sql tr) /\
  (exists sub, select numeric_frame ["ENTY_ID"; "MONTH"] = inr sub /\
     List.length (binds_of shipped_in_sql tr) = len (drop_duplicates sub)) /\
  (exists sub, select numeric_frame ["ENTY_ID"; "CTRY_CODE"] = inr sub /\
     List.length (binds_of is_from_sql tr) = len (drop_duplicates sub)) /\
  (exists sub, select numeric_frame ["ENTY_ID"; "CTRY_CODE"; "MONTH"] = inr sub /\
     List.length (binds_of has_weather_sql tr) = len (drop_duplicates sub)) /\
  (exists sub, select numeric_frame ["ENTY_ID"; "TARGET_PROXY"] = inr sub /\
     List.length (binds_of has_result_sql tr) = len (drop_duplicates sub)).
Proof.
  cbv zeta. split; [vm_compute; reflexivity|].
  apply (inspections_one_per_row (H := pipeline_world) (H0 := demo_runtime)
           numeric_analyzer 0%nat numeric_frame).
  - reflexivity.
  - vm_compute. reflexivity.
Defined.

Lemma float_rows_write_float_ids_witness :
  bind_column 0
    (binds_of entities_sql
       (trace (Analyzer.create_nodes (H := pipeline_world) (H0 := demo_runtime)
                 numeric_analyzer 0%nat)))
  = [CStr "101"; CStr "102"] /\
  bind_column 0
    (binds_of Analyzer.inspection_sql
       (trace (Analyzer.create_inspections_and_relationships
                 (H := pipeline_world) (H0 := demo_runtime)
                 numeric_analyzer 0%nat)))
  = [CStr "101.0"; CStr "102.0"; CStr "101.0"].
Proof.
  destruct (float_rows_write_float_ids
              (H := pipeline_world) (H0 := demo_runtime)
              numeric_analyzer numeric_analyzer 0%nat 0%nat numeric_frame 0%nat
              eq_refl eq_refl eq_refl eq_refl)
    as [Hentities Hinspections].
  - vm_compute. reflexivity.
  - vm_compute. reflexivity.
  - rewrite Hentities, Hinspections. split; reflexivity.
Defined.
